(** * TonVera staking pool: reward distribution and ledger accounting

    A shallow embedding of the server-side ledger code
    (server/firestoreManager.ts, server/adminWallet.ts, the reward
    scheduler built on server/firebaseStorage.ts and the referral route of
    server/routes.ts), and the properties of its reward distribution,
    referral bonus, withdrawal and deposit operations.

    Amounts are JavaScript numbers in the source, that is IEEE 754 binary64
    values, stored in the document store as decimal strings produced by
    [toFixed(9)] and read back with [parseFloat].  They are embedded as
    Rocq's primitive binary64 floats and as strings, with the two
    conversions written out. *)

From Stdlib Require Import ZArith Bool List Ascii String.
From Stdlib Require Import Numbers.Cyclic.Int63.Uint63.
From Stdlib Require Import Floats.PrimFloat Floats.SpecFloat Floats.FloatOps
  Floats.FloatAxioms.
From Stdlib Require Import QArith Qcanon.
From stdpp Require Import base option list sorting gmap strings.

Set Warnings "-inexact-float".

(** ** JavaScript numbers and their decimal text *)

Module JS.

Local Open Scope Z_scope.

(** The binary64 value nearest to the non-negative rational [p / q]
    ([0 <= p], [0 < q]), ties to the even significand; the sign is applied
    afterwards.  This is the rounding that reading a decimal literal
    performs. *)
Definition nearest (neg : bool) (p q : Z) : float :=
  let pos :=
    if p =? 0 then PrimFloat.zero
    else
      let d0 := Z.log2 p - Z.log2 q in
      (* floor (log2 (p/q)) is d0 or d0 - 1 *)
      let d := if (if 0 <=? d0 then q * 2 ^ d0 <=? p else q <=? p * 2 ^ (- d0))
               then d0 else d0 - 1 in
      let e := Z.max (d - 52) (-1074) in
      let num := if 0 <=? e then p else p * 2 ^ (- e) in
      let den := if 0 <=? e then q * 2 ^ e else q in
      let m := num / den in
      let r := num mod den in
      let m' := match 2 * r ?= den with
                | Gt => m + 1
                | Eq => if Z.even m then m else m + 1
                | Lt => m
                end in
      if 1024 <? d then PrimFloat.infinity
      else FloatOps.Z.ldexp (PrimFloat.of_uint63 (Uint63.of_Z m')) e in
  if neg then PrimFloat.opp pos else pos.

(** The exact value of a finite non-zero float, as [m * 2^e]. *)
Definition exact (x : float) : option (positive * Z) :=
  match Prim2SF x with
  | S754_finite _ m e => Some (m, e)
  | _ => None
  end.

(** *** Decimal digits *)

Definition isDigit (c : ascii) : bool :=
  let n := N_of_ascii c in (48 <=? n)%N && (n <=? 57)%N.

Definition digitVal (c : ascii) : Z := Z.of_N (N_of_ascii c) - 48.

Definition digitsVal (ds : list ascii) : Z :=
  fold_left (fun acc c => 10 * acc + digitVal c) ds 0.

Fixpoint takeDigits (l : list ascii) : list ascii * list ascii :=
  match l with
  | c :: r => if isDigit c then let (ds, rest) := takeDigits r in (c :: ds, rest)
              else ([], l)
  | [] => ([], [])
  end.

Definition digitChar (d : Z) : ascii := ascii_of_N (Z.to_N (48 + d)).

(** Decimal digits of a non-negative integer, most significant first;
    [fuel] bounds the number of digits. *)
Fixpoint digitsOf (fuel : nat) (n : Z) (acc : list ascii) : list ascii :=
  match fuel with
  | O => acc
  | S k => let acc' := digitChar (n mod 10) :: acc in
           if n <? 10 then acc' else digitsOf k (n / 10) acc'
  end.

Definition decimal (n : Z) : list ascii :=
  digitsOf (S (Z.to_nat (Z.log2 n))) n [].

(** *** parseFloat *)

(** The white space [parseFloat] skips, among ASCII characters: the
    amounts and balances read here are written by [toFixed] or checked
    against [/^\d+(\.\d+)?$/]. *)
Definition isWhite (c : ascii) : bool :=
  let n := N_of_ascii c in
  ((9 <=? n)%N && (n <=? 13)%N) || (n =? 32)%N.

Fixpoint trimStart (l : list ascii) : list ascii :=
  match l with
  | c :: r => if isWhite c then trimStart r else l
  | [] => []
  end.

Fixpoint startsWith (pre l : list ascii) : bool :=
  match pre, l with
  | [], _ => true
  | a :: pre', b :: l' => Ascii.eqb a b && startsWith pre' l'
  | _ :: _, [] => false
  end.

(** The optional exponent part: [e] or [E], an optional sign and at least
    one digit; anything else is not part of the literal. *)
Definition exponentPart (l : list ascii) : Z :=
  match l with
  | c :: r =>
      if Ascii.eqb c "e" || Ascii.eqb c "E" then
        match r with
        | s :: r' =>
            if Ascii.eqb s "-" then
              match takeDigits r' with ([], _) => 0 | (ds, _) => - digitsVal ds end
            else if Ascii.eqb s "+" then
              match takeDigits r' with ([], _) => 0 | (ds, _) => digitsVal ds end
            else
              match takeDigits r with ([], _) => 0 | (ds, _) => digitsVal ds end
        | [] => 0
        end
      else 0
  | [] => 0
  end.

(** The longest prefix that is an unsigned decimal literal, as a mantissa
    and a power of ten; [None] when no prefix is one. *)
Definition unsignedLiteral (l : list ascii) : option (Z * Z) :=
  let (ip, r1) := takeDigits l in
  match r1 with
  | c :: r =>
      if Ascii.eqb c "." then
        let (fp, r2) := takeDigits r in
        match ip, fp with
        | [], [] => None
        | _, _ => Some (digitsVal (ip ++ fp),
                        exponentPart r2 - Z.of_nat (length fp))
        end
      else
        match ip with
        | [] => None
        | _ => Some (digitsVal ip, exponentPart r1)
        end
  | [] => match ip with [] => None | _ => Some (digitsVal ip, 0) end
  end.

Definition parseUnsigned (neg : bool) (l : list ascii) : float :=
  if startsWith (list_ascii_of_string "Infinity") l then
    (if neg then PrimFloat.neg_infinity else PrimFloat.infinity)
  else
    match unsignedLiteral l with
    | None => PrimFloat.nan
    | Some (m, e10) =>
        if 0 <=? e10 then nearest neg (m * 10 ^ e10) 1
        else nearest neg m (10 ^ (- e10))
    end.

Definition parseFloat (s : string) : float :=
  match trimStart (list_ascii_of_string s) with
  | c :: r =>
      if Ascii.eqb c "-" then parseUnsigned true r
      else if Ascii.eqb c "+" then parseUnsigned false r
      else parseUnsigned false (c :: r)
  | [] => PrimFloat.nan
  end.

(** *** Number.prototype.toString

    The shortest digit string that reads back as the same number. *)

(** A positive finite float [m * 2^e] as a ratio [P / Q]. *)
Definition ratioOf (m : positive) (e : Z) : Z * Z :=
  if 0 <=? e then (Z.pos m * 2 ^ e, 1) else (Z.pos m, 2 ^ (- e)).

(** [10^n <= P / Q] *)
Definition lePow10 (n P Q : Z) : bool :=
  if 0 <=? n then Q * 10 ^ n <=? P else Q <=? P * 10 ^ (- n).

Fixpoint adjustUp (fuel : nat) (n P Q : Z) : Z :=
  match fuel with
  | O => n
  | S f => if lePow10 n P Q then adjustUp f (n + 1) P Q else n
  end.

Fixpoint adjustDown (fuel : nat) (n P Q : Z) : Z :=
  match fuel with
  | O => n
  | S f => if lePow10 (n - 1) P Q then n else adjustDown f (n - 1) P Q
  end.

(** The [n] with [10^(n-1) <= P/Q < 10^n], from a base-2 estimate. *)
Definition decimalExponent (P Q : Z) : Z :=
  let est := ((Z.log2 P - Z.log2 Q) * 30103) / 100000 in
  adjustDown 4 (adjustUp 4 est P Q) P Q.

(** [s * 10^t] as a float. *)
Definition scaled (s t : Z) : float :=
  if 0 <=? t then nearest false (s * 10 ^ t) 1 else nearest false s (10 ^ (- t)).

(** The fewest digits [k] and the integer [s] such that [s * 10^(n-k)]
    reads back as [x]; of two candidates the one closer to [x]. *)
Fixpoint shortest (x : float) (P Q n : Z) (k : Z) (left : nat) : Z * Z :=
  let t := n - k in
  let lo := if 0 <=? t then P / (Q * 10 ^ t) else (P * 10 ^ (- t)) / Q in
  let hi := lo + 1 in
  match left with
  | O => (lo, t)
  | S left' =>
      let okLo := PrimFloat.eqb (scaled lo t) x in
      let okHi := PrimFloat.eqb (scaled hi t) x in
      let twice := if 0 <=? t then 2 * P ?= (2 * lo + 1) * 10 ^ t * Q
                   else 2 * P * 10 ^ (- t) ?= (2 * lo + 1) * Q in
      if okLo && okHi then
        match twice with
        | Lt => (lo, t)
        | Gt => (hi, t)
        | Eq => if Z.even lo then (lo, t) else (hi, t)
        end
      else if okLo then (lo, t)
      else if okHi then (hi, t)
      else shortest x P Q n (k + 1) left'
  end.

Fixpoint dropTrailingZeros (rev_ds : list ascii) : list ascii :=
  match rev_ds with
  | c :: r => if Ascii.eqb c "0" then dropTrailingZeros r else rev_ds
  | [] => []
  end.

Definition zeros (n : Z) : list ascii := repeat "0"%char (Z.to_nat n).

(** Number::toString of a positive finite float. *)
Definition positiveToString (x : float) (m : positive) (e : Z) : list ascii :=
  let (P, Q) := ratioOf m e in
  let (s, t) := shortest x P Q (decimalExponent P Q) 1 17 in
  let all := decimal s in
  let ds := rev (dropTrailingZeros (rev all)) in
  let k := Z.of_nat (length ds) in
  let n := Z.of_nat (length all) + t in
  if (k <=? n) && (n <=? 21) then ds ++ zeros (n - k)
  else if (0 <? n) && (n <=? 21) then
    firstn (Z.to_nat n) ds ++ "."%char :: skipn (Z.to_nat n) ds
  else if (-6 <? n) && (n <=? 0) then
    "0"%char :: "."%char :: zeros (- n) ++ ds
  else
    let ex := (if 0 <? n - 1 then "+"%char else "-"%char) :: decimal (Z.abs (n - 1)) in
    match ds with
    | d :: [] => d :: "e"%char :: ex
    | d :: rest => d :: "."%char :: rest ++ "e"%char :: ex
    | [] => []
    end.

Definition numberToString (x : float) : string :=
  if PrimFloat.is_nan x then "NaN"%string
  else
    let neg := PrimFloat.ltb x PrimFloat.zero in
    let a := PrimFloat.abs x in
    if PrimFloat.is_infinity a then
      (if neg then "-Infinity" else "Infinity")%string
    else
      match exact a with
      | None => "0"%string
      | Some (m, e) =>
          string_of_list_ascii
            ((if neg then ["-"%char] else []) ++ positiveToString a m e)
      end.

(** *** Number.prototype.toFixed *)

Definition toFixed (x : float) (fractionDigits : nat) : string :=
  if PrimFloat.is_nan x then "NaN"%string
  else
    let neg := PrimFloat.ltb x PrimFloat.zero in
    let a := PrimFloat.abs x in
    if PrimFloat.is_infinity a then
      (if neg then "-Infinity" else "Infinity")%string
    else
      let f := Z.of_nat fractionDigits in
      match exact a with
      | None =>
          (* zero *)
          string_of_list_ascii
            ("0"%char ::
             match fractionDigits with
             | O => []
             | _ => "."%char :: repeat "0"%char fractionDigits
             end)
      | Some (m, e) =>
          if PrimFloat.leb 1e21%float a then
            string_of_list_ascii
              ((if neg then ["-"%char] else []) ++ positiveToString a m e)
          else
            (* the integer n with n / 10^f nearest to the value, the larger
               one on a tie *)
            let n := if 0 <=? e then Z.pos m * 2 ^ e * 10 ^ f
                     else (2 * (Z.pos m * 10 ^ f) + 2 ^ (- e)) / (2 * 2 ^ (- e)) in
            let ds := decimal n in
            let padded := repeat "0"%char (S fractionDigits - length ds) ++ ds in
            let ip := firstn (length padded - fractionDigits) padded in
            let fp := skipn (length padded - fractionDigits) padded in
            string_of_list_ascii
              ((if neg then ["-"%char] else []) ++ ip ++
               match fractionDigits with O => [] | _ => "."%char :: fp end)
      end.

End JS.

(** ** Arithmetic

    The reward formulas are written once, over the four operations of a
    JavaScript [number] and its decimal literals.  [binary64] is the
    arithmetic the code runs on; [rational] is exact arithmetic on
    fractions, used to tell which identities hold before rounding. *)

Class Arith (num : Type) := {
  nadd : num -> num -> num;
  nsub : num -> num -> num;
  nmul : num -> num -> num;
  ndiv : num -> num -> num;
  (** [lit m e] is the literal with digits [m] and [e] fraction digits:
      [lit 87 3] is [0.087] *)
  lit : Z -> nat -> num
}.

Declare Scope num_scope.
Delimit Scope num_scope with num.
Infix "+" := nadd : num_scope.
Infix "-" := nsub : num_scope.
Infix "*" := nmul : num_scope.
Infix "/" := ndiv : num_scope.

#[export] Instance binary64 : Arith float := {
  nadd := PrimFloat.add;
  nsub := PrimFloat.sub;
  nmul := PrimFloat.mul;
  ndiv := PrimFloat.div;
  lit m e := JS.nearest (m <? 0)%Z (Z.abs m) (10 ^ Z.of_nat e)
}.

#[export] Instance rational : Arith Qc := {
  nadd := Qcplus;
  nsub := Qcminus;
  nmul := Qcmult;
  ndiv := Qcdiv;
  lit m e := Q2Qc (Qmake m (Z.to_pos (10 ^ Z.of_nat e)))
}.

(** Sum of a list of numbers, from the left, starting at [0] (the
    [reduce((sum, x) => sum + x, 0)] of the source). *)
Definition total {num : Type} `{Arith num} (l : list num) : num :=
  fold_left nadd l (lit 0 0).

(** *** The per-account formulas of [distributeUserRewardWithPremium] and
    [processReferralBonus] (server/firestoreManager.ts) *)

Section RewardFormulas.
Context {num : Type} `{Arith num}.
Local Open Scope num_scope.

(** [const apyRate = isPremium ? 0.105 : 0.087] *)
Definition apyRate (isPremium : bool) : num :=
  if isPremium then lit 105 3 else lit 87 3.

(** [const dailyRate = apyRate / 365] *)
Definition dailyRate (isPremium : bool) : num :=
  apyRate isPremium / lit 365 0.

(** [const userReward = userStake * dailyRate] *)
Definition userReward (userStake : num) (isPremium : bool) : num :=
  userStake * dailyRate isPremium.

(** [const adminCommission = userReward * 0.12] *)
Definition adminCommission (reward : num) : num :=
  reward * lit 12 2.

(** [const netUserReward = userReward - adminCommission] *)
Definition netUserReward (reward : num) : num :=
  reward - adminCommission reward.

(** [const referralBonus = refereeReward * 0.10] *)
Definition referralBonus (refereeReward : num) : num :=
  refereeReward * lit 10 2.

(** An account as the formulas see it: its stake and whether the premium
    rate applies. *)
Definition gross (a : num * bool) : num := userReward (fst a) (snd a).
Definition commission (a : num * bool) : num := adminCommission (gross a).
Definition net (a : num * bool) : num := netUserReward (gross a).
End RewardFormulas.

(** *** The pool-level formulas of [calculateAndDistributeRewards] *)

Section PoolFormulas.
Context {num : Type} `{Arith num}.
Local Open Scope num_scope.

Definition ADMIN_COMMISSION_RATE : num := lit 12 2.
Definition REFERRAL_BONUS_RATE : num := lit 10 2.

(** [const adminCommission = grossRewards * ADMIN_COMMISSION_RATE] *)
Definition poolCommission (grossRewards : num) : num :=
  grossRewards * ADMIN_COMMISSION_RATE.

(** [const netRewards = grossRewards - adminCommission] *)
Definition netRewards (grossRewards : num) : num :=
  grossRewards - poolCommission grossRewards.

(** [const userShare = user.stakedAmount / totalPoolStaked] *)
Definition userShare (stakedAmount totalPoolStaked : num) : num :=
  stakedAmount / totalPoolStaked.

(** [const userReward = netRewards * userShare] *)
Definition poolUserReward (grossRewards stakedAmount totalPoolStaked : num) : num :=
  netRewards grossRewards * userShare stakedAmount totalPoolStaked.

(** [const referralBonus = userReward * REFERRAL_BONUS_RATE] *)
Definition poolReferralBonus (reward : num) : num :=
  reward * REFERRAL_BONUS_RATE.
End PoolFormulas.

(** ** Asynchronous store operations

    Every [await]ed store call is a request that the store either carries
    out or rejects; a rejected request throws and changes nothing.  Which
    requests are rejected is given by a schedule [fault], a function of
    the number of requests issued so far and of the request.  An exception
    does not undo earlier writes: state is threaded through both
    outcomes. *)

Inductive Collection := Users | Transactions | Pool | Referrals | Analytics.

Inductive Request :=
  | Get (c : Collection) (doc : string)
  | Query (c : Collection)
  | SetDoc (c : Collection) (doc : string)
  | Update (c : Collection) (doc : string)
  | Add (c : Collection).

Inductive Error :=
  | Unavailable (r : Request)               (* the store rejected the request *)
  | NotFound (c : Collection) (doc : string) (* update of a missing document *)
  | ErrorMsg (message : string)             (* [new Error(message)] *)
  | TypeError (message : string).

Inductive Outcome (A : Type) :=
  | Returned (a : A)
  | Thrown (e : Error).
Arguments Returned {A} a.
Arguments Thrown {A} e.

(** The world: the documents [data], the wall clock and the number of
    requests issued so far. *)
Record World (D : Type) := mkWorld {
  data : D;
  clock : Z;
  requests : nat
}.
Arguments mkWorld {D}.
Arguments data {D}.
Arguments clock {D}.
Arguments requests {D}.

Definition Async (D A : Type) : Type := World D -> Outcome A * World D.

Definition ret {D A} (a : A) : Async D A := fun w => (Returned a, w).

Definition throw {D A} (e : Error) : Async D A := fun w => (Thrown e, w).

Definition bind {D A B} (m : Async D A) (k : A -> Async D B) : Async D B :=
  fun w =>
    match m w with
    | (Returned a, w') => k a w'
    | (Thrown e, w') => (Thrown e, w')
    end.

(** [try { m } catch (e) { h e }] *)
Definition tryCatch {D A} (m : Async D A) (h : Error -> Async D A) : Async D A :=
  fun w =>
    match m w with
    | (Returned a, w') => (Returned a, w')
    | (Thrown e, w') => h e w'
    end.

Definition getWorld {D} : Async D (World D) := fun w => (Returned w, w).

(** [new Date()], [Date.now()], [Timestamp.now()] *)
Definition currentTime {D} : Async D Z := fun w => (Returned (clock w), w).

Definition modify {D} (f : D -> D) : Async D unit :=
  fun w => (Returned tt, mkWorld (f (data w)) (clock w) (requests w)).

Notation "x <- m ;; k" := (bind m (fun x => k))
  (at level 100, m at next level, k at level 200, right associativity).
Notation "m ;; k" := (bind m (fun _ => k))
  (at level 100, k at level 200, right associativity).

(** [for (const x of l) { await body x }] *)
Fixpoint forEach {D A} (l : list A) (body : A -> Async D unit) : Async D unit :=
  match l with
  | [] => ret tt
  | x :: rest => body x ;; forEach rest body
  end.

Section Requests.
Variable fault : nat -> Request -> bool.

Definition request {D} (r : Request) : Async D unit :=
  fun w =>
    let w' := mkWorld (data w) (clock w) (S (requests w)) in
    if fault (requests w) r then (Thrown (Unavailable r), w')
    else (Returned tt, w').
End Requests.

(** The schedule under which the store carries out every request. *)
Definition reliable : nat -> Request -> bool := fun _ _ => false.

(** [s || d] on strings: the empty string is falsy. *)
Definition strOr (s d : string) : string :=
  if String.eqb s EmptyString then d else s.

(** [x || 0] on numbers: [NaN] and both zeros are falsy. *)
Definition numOr0 (x : float) : float :=
  if PrimFloat.is_nan x || PrimFloat.eqb x PrimFloat.zero then PrimFloat.zero else x.

(** A [Date] object: its time value in milliseconds, or an Invalid
    Date. *)
Inductive Date := ValidDate (time : Z) | InvalidDate.

(** [new Date(x)] for a date field [x] read back from the store.  A
    [Date] handed to the store is kept as a Firestore [Timestamp] and
    read back as one.  [new Date] takes the primitive value of that
    object, which is the text its [valueOf()] returns (seconds and
    nanoseconds, zero padded); that text is not a date, so the result is
    an Invalid Date whatever the instant [stamp] that was stored. *)
Definition dateOfStored (stamp : Z) : Date := InvalidDate.

(** [d > now] and [d < now] for the current time [now]: a comparison
    with an Invalid Date, whose time value is [NaN], is false. *)
Definition dateAfter (d : Date) (now : Z) : bool :=
  match d with
  | ValidDate t => (now <? t)%Z
  | InvalidDate => false
  end.

Definition dateBefore (d : Date) (now : Z) : bool :=
  match d with
  | ValidDate t => (t <? now)%Z
  | InvalidDate => false
  end.

(** Truthiness of an optional string field. *)
Definition truthy (o : option string) : bool :=
  match o with
  | Some s => negb (String.eqb s EmptyString)
  | None => false
  end.

(** ** server/firestoreManager.ts *)

Module Firestore.

(** [interface UserData], with the premium fields that
    [updateUserPremiumStatus] adds to a user document.  Times are
    milliseconds since the epoch.  [premiumExpiresAt] is the instant of
    the [Date] that [updateUserPremiumStatus] stored, which the store
    returns as a [Timestamp]; [None] is a field that is [null] or
    missing. *)
Record UserData := mkUser {
  id : string;
  walletAddress : option string;
  stakedAmount : string;
  rewardsBalance : string;
  referralCode : string;
  referredBy : option string;
  totalEarnings : string;
  joinedAt : Z;
  isPremium : bool;
  premiumExpiresAt : option Z;
  premiumRate : option string;
  updatedAt : option Z
}.

(** [Partial<UserData>]: the fields an update carries. *)
Record UserPatch := mkPatch {
  setWalletAddress : option string;
  setStakedAmount : option string;
  setRewardsBalance : option string;
  setReferredBy : option string;
  setTotalEarnings : option string;
  setIsPremium : option bool;
  setPremiumExpiresAt : option (option Z);
  setPremiumRate : option string
}.

(** [userRef.update({ ...updates, updatedAt })] on the stored fields. *)
Definition applyPatch (u : UserData) (p : UserPatch) (now : Z) : UserData :=
  {| id := id u;
     walletAddress := match setWalletAddress p with Some a => Some a | None => walletAddress u end;
     stakedAmount := default (stakedAmount u) (setStakedAmount p);
     rewardsBalance := default (rewardsBalance u) (setRewardsBalance p);
     referralCode := referralCode u;
     referredBy := match setReferredBy p with Some r => Some r | None => referredBy u end;
     totalEarnings := default (totalEarnings u) (setTotalEarnings p);
     joinedAt := joinedAt u;
     isPremium := default (isPremium u) (setIsPremium p);
     premiumExpiresAt := default (premiumExpiresAt u) (setPremiumExpiresAt p);
     premiumRate := match setPremiumRate p with Some r => Some r | None => premiumRate u end;
     updatedAt := Some now |}.

Inductive TxType := deposit | withdraw | reward | referral.
Inductive TxStatus := pending | completed | failed.

(** [interface TransactionData] *)
Record TransactionData := mkTx {
  userId : string;
  type : TxType;
  amount : string;
  timestamp : Z;
  status : TxStatus;
  txHash : option string;
  description : string
}.

(** A document of the [transactions] collection: one written by
    [logTransaction], or the record that [updateUserPremiumStatus] adds. *)
Inductive TransactionDoc :=
  | Logged (t : TransactionData)
  | PremiumPayment (telegramId : string) (amount : float) (status : TxStatus)
                   (description : string) (createdAt : Z).

(** [interface PoolData] *)
Record PoolData := mkPool {
  totalStaked : string;
  totalRewards : string;
  poolDailyRate : string;
  adminWallet : string;
  lastRewardDistribution : option Z;
  lastDeposit : option string;
  lastWithdrawal : option string;
  poolAdminCommission : option string;
  poolUpdatedAt : option Z
}.

(** [Partial<PoolData>] *)
Record PoolPatch := mkPoolPatch {
  setTotalStaked : option string;
  setTotalRewards : option string;
  setPoolDailyRate : option string;
  setAdminWallet : option string;
  setLastRewardDistribution : option Z;
  setLastDeposit : option string;
  setLastWithdrawal : option string;
  setPoolAdminCommission : option string
}.

(** [poolRef.update({ ...updates, updatedAt })] *)
Definition applyPoolPatch (p : PoolData) (u : PoolPatch) (now : Z) : PoolData :=
  {| totalStaked := default (totalStaked p) (setTotalStaked u);
     totalRewards := default (totalRewards p) (setTotalRewards u);
     poolDailyRate := default (poolDailyRate p) (setPoolDailyRate u);
     adminWallet := default (adminWallet p) (setAdminWallet u);
     lastRewardDistribution :=
       match setLastRewardDistribution u with
       | Some t => Some t
       | None => lastRewardDistribution p
       end;
     lastDeposit :=
       match setLastDeposit u with Some t => Some t | None => lastDeposit p end;
     lastWithdrawal :=
       match setLastWithdrawal u with Some t => Some t | None => lastWithdrawal p end;
     poolAdminCommission :=
       match setPoolAdminCommission u with
       | Some t => Some t
       | None => poolAdminCommission p
       end;
     poolUpdatedAt := Some now |}.

(** The documents [FirestoreManager] works on. *)
Record Db := mkDb {
  users : gmap string UserData;
  transactions : list TransactionDoc;
  pool : option PoolData
}.

Definition withUsers (f : gmap string UserData -> gmap string UserData) (d : Db) : Db :=
  mkDb (f (users d)) (transactions d) (pool d).

Definition withTransactions (f : list TransactionDoc -> list TransactionDoc) (d : Db) : Db :=
  mkDb (users d) (f (transactions d)) (pool d).

Definition withPool (p : PoolData) (d : Db) : Db :=
  mkDb (users d) (transactions d) (Some p).

(** *** Query order

    A query returns documents ordered by the filtered field, then by
    document name; strings compare byte-wise. *)

Definition byName (a b : string * UserData) : Prop :=
  String.leb (fst a) (fst b) = true.

Definition byStakeThenName (a b : string * UserData) : Prop :=
  match String.compare (stakedAmount (snd a)) (stakedAmount (snd b)) with
  | Lt => True
  | Eq => String.leb (fst a) (fst b) = true
  | Gt => False
  end.

#[local] Instance byName_dec a b : Decision (byName a b).
Proof. unfold byName. apply _. Defined.

#[local] Instance byStakeThenName_dec a b : Decision (byStakeThenName a b).
Proof. unfold byStakeThenName. destruct (String.compare _ _); apply _. Defined.

(** [collection('users').where('referralCode', '==', code).limit(1)]:
    the name of the first document with that referral code. *)
Definition findByReferralCode (m : gmap string UserData) (code : string) : option string :=
  fst <$> List.find (fun d => String.eqb (referralCode (snd d)) code)
            (merge_sort byName (map_to_list m)).

(** [collection('users').where('stakedAmount', '>', '0')], each document
    as [{ id: doc.id, ...doc.data() }]; the comparison is on the stored
    strings. *)
Definition usersWithStakes (m : gmap string UserData) : list UserData :=
  snd <$> merge_sort byStakeThenName
            (List.filter (fun d => String.ltb "0" (stakedAmount (snd d))) (map_to_list m)).

(** The identifier the store gives the [n]-th added document (a stand-in
    for its random identifier). *)
Definition autoId (n : nat) : string :=
  String.append "doc" (string_of_list_ascii (JS.decimal (Z.of_nat n))).

Section Manager.
Variable fault : nat -> Request -> bool.

(** [private generateReferralCode(userId)]: built from the time and a
    random draw, here any function of the user and the time. *)
Variable generateReferralCode : string -> Z -> string.

Abbreviation Async := (Async Db).
Abbreviation request := (request fault).

(** [async getUserData(userId)] *)
Definition getUserData (userId : string) : Async UserData :=
  tryCatch
    (request (Get Users userId) ;;
     w <- getWorld ;;
     match users (data w) !! userId with
     | None =>
         let userData :=
           {| id := userId; walletAddress := None;
              stakedAmount := "0"; rewardsBalance := "0";
              referralCode := generateReferralCode userId (clock w);
              referredBy := None; totalEarnings := "0";
              joinedAt := clock w;
              isPremium := false; premiumExpiresAt := None;
              premiumRate := None; updatedAt := None |} in
         request (SetDoc Users userId) ;;
         modify (withUsers (insert userId userData)) ;;
         ret userData
     | Some d => ret d
     end)
    (fun error => throw error).

(** [async updateUserBalance(userId, updates)] *)
Definition updateUserBalance (userId : string) (updates : UserPatch) : Async unit :=
  tryCatch
    (request (Update Users userId) ;;
     w <- getWorld ;;
     match users (data w) !! userId with
     | None => throw (NotFound Users userId)
     | Some u => modify (withUsers (insert userId (applyPatch u updates (clock w))))
     end)
    (fun error => throw error).

(** [async processReferral(userId, referralCode)] *)
Definition processReferral (userId : string) (code : string) : Async bool :=
  tryCatch
    (request (Query Users) ;;
     w <- getWorld ;;
     match findByReferralCode (users (data w)) code with
     | None => ret false
     | Some referrerId =>
         if String.eqb referrerId userId then ret false
         else
           updateUserBalance userId
             (mkPatch None None None (Some referrerId) None None None None) ;;
           ret true
     end)
    (fun error => ret false).

(** [async logTransaction(transaction)] *)
Definition logTransaction (transaction : TransactionData) : Async string :=
  tryCatch
    (request (Add Transactions) ;;
     w <- getWorld ;;
     let stored :=
       mkTx (userId transaction) (type transaction) (amount transaction)
            (clock w) (status transaction) (txHash transaction)
            (description transaction) in
     modify (withTransactions (fun l => l ++ [Logged stored])) ;;
     ret (autoId (length (transactions (data w)))))
    (fun error => throw error).

(** [async getAllUsersWithStakes()] *)
Definition getAllUsersWithStakes : Async (list UserData) :=
  tryCatch
    (request (Query Users) ;;
     w <- getWorld ;;
     ret (usersWithStakes (users (data w))))
    (fun error => throw error).

(** [async updatePool(updates)] *)
Definition updatePool (updates : PoolPatch) : Async unit :=
  tryCatch
    (request (Update Pool "main") ;;
     w <- getWorld ;;
     match pool (data w) with
     | None => throw (NotFound Pool "main")
     | Some p => modify (withPool (applyPoolPatch p updates (clock w)))
     end)
    (fun error => throw error).

(** [async getPoolData()] *)
Definition getPoolData : Async PoolData :=
  tryCatch
    (request (Get Pool "main") ;;
     w <- getWorld ;;
     match pool (data w) with
     | None => throw (ErrorMsg "Pool data not found")
     | Some p => ret p
     end)
    (fun error => throw error).

(** [export async function updateUserPremiumStatus(telegramId, isPremium,
    expiresAt, rate)]: one update of the user document, then one added
    transaction document. *)
Definition updateUserPremiumStatus (telegramId : string) (premium : bool)
  (expiresAt : option Z) (rate : string) : Async unit :=
  tryCatch
    (request (Update Users telegramId) ;;
     w <- getWorld ;;
     match users (data w) !! telegramId with
     | None => throw (NotFound Users telegramId)
     | Some u =>
         modify (withUsers (insert telegramId
           (applyPatch u
              (mkPatch None None None None None (Some premium) (Some expiresAt) (Some rate))
              (clock w))))
     end ;;
     request (Add Transactions) ;;
     w' <- getWorld ;;
     modify (withTransactions (fun l => l ++
       [PremiumPayment telegramId (if premium then 2.0%float else 0%float) completed
          (if premium then "Premium subscription activated"
           else "Premium subscription expired")
          (clock w')])))
    (fun error => throw error).

(** [parseFloat(user.stakedAmount || '0')] *)
Definition userStake (user : UserData) : float :=
  JS.parseFloat (strOr (stakedAmount user) "0").

(** [user.isPremium && (!user.premiumExpiresAt ||
    new Date(user.premiumExpiresAt) > now)] *)
Definition premiumActive (user : UserData) (now : Z) : bool :=
  isPremium user &&
  match premiumExpiresAt user with
  | None => true
  | Some stamp => dateAfter (dateOfStored stamp) now
  end.

(** [user.isPremium && user.premiumExpiresAt &&
    new Date(user.premiumExpiresAt) < now] *)
Definition premiumLapsed (user : UserData) (now : Z) : bool :=
  isPremium user &&
  match premiumExpiresAt user with
  | None => false
  | Some stamp => dateBefore (dateOfStored stamp) now
  end.

(** The net reward of an account at time [now]:
    [userStake * dailyRate - userStake * dailyRate * 0.12]. *)
Definition netRewardOf (user : UserData) (now : Z) : float :=
  netUserReward (userReward (userStake user) (premiumActive user now)).

(** The two balance fields after a credit of [credit]:
    [(parseFloat(balance || '0') + credit).toFixed(9)]. *)
Definition credited (balance : string) (credit : float) : string :=
  JS.toFixed (JS.parseFloat (strOr balance "0") + credit)%float 9.

Definition creditPatch (u : UserData) (credit : float) : UserPatch :=
  mkPatch None None (Some (credited (rewardsBalance u) credit)) None
          (Some (credited (totalEarnings u) credit)) None None None.

(** [async function processReferralBonus(referrerId, refereeReward,
    refereeId)] *)
Definition processReferralBonus (referrerId : string) (refereeReward : float)
  (refereeId : string) : Async unit :=
  tryCatch
    (let bonus := referralBonus refereeReward in
     referrerData <- getUserData referrerId ;;
     updateUserBalance referrerId (creditPatch referrerData bonus) ;;
     now <- currentTime ;;
     logTransaction
       (mkTx referrerId referral (JS.toFixed bonus 9) now completed None
          ("Referral bonus from user " ++ refereeId ++ " (10% of " ++
           JS.toFixed refereeReward 9 ++ " TON)")%string) ;;
     ret tt)
    (fun error => ret tt).

(** [async function distributeUserRewardWithPremium(user, totalStaked)] *)
Definition distributeUserRewardWithPremium (user : UserData) (totalStaked : float)
  : Async unit :=
  tryCatch
    (now <- currentTime ;;
     let premium := premiumActive user now in
     (if premiumLapsed user now
      then updateUserPremiumStatus (id user) false None "8.7"
      else ret tt) ;;
     let netReward := netRewardOf user now in
     updateUserBalance (id user) (creditPatch user netReward) ;;
     logTransaction
       (mkTx (id user) reward (JS.toFixed netReward 9) now completed None
          ("Daily staking reward " ++
           (if premium then "(Premium 10.5% APY)" else "(Standard 8.7% APY)"))%string) ;;
     match referredBy user with
     | Some referrer =>
         if truthy (referredBy user)
         then processReferralBonus referrer netReward (id user)
         else ret tt
     | None => ret tt
     end)
    (fun error => ret tt).

(** [users.reduce((sum, user) => sum + parseFloat(user.stakedAmount ||
    '0'), 0)] *)
Definition totalStakedOf (l : list UserData) : float :=
  fold_left (fun sum user => (sum + userStake user)%float) l 0%float.

(** [export async function distributeRewards()] *)
Definition distributeRewards : Async unit :=
  tryCatch
    (stakers <- getAllUsersWithStakes ;;
     if (length stakers =? 0)%nat then ret tt
     else
       let totalStaked := totalStakedOf stakers in
       if PrimFloat.eqb totalStaked 0 then ret tt
       else
         forEach stakers (fun user => distributeUserRewardWithPremium user totalStaked) ;;
         now <- currentTime ;;
         updatePool
           (mkPoolPatch (Some (JS.numberToString totalStaked)) None None None
                        (Some now) None None None))
    (fun error => throw error).

End Manager.

(** *** server/adminWallet.ts: the custodial deposit and withdrawal *)

(** The record the wallet hands to [addTransaction]. *)
Record WalletTransaction := mkWalletTx {
  wUserId : string;
  wType : string;
  wAmount : string;
  wStatus : string;
  wTxHash : string;
  fromAddress : string;
  toAddress : string;
  wTimestamp : Z
}.

Section AdminWallet.
Variable fault : nat -> Request -> bool.
Variable generateReferralCode : string -> Z -> string.

(** [this.getAddress()] *)
Variable adminAddress : string.

(** [addTransaction] is imported from the manager module, which does not
    define it; it is taken as given. *)
Variable addTransaction : WalletTransaction -> Async Db unit.

Abbreviation Async := (Async Db).

(** The text of [Date.now()] inside a template string. *)
Definition timeText (now : Z) : string :=
  string_of_list_ascii (JS.decimal now).

(** [async processDirectDeposit(userId, amount, userWalletAddress)] *)
Definition processDirectDeposit (userId amount userWalletAddress : string)
  : Async string :=
  tryCatch
    (updateUserBalance fault userId
       (mkPatch None (Some amount) None None None None None None) ;;
     now <- currentTime ;;
     let hash := ("deposit_" ++ timeText now ++ "_" ++ userId)%string in
     addTransaction
       (mkWalletTx userId "deposit" amount "completed" hash
          userWalletAddress adminAddress now) ;;
     ret hash)
    (fun error => throw error).

(** [async processDirectWithdrawal(userId, amount, userWalletAddress)] *)
Definition processDirectWithdrawal (userId amount userWalletAddress : string)
  : Async string :=
  tryCatch
    (userData <- getUserData fault generateReferralCode userId ;;
     let currentStaked := numOr0 (JS.parseFloat (stakedAmount userData)) in
     let currentRewards := numOr0 (JS.parseFloat (rewardsBalance userData)) in
     let totalAvailable := (currentStaked + currentRewards)%float in
     let withdrawAmount := JS.parseFloat amount in
     if PrimFloat.ltb totalAvailable withdrawAmount then
       throw (ErrorMsg ("Insufficient balance. Available: " ++
                        JS.numberToString totalAvailable ++ " TON, Requested: " ++
                        JS.numberToString withdrawAmount ++ " TON"))
     else
       let '(newStaked, newRewards) :=
         if PrimFloat.leb withdrawAmount currentRewards
         then (currentStaked, (currentRewards - withdrawAmount)%float)
         else
           let remainingFromStaked := (withdrawAmount - currentRewards)%float in
           ((currentStaked - remainingFromStaked)%float, 0%float) in
       updateUserBalance fault userId
         (mkPatch None (Some (JS.toFixed newStaked 9)) (Some (JS.toFixed newRewards 9))
                  None None None None None) ;;
       now <- currentTime ;;
       let hash := ("withdrawal_" ++ timeText now ++ "_" ++ userId)%string in
       addTransaction
         (mkWalletTx userId "withdrawal" amount "completed" hash
            adminAddress userWalletAddress now) ;;
       ret hash)
    (fun error => throw error).

End AdminWallet.

End Firestore.

(** ** server/firebaseStorage.ts, the reward scheduler
    ([calculateAndDistributeRewards]) and the referral route of
    server/routes.ts

    This is the second implementation of the distribution: users are
    documents with a [telegramId] field under generated names, the reward
    is a share of a gross figure fetched from the validators, and rewards
    are compounded into [totalStaked]. *)

Module Pool.

Record User := mkUser {
  telegramId : string;
  username : string;
  walletAddress : option string;
  appBalance : string;
  totalStaked : string;
  totalEarned : string;
  referralCode : string;
  referredBy : option string;
  isPremium : bool;
  joinedAt : Z
}.

(** [Partial<User>], for the fields the modelled callers update. *)
Record UserPatch := mkPatch {
  setWalletAddress : option string;
  setAppBalance : option string;
  setTotalStaked : option string;
  setTotalEarned : option string;
  setReferredBy : option string
}.

Definition applyPatch (u : User) (p : UserPatch) : User :=
  {| telegramId := telegramId u;
     username := username u;
     walletAddress := match setWalletAddress p with Some a => Some a | None => walletAddress u end;
     appBalance := default (appBalance u) (setAppBalance p);
     totalStaked := default (totalStaked u) (setTotalStaked p);
     totalEarned := default (totalEarned u) (setTotalEarned p);
     referralCode := referralCode u;
     referredBy := match setReferredBy p with Some r => Some r | None => referredBy u end;
     isPremium := isPremium u;
     joinedAt := joinedAt u |}.

Inductive TxType := deposit | withdraw | reward | referral_bonus.
Inductive TxStatus := pending | completed | failed.

(** [InsertTransaction] *)
Record InsertTransaction := mkInsertTx {
  txTelegramId : string;
  txType : TxType;
  txAmount : string;
  txDescription : string;
  txStatus : option TxStatus
}.

Record Transaction := mkTx {
  inserted : InsertTransaction;
  status : TxStatus;
  createdAt : Z
}.

(** [InsertReferral] and the stored [Referral] *)
Record InsertReferral := mkInsertReferral {
  referrer : string;
  referred : string;
  depositAmount : string;
  bonus : string
}.

Record Referral := mkReferral {
  referral : InsertReferral;
  date : Z
}.

(** [InsertAnalytics] *)
Record InsertAnalytics := mkAnalytics {
  anTelegramId : string;
  anDate : Z;
  anNetRewards : string;
  anGrossRewards : string;
  netApy : string;
  totalPoolBalance : string
}.

(** The [pool/config] document as the scheduler writes it. *)
Record PoolConfig := mkPoolConfig {
  cfgTotalStaked : string;
  cfgTotalRewards : string;
  lastPayout : Z;
  cfgAdminWallet : string;
  lastGrossRewards : string;
  lastAdminCommission : string;
  cfgCommission : float;
  cfgReferralBonus : float;
  stakingEnabled : bool;
  rewardsEnabled : bool;
  withdrawalsEnabled : bool;
  referralSystemEnabled : bool
}.

(** Messages handed to the Telegram bot; delivery is outside the model,
    a send records the message and does not fail. *)
Inductive Notification :=
  | DailyRewards (to userName rewardText newTotalStaked newTotalEarned : string)
                 (hasReferralBonus : bool)
  | ReferralBonus (to referrerName referredName bonusText totalReferralEarned : string).

Record Db := mkDb {
  users : gmap string User;
  referrals : list Referral;
  transactions : list Transaction;
  analytics : list InsertAnalytics;
  poolConfig : option PoolConfig;
  outbox : list Notification
}.

Definition withUsers (f : gmap string User -> gmap string User) (d : Db) : Db :=
  mkDb (f (users d)) (referrals d) (transactions d) (analytics d) (poolConfig d) (outbox d).
Definition withReferrals (f : list Referral -> list Referral) (d : Db) : Db :=
  mkDb (users d) (f (referrals d)) (transactions d) (analytics d) (poolConfig d) (outbox d).
Definition withTransactions (f : list Transaction -> list Transaction) (d : Db) : Db :=
  mkDb (users d) (referrals d) (f (transactions d)) (analytics d) (poolConfig d) (outbox d).
Definition withAnalytics (f : list InsertAnalytics -> list InsertAnalytics) (d : Db) : Db :=
  mkDb (users d) (referrals d) (transactions d) (f (analytics d)) (poolConfig d) (outbox d).
Definition withPoolConfig (c : PoolConfig) (d : Db) : Db :=
  mkDb (users d) (referrals d) (transactions d) (analytics d) (Some c) (outbox d).
Definition withOutbox (f : list Notification -> list Notification) (d : Db) : Db :=
  mkDb (users d) (referrals d) (transactions d) (analytics d) (poolConfig d) (f (outbox d)).

Definition byName (a b : string * User) : Prop :=
  String.leb (fst a) (fst b) = true.

#[local] Instance byName_dec a b : Decision (byName a b).
Proof. unfold byName. apply _. Defined.

(** The documents of [users] in query order, each with its name. *)
Definition userDocs (m : gmap string User) : list (string * User) :=
  merge_sort byName (map_to_list m).

Section Storage.
Variable fault : nat -> Request -> bool.

Abbreviation Async := (Async Db).
Abbreviation request := (request fault).

(** [async getUserByTelegramId(telegramId)]: the first document whose
    [telegramId] field matches, with its name; [undefined] on any error. *)
Definition getUserByTelegramId (tid : string) : Async (option (string * User)) :=
  tryCatch
    (request (Query Users) ;;
     w <- getWorld ;;
     ret (List.find (fun d => String.eqb (telegramId (snd d)) tid)
            (userDocs (users (data w)))))
    (fun error => ret None).

(** [async getUserByReferralCode(referralCode)] *)
Definition getUserByReferralCode (code : string) : Async (option (string * User)) :=
  tryCatch
    (request (Query Users) ;;
     w <- getWorld ;;
     ret (List.find (fun d => String.eqb (referralCode (snd d)) code)
            (userDocs (users (data w)))))
    (fun error => ret None).

(** [getDocs(collection(db, 'users'))] *)
Definition getDocs : Async (list (string * User)) :=
  request (Query Users) ;;
  w <- getWorld ;;
  ret (userDocs (users (data w))).

(** [updateDoc(doc(db, 'users', name), fields)] *)
Definition updateDoc (name : string) (p : UserPatch) : Async unit :=
  request (Update Users name) ;;
  w <- getWorld ;;
  match users (data w) !! name with
  | None => throw (NotFound Users name)
  | Some u => modify (withUsers (insert name (applyPatch u p)))
  end.

(** [async updateUser(telegramId, updates)].  The fields [id] and
    [joinedAt], which the source strips from [updates] before the write,
    are not fields of a [UserPatch]. *)
Definition updateUser (tid : string) (updates : UserPatch) : Async (option User) :=
  tryCatch
    (found <- getUserByTelegramId tid ;;
     match found with
     | None => ret None
     | Some (name, user) =>
         updateDoc name updates ;;
         ret (Some (applyPatch user updates))
     end)
    (fun error => ret None).

(** [async createReferral(insertReferral)] *)
Definition createReferral (r : InsertReferral) : Async unit :=
  tryCatch
    (now <- currentTime ;;
     request (Add Referrals) ;;
     modify (withReferrals (fun l => l ++ [mkReferral r now])))
    (fun error => throw (ErrorMsg "Failed to create referral")).

(** [async createTransaction(insertTransaction)] *)
Definition createTransaction (t : InsertTransaction) : Async unit :=
  tryCatch
    (now <- currentTime ;;
     request (Add Transactions) ;;
     modify (withTransactions (fun l => l ++
       [mkTx t (default completed (txStatus t)) now])))
    (fun error => throw (ErrorMsg "Failed to create transaction")).

(** [async createAnalytics(insertAnalytics)] *)
Definition createAnalytics (a : InsertAnalytics) : Async unit :=
  tryCatch
    (request (Add Analytics) ;;
     modify (withAnalytics (fun l => l ++ [a])))
    (fun error => throw (ErrorMsg "Failed to create analytics")).

(** [async getReferralsByReferrer(referrer)], newest first; the empty
    list on any error. *)
Definition getReferralsByReferrer (who : string) : Async (list Referral) :=
  tryCatch
    (request (Query Referrals) ;;
     w <- getWorld ;;
     ret (rev (List.filter (fun r => String.eqb (referrer (referral r)) who)
                 (referrals (data w)))))
    (fun error => ret []).

(** [async getTotalPoolSize()] *)
Definition getTotalPoolSize : Async string :=
  tryCatch
    (request (Query Users) ;;
     w <- getWorld ;;
     ret (JS.toFixed
            (fold_left (fun sum d =>
                          (sum + JS.parseFloat (strOr (totalStaked (snd d)) "0"))%float)
               (userDocs (users (data w))) 0%float) 9))
    (fun error => ret "0"%string).

(** A send to the Telegram bot. *)
Definition send (n : Notification) : Async unit :=
  modify (withOutbox (fun l => l ++ [n])).

(** The text of a caught error ([error.message]). *)
Definition messageOf (e : Error) : string :=
  match e with
  | ErrorMsg m => m
  | TypeError m => m
  | Unavailable _ => "unavailable"
  | NotFound _ _ => "not-found"
  end.

(** [await Promise.all(callbacks)].  The runtime starts every callback
    before any of them continues, and does not fix the order in which
    their requests reach the store.  Here the store serves them callback
    by callback, in list order, and a rejection is thrown once the
    remaining callbacks have finished: for two or more callbacks this is
    one order of service among those that can occur, and what is stated
    of a run through [promiseAll] is stated of this order. *)
Fixpoint promiseAll (callbacks : list (Async unit)) : Async unit :=
  match callbacks with
  | [] => ret tt
  | m :: rest =>
      fun w =>
        match m w with
        | (Returned _, w') => promiseAll rest w'
        | (Thrown e, w') => (Thrown e, snd (promiseAll rest w'))
        end
  end.

(** What the validators report ([await fetchValidatorRewards()]), and the
    admin wallet address ([getAdminWalletAddress()]); both come from
    outside. *)
Variable fetchValidatorRewards : Outcome string.
Variable adminWalletAddress : string.

(** The users with a positive stake, in snapshot order, each with its
    parsed stake ([stakingUsers]). *)
Definition stakingUsersOf (snapshot : list (string * User)) : list (string * User * float) :=
  omap (fun d =>
          let userStaked := JS.parseFloat (strOr (totalStaked (snd d)) "0") in
          if PrimFloat.ltb 0 userStaked then Some (d, userStaked) else None)
       snapshot.

(** [totalPoolStaked] *)
Definition totalPoolStakedOf (l : list (string * User * float)) : float :=
  fold_left (fun sum u => (sum + snd u)%float) l 0%float.

(** The referral part of the callback, run when the user has a referrer
    and a positive reward. *)
Definition payReferrer (user : User) (referrerId : string) (reward : float) : Async unit :=
  let referralBonus := poolReferralBonus reward in
  tryCatch
    (found <- getUserByTelegramId referrerId ;;
     match found with
     | None => ret tt
     | Some (_, referrerUser) =>
         let newReferrerBalance :=
           JS.toFixed (JS.parseFloat (strOr (appBalance referrerUser) "0") + referralBonus)%float 9 in
         updateUser referrerId (mkPatch None (Some newReferrerBalance) None None None) ;;
         createReferral
           (mkInsertReferral referrerId (telegramId user) (JS.toFixed reward 9)
                             (JS.toFixed referralBonus 9)) ;;
         createTransaction
           (mkInsertTx referrerId referral_bonus (JS.toFixed referralBonus 9)
              ("Daily referral bonus from " ++ username user) (Some completed)) ;;
         referrerEarnings <- getReferralsByReferrer referrerId ;;
         let totalReferralEarned :=
           JS.toFixed
             (fold_left (fun sum r => (sum + JS.parseFloat (bonus (referral r)))%float)
                        referrerEarnings 0%float) 9 in
         send (ReferralBonus referrerId (strOr (username referrerUser) "Unknown")
                 (strOr (username user) "Unknown") (JS.toFixed referralBonus 9)
                 totalReferralEarned)
     end)
    (fun error => ret tt).

(** The callback of [stakingUsers.map(async (user) => ...)]. *)
Definition rewardCallback (gross totalPoolStaked : float) (u : string * User * float)
  : Async unit :=
  let '(name, user, stakedAmount) := u in
  let userReward := poolUserReward gross stakedAmount totalPoolStaked in
  let newTotalStaked := JS.toFixed (stakedAmount + userReward)%float 9 in
  let newTotalEarned :=
    JS.toFixed (JS.parseFloat (strOr (totalEarned user) "0") + userReward)%float 9 in
  updateDoc name (mkPatch None None (Some newTotalStaked) (Some newTotalEarned) None) ;;
  now <- currentTime ;;
  createAnalytics
    (mkAnalytics (telegramId user) now (JS.toFixed userReward 9)
       (JS.toFixed (userReward / (1 - ADMIN_COMMISSION_RATE))%float 9) "8.7"
       (JS.toFixed totalPoolStaked 9)) ;;
  createTransaction
    (mkInsertTx (telegramId user) reward (JS.toFixed userReward 9)
       "Daily pool reward • Auto-compounded" (Some completed)) ;;
  let hasReferralBonus := truthy (referredBy user) && PrimFloat.ltb 0 userReward in
  send (DailyRewards (telegramId user) (strOr (username user) "Pool Member")
          (JS.toFixed userReward 9) newTotalStaked newTotalEarned hasReferralBonus) ;;
  match referredBy user with
  | Some referrerId =>
      if hasReferralBonus then payReferrer user referrerId userReward else ret tt
  | None => ret tt
  end.

(** [export async function calculateAndDistributeRewards()] *)
Definition calculateAndDistributeRewards : Async unit :=
  tryCatch
    (fetched <- (fun w => (fetchValidatorRewards, w)) ;;
     let grossRewards := JS.parseFloat fetched in
     if PrimFloat.leb grossRewards 0 then ret tt
     else
       let adminCommission := poolCommission grossRewards in
       let net := netRewards grossRewards in
       usersSnapshot <- getDocs ;;
       let stakingUsers := stakingUsersOf usersSnapshot in
       let totalPoolStaked := totalPoolStakedOf stakingUsers in
       if PrimFloat.eqb totalPoolStaked 0 then ret tt
       else
         promiseAll (List.map (rewardCallback grossRewards totalPoolStaked) stakingUsers) ;;
         poolSize <- getTotalPoolSize ;;
         now <- currentTime ;;
         request (SetDoc Pool "config") ;;
         modify (withPoolConfig
           (mkPoolConfig (JS.toFixed totalPoolStaked 9)
              (JS.toFixed (JS.parseFloat poolSize) 9) now adminWalletAddress
              (JS.toFixed grossRewards 9) (JS.toFixed adminCommission 9)
              ADMIN_COMMISSION_RATE REFERRAL_BONUS_RATE true true true true)) ;;
         createTransaction
           (mkInsertTx "admin" reward (JS.toFixed adminCommission 9)
              "Admin commission (12%) from daily rewards" (Some completed)))
    (fun error =>
       tryCatch
         (createTransaction
            (mkInsertTx "system" reward "0"
               ("Reward distribution failed: " ++ messageOf error) (Some failed)))
         (fun logError => ret tt)).

(** [app.post("/api/referral/register", ...)] of server/routes.ts, on
    the storage above; the result is the HTTP status of the response. *)
Definition registerReferral (tid code : string) : Async nat :=
  tryCatch
    (user <- getUserByTelegramId tid ;;
     referrerUser <- getUserByReferralCode code ;;
     match user, referrerUser with
     | Some (_, u), Some (_, r) =>
         if truthy (referredBy u) then ret 400%nat
         else if String.eqb (telegramId r) tid then ret 400%nat
         else
           updateUser tid (mkPatch None None None None (Some (telegramId r))) ;;
           ret 200%nat
     | _, _ => ret 404%nat
     end)
    (fun error => ret 500%nat).

End Storage.

End Pool.

(** ** Concrete stores used in the examples *)

Module Examples.

Import Firestore.

Definition gen (userId : string) (now : Z) : string :=
  String.append "REF" userId.

(** A staking account as [getUserData] creates it, with a stake and an
    optional referrer. *)
Definition account (name stake : string) (referrer : option string) : UserData :=
  mkUser name None stake "0" (String.append "CODE" name) referrer "0" 0 false None None None.

Definition emptyPool : PoolData :=
  mkPool "0" "0" "0.000238356164383562" "admin" None None None (Some "0") None.

(** One standard account staking 41 TON. *)
Definition dave : UserData := account "dave" "41" None.

Definition daveWorld : World Db :=
  mkWorld (mkDb {[ "dave" := dave ]} [] (Some emptyPool)) 1000 0.

(** Two standard accounts staking 1000 and 2 TON. *)
Definition twoWorld : World Db :=
  mkWorld (mkDb (<[ "erin" := account "erin" "1000" None ]>
                   {[ "frank" := account "frank" "2" None ]})
                [] (Some emptyPool)) 1000 0.




(** A stake of 310 digits: a one and 309 zeros. *)
Definition hugeStake : string :=
  String.append "1" (string_of_list_ascii (List.repeat "0"%char 309)).

(** Three standard accounts; the store rejects every update of the
    first one's document. *)
Definition xyzWorld : World Db :=
  mkWorld (mkDb (<[ "xavier" := account "xavier" "100" None ]>
                   (<[ "yara" := account "yara" "200" None ]>
                      {[ "zoe" := account "zoe" "300" None ]}))
                [] (Some emptyPool)) 1000 0.

Definition rejectXavier (n : nat) (r : Request) : bool :=
  match r with
  | Update Users doc => String.eqb doc "xavier"
  | _ => false
  end.

(** The store rejects the third request it receives and no other: in a
    run on [xyzWorld], after the stake query and the update of the first
    account, that is the first account's reward record. *)
Definition rejectThird (n : nat) (r : Request) : bool := (n =? 2)%nat.

(** An account whose premium tier ran out at time 50, seen at time 1000. *)
Definition carol : UserData :=
  mkUser "carol" None "41" "1.5" "CODEcarol" None "2" 0 true (Some 50%Z) (Some "10.5") None.

Definition carolWorld : World Db :=
  mkWorld (mkDb {[ "carol" := carol ]} [] (Some emptyPool)) 1000 0.

(** A referred account and its referrer, who holds 5 TON of rewards. *)
Definition bob : UserData :=
  mkUser "bob" None "0" "5.000000000" "CODEbob" None "7.500000000" 0 false None None None.

Definition referralWorld : World Db :=
  mkWorld (mkDb (<[ "alice" := account "alice" "1000" (Some "bob") ]> {[ "bob" := bob ]})
                [] (Some emptyPool)) 1000 0.

(** An account with 41 TON staked and 1.5 TON of rewards. *)
Definition ivy : UserData :=
  mkUser "ivy" None "41" "1.5" "CODEivy" None "1.5" 0 false None None None.

Definition ivyWorld : World Db :=
  mkWorld (mkDb {[ "ivy" := ivy ]} [] (Some emptyPool)) 1000 0.

(** An account whose stake was deposited with ten fraction digits. *)
Definition jo : UserData :=
  mkUser "jo" None "0.1234567891" "1" "CODEjo" None "1" 0 false None None None.

Definition joWorld : World Db :=
  mkWorld (mkDb {[ "jo" := jo ]} [] (Some emptyPool)) 1000 0.

(** A referred account and a referrer who stakes as well. *)
Definition stakingReferrerWorld : World Db :=
  mkWorld (mkDb (<[ "alice" := account "alice" "1000" (Some "bob") ]>
                   {[ "bob" := account "bob" "2000" None ]})
                [] (Some emptyPool)) 1000 0.

End Examples.

(** ** Conservation and commission (C1, C3) and the premium differential (C4) *)

(** The account list a run works on, as the formulas see it. *)
Definition accountsOf (now : Z) (l : list Firestore.UserData) : list (float * bool) :=
  List.map (fun u => (Firestore.userStake u, Firestore.premiumActive u now)) l.


(** ** Vocabulary of the statements about the store *)

(** The world after one more request. *)
Definition tick {D} (w : World D) : World D :=
  mkWorld (data w) (clock w) (S (requests w)).

(** [m] relates every world to the world it leaves behind, whatever it
    returns or throws. *)
Definition Preserves {D A} (R : World D -> World D -> Prop) (m : Async D A) : Prop :=
  forall w, R w (snd (m w)).

(** [m] never throws. *)
Definition Total {D A} (m : Async D A) : Prop :=
  forall w, exists a, fst (m w) = Returned a.

Module FirestoreFacts.
Import Firestore.

(** Every user document is stored under its own [id]. *)
Definition StoredUnderId (m : gmap string UserData) : Prop :=
  forall k u, m !! k = Some u -> id u = k.

(** No user is recorded as their own referrer. *)
Definition NoSelfReferral (m : gmap string UserData) : Prop :=
  forall k u, m !! k = Some u -> referredBy u <> Some k.

Definition docStatus (d : TransactionDoc) : TxStatus :=
  match d with
  | Logged t => status t
  | PremiumPayment _ _ s _ _ => s
  end.

(** A logged transaction of type [reward]. *)
Definition isReward (d : TransactionDoc) : bool :=
  match d with
  | Logged t => match type t with reward => true | _ => false end
  | PremiumPayment _ _ _ _ _ => false
  end.

Definition rewardCount (l : list TransactionDoc) : nat :=
  length (List.filter isReward l).

(** The transaction [distributeUserRewardWithPremium] logs for [user]. *)
Definition rewardRecord (user : UserData) (now : Z) : TransactionDoc :=
  Logged
    (mkTx (id user) reward (JS.toFixed (netRewardOf user now) 9) now completed None
       ("Daily staking reward " ++
        (if premiumActive user now then "(Premium 10.5% APY)"
         else "(Standard 8.7% APY)"))%string).

(** The same world with another pool document. *)
Definition setPool (q : option PoolData) (w : World Db) : World Db :=
  mkWorld (mkDb (users (data w)) (transactions (data w)) q) (clock w) (requests w).

(** What a part of a run may do to the world: the clock and the pool
    document stay, transactions are only added and every added one
    satisfies [P], user documents stay in place and keep their [id] and
    [stakedAmount], and documents remain stored under their [id]. *)
Record Step (P : TransactionDoc -> Prop) (w w' : World Db) : Prop := mkStep {
  step_clock : clock w' = clock w;
  step_pool : pool (data w') = pool (data w);
  step_added : exists added,
      transactions (data w') = transactions (data w) ++ added /\ Forall P added;
  step_docs : forall k u, users (data w) !! k = Some u ->
      exists u', users (data w') !! k = Some u' /\ id u' = id u
                 /\ stakedAmount u' = stakedAmount u;
  step_wf : StoredUnderId (users (data w)) -> StoredUnderId (users (data w'))
}.

(** [m] gives the same result and leaves the same world whatever the pool
    document holds: it does not read it. *)
Definition PoolBlind {A} (m : Async Db A) : Prop :=
  forall q w, m (setPool q w) = (fst (m w), setPool q (snd (m w))).

(** The world with user document [k] replaced, and with one more
    transaction document. *)
Definition putUser (k : string) (u : UserData) (w : World Db) : World Db :=
  mkWorld (withUsers (insert k u) (data w)) (clock w) (requests w).

Definition addDoc (d : TransactionDoc) (w : World Db) : World Db :=
  mkWorld (withTransactions (fun l => l ++ [d]) (data w)) (clock w) (requests w).

(** The document [getUserData] creates for an unknown user. *)
Definition newUser (gen : string -> Z -> string) (k : string) (now : Z) : UserData :=
  mkUser k None "0" "0" (gen k now) None "0" now false None None None.

(** The update and the record of [updateUserPremiumStatus]. *)
Definition premiumPatch (premium : bool) (expiresAt : option Z) (rate : string) : UserPatch :=
  mkPatch None None None None None (Some premium) (Some expiresAt) (Some rate).

Definition premiumDoc (k : string) (premium : bool) (now : Z) : TransactionDoc :=
  PremiumPayment k (if premium then 2.0%float else 0%float) completed
    (if premium then "Premium subscription activated" else "Premium subscription expired")
    now.

(** A completed document, and a completed document that is not a
    reward. *)
Definition completedDoc (d : TransactionDoc) : Prop := docStatus d = completed.

Definition completedAside (d : TransactionDoc) : Prop :=
  docStatus d = completed /\ isReward d = false.


(** The referral part of [distributeUserRewardWithPremium]. *)
Definition referralPart (fault : nat -> Request -> bool) (gen : string -> Z -> string)
  (user : UserData) (netReward : float) : Async Db unit :=
  match referredBy user with
  | Some referrer =>
      if truthy (referredBy user)
      then processReferralBonus fault gen referrer netReward (id user)
      else ret tt
  | None => ret tt
  end.

(** The premium fields of every stored document stay as they are. *)
Definition KeepsPremium (w w' : World Db) : Prop :=
  forall k u, users (data w) !! k = Some u ->
    exists u', users (data w') !! k = Some u' /\ isPremium u' = isPremium u
               /\ premiumExpiresAt u' = premiumExpiresAt u
               /\ premiumRate u' = premiumRate u.

(** The document stored under [k] stays as it is. *)
Definition SameAt (k : string) (w w' : World Db) : Prop :=
  users (data w') !! k = users (data w) !! k.

(** What the call of [addTransaction] does with the manager module as
    it is: the name is not exported, so the call throws. *)
Definition missingAddTransaction (t : WalletTransaction) : Async Db unit :=
  throw (TypeError "addTransaction is not a function").

(** The updates of [processDirectDeposit] and [processDirectWithdrawal]. *)
Definition stakePatch (newStaked : string) : UserPatch :=
  mkPatch None (Some newStaked) None None None None None None.

Definition balancesPatch (newStaked newRewards : string) : UserPatch :=
  mkPatch None (Some newStaked) (Some newRewards) None None None None None.

End FirestoreFacts.

Module PoolFacts.
Import Pool.

(** The pool configuration stays as it is. *)
Definition KeepsConfig (w w' : World Db) : Prop :=
  poolConfig (data w') = poolConfig (data w).

(** The pool configuration stays as it is or records [text] as the last
    admin commission. *)
Definition RecordsCommission (text : string) (w w' : World Db) : Prop :=
  poolConfig (data w') = poolConfig (data w)
  \/ exists c, poolConfig (data w') = Some c /\ lastAdminCommission c = text.

(** The world with user document [name] replaced. *)
Definition putUser (name : string) (u : User) (w : World Db) : World Db :=
  mkWorld (withUsers (insert name u) (data w)) (clock w) (requests w).

(** The update of a referrer's balance. *)
Definition balancePatch (newBalance : string) : UserPatch :=
  mkPatch None (Some newBalance) None None None.

(** A staking member referred by another member, and the figure the
    validators report: with it the member's reward is exactly 10 TON. *)
Definition member (tid stake : string) (referrer : option string) : User :=
  mkUser tid (String.append "@" tid) None "0" stake "0" (String.append "CODE" tid)
         referrer false 0.

Definition referredWorld : World Db :=
  mkWorld (mkDb (<[ "uuid-a" := member "alice" "1000" (Some "bob") ]>
                   {[ "uuid-b" := member "bob" "0" None ]})
                [] [] [] None []) 1000 0.

Definition reported : string := "11.363636363636363".

(** The store rejects every update of alice's document. *)
Definition rejectAlice (n : nat) (r : Request) : bool :=
  match r with
  | Update Users doc => String.eqb doc "uuid-a"
  | _ => false
  end.

End PoolFacts.

(** ** server/firestoreManager.ts: the queries and the pool document

    The remaining operations of [FirestoreManager].  A document of
    [transactions] has the name the store gave it when it was added: the
    [n]-th document added is [autoId n]. *)

Module FirestoreQueries.
Import Firestore.

#[local] Existing Instance Firestore.byName_dec.

(** The documents of [transactions], each with its name. *)
Definition named (l : list TransactionDoc) : list (string * TransactionDoc) :=
  imap (fun n d => (autoId n, d)) l.

(** [where('userId', '==', who)], each document as
    [{ id: doc.id, ...doc.data() }]: the documents written by
    [logTransaction] for that user.  The records of
    [updateUserPremiumStatus] carry a [telegramId] and no [userId], and no
    query on [userId] matches them. *)
Definition loggedFor (who : string) (l : list TransactionDoc)
  : list (string * TransactionData) :=
  omap (fun d => match snd d with
                 | Logged t => if String.eqb (userId t) who then Some (fst d, t) else None
                 | PremiumPayment _ _ _ _ _ => None
                 end)
       (named l).

(** [orderBy('timestamp', 'desc')]: later first, and among documents of
    one instant the greater name first. *)
Definition newestFirst (a b : string * TransactionData) : Prop :=
  match (timestamp (snd a) ?= timestamp (snd b))%Z with
  | Gt => True
  | Eq => String.leb (fst b) (fst a) = true
  | Lt => False
  end.

#[local] Instance newestFirst_dec a b : Decision (newestFirst a b).
Proof. unfold newestFirst. destruct (_ ?= _)%Z; apply _. Defined.

(** The order of a query with equality filters only: by name. *)
Definition byDocName (a b : string * TransactionData) : Prop :=
  String.leb (fst a) (fst b) = true.

#[local] Instance byDocName_dec a b : Decision (byDocName a b).
Proof. unfold byDocName. apply _. Defined.

Definition isReferral (d : string * TransactionData) : bool :=
  match type (snd d) with
  | referral => true
  | _ => false
  end.

Section Queries.
Variable fault : nat -> Request -> bool.

Abbreviation Async := (Async Db).
Abbreviation request := (request fault).

(** [async getTransactionHistory(userId, limit = 50)], for a positive
    [limit]. *)
Definition getTransactionHistory (who : string) (limit : option positive)
  : Async (list (string * TransactionData)) :=
  tryCatch
    (request (Query Transactions) ;;
     w <- getWorld ;;
     ret (firstn (Pos.to_nat (default 50%positive limit))
            (merge_sort newestFirst (loggedFor who (transactions (data w))))))
    (fun error => throw error).

(** [async getAllUsers()] *)
Definition getAllUsers : Async (list UserData) :=
  tryCatch
    (request (Query Users) ;;
     w <- getWorld ;;
     ret (snd <$> merge_sort byName (map_to_list (users (data w)))))
    (fun error => throw error).

(** [async calculateReferralEarnings(userId)]:
    [docs.reduce((total, doc) => total + parseFloat(doc.data().amount), 0)]
    over the user's documents of type [referral]; [0] on any error. *)
Definition calculateReferralEarnings (who : string) : Async float :=
  tryCatch
    (request (Query Transactions) ;;
     w <- getWorld ;;
     ret (fold_left (fun total d => (total + JS.parseFloat (amount (snd d)))%float)
            (merge_sort byDocName
               (List.filter isReferral (loggedFor who (transactions (data w)))))
            0%float))
    (fun error => ret 0%float).

(** [process.env.ADMIN_WALLET_ADDRESS || ''] *)
Variable adminWalletAddress : string.

(** The document [initializeCollections] writes when there is none.  Its
    [createdAt], which nothing reads, is not kept. *)
Definition initialPool : PoolData :=
  mkPool "0" "0" "0.000238356164383562" adminWalletAddress None None None (Some "0") None.

(** [private async initializeCollections()] *)
Definition initializeCollections : Async unit :=
  tryCatch
    (request (Get Pool "main") ;;
     w <- getWorld ;;
     match pool (data w) with
     | None =>
         request (SetDoc Pool "main") ;;
         modify (withPool initialPool)
     | Some _ => ret tt
     end)
    (fun error => ret tt).

End Queries.

End FirestoreQueries.

(** ** Dates as text *)

Module JSDate.

Local Open Scope Z_scope.

(** [n] in decimal, padded with zeros to [width] digits. *)
Definition pad (width : nat) (n : Z) : list ascii :=
  let ds := JS.decimal n in
  repeat "0"%char (width - length ds) ++ ds.

(** [new Date(t).toISOString()] for [t] milliseconds since the epoch: the
    proleptic Gregorian date of the day number, the time of day, and the
    year with four digits, or with a sign and six digits outside 0 to
    9999. *)
Definition toISOString (t : Z) : string :=
  let day := t / 86400000 in
  let ms := t mod 86400000 in
  let z := day + 719468 in
  let era := z / 146097 in
  let doe := z mod 146097 in
  let yoe := (doe - doe / 1460 + doe / 36524 - doe / 146096) / 365 in
  let doy := doe - (365 * yoe + yoe / 4 - yoe / 100) in
  let mp := (5 * doy + 2) / 153 in
  let d := doy - (153 * mp + 2) / 5 + 1 in
  let m := if mp <? 10 then mp + 3 else mp - 9 in
  let y := yoe + era * 400 + (if m <=? 2 then 1 else 0) in
  let year := if (0 <=? y) && (y <=? 9999) then pad 4 y
              else (if y <? 0 then "-"%char else "+"%char) :: pad 6 (Z.abs y) in
  string_of_list_ascii
    (year ++ "-"%char :: pad 2 m ++ "-"%char :: pad 2 d ++ "T"%char ::
     pad 2 (ms / 3600000) ++ ":"%char :: pad 2 (ms / 60000 mod 60) ++ ":"%char ::
     pad 2 (ms / 1000 mod 60) ++ "."%char :: pad 3 (ms mod 1000) ++ ["Z"%char]).

End JSDate.

(** [Math.max(a, b)]: [NaN] if either is, and [+0] above [-0]. *)
Definition mathMax (a b : float) : float :=
  if PrimFloat.is_nan a || PrimFloat.is_nan b then PrimFloat.nan
  else if PrimFloat.ltb a b then b
  else if PrimFloat.ltb b a then a
  else if PrimFloat.get_sign a then b else a.

(** ** server/smartContractManager.ts

    [SmartContractManager] keeps the same ledger through the exported
    functions of the manager.  The calls that go to the chain through the
    admin wallet are given by their outcome: the hash [depositToContract]
    and [withdrawFromContract] resolve to, and the balance
    [getContractData] reads, or the error they reject with. *)

(** The proportional reward of [distributeUserReward]. *)
Section ContractFormulas.
Context {num : Type} `{Arith num}.
Local Open Scope num_scope.

(** [const dailyRate = this.config.apy / 100 / 365] *)
Definition contractDailyRate (apy : num) : num := apy / lit 100 0 / lit 365 0.

(** [const grossDailyReward = totalStaked * dailyRate] *)
Definition grossDailyReward (apy totalStaked : num) : num :=
  totalStaked * contractDailyRate apy.

(** [const netDailyReward = grossDailyReward - adminCommission] with
    [adminCommission = grossDailyReward * this.config.adminCommission] *)
Definition netDailyReward (apy commissionRate totalStaked : num) : num :=
  grossDailyReward apy totalStaked - grossDailyReward apy totalStaked * commissionRate.

(** [const userReward = netDailyReward * userProportion] with
    [userProportion = userStake / totalStaked] *)
Definition proportionalReward (netDaily userStake totalStaked : num) : num :=
  netDaily * (userStake / totalStaked).
End ContractFormulas.

Module SmartContract.
Import Firestore.

(** [interface ContractConfig] *)
Record ContractConfig := mkConfig {
  address : string;
  apy : float;
  adminCommission : float;
  referralBonus : float
}.

(** [CONTRACT_CONFIG], for the contract address of the environment. *)
Definition CONTRACT_CONFIG (contractAddress : string) : ContractConfig :=
  mkConfig contractAddress 8.7 0.12 0.10.

(** What [getContractData] returns. *)
Record ContractData := mkContractData {
  totalBalance : string;
  contractAddress : string;
  dataApy : float;
  dataAdminCommission : float;
  dataReferralBonus : float;
  lastUpdate : string
}.

Section Manager.
Variable fault : nat -> Request -> bool.
Variable generateReferralCode : string -> Z -> string.
Variable config : ContractConfig.

(** The outcomes of [adminWallet.depositToContract],
    [adminWallet.withdrawFromContract] and of the balance read by
    [adminWallet.getContractData]. *)
Variable depositToContract : Outcome string.
Variable withdrawFromContract : Outcome string.
Variable contractBalance : Outcome string.

Abbreviation Async := (Async Db).

(** An [await] of a call that leaves the store alone. *)
Definition external {A} (outcome : Outcome A) : Async A := fun w => (outcome, w).

(** [async getContractData()] *)
Definition getContractData : Async ContractData :=
  tryCatch
    (balance <- external contractBalance ;;
     now <- currentTime ;;
     ret (mkContractData balance (address config) (apy config) (adminCommission config)
            (referralBonus config) (JSDate.toISOString now)))
    (fun error => throw error).

(** [private async updateFirestoreForDeposit(userId, amount,
    walletAddress, txHash)] *)
Definition updateFirestoreForDeposit (userId amount walletAddress txHash : string)
  : Async unit :=
  tryCatch
    (userData <- getUserData fault generateReferralCode userId ;;
     let newStakedAmount :=
       (JS.parseFloat (strOr (stakedAmount userData) "0") + JS.parseFloat amount)%float in
     updateUserBalance fault userId
       (mkPatch (Some walletAddress) (Some (JS.toFixed newStakedAmount 9))
                None None None None None None) ;;
     now <- currentTime ;;
     logTransaction fault
       (mkTx userId deposit amount now completed (Some txHash)
          ("Staked " ++ amount ++ " TON to smart contract")) ;;
     contractData <- getContractData ;;
     now' <- currentTime ;;
     updatePool fault
       (mkPoolPatch (Some (totalBalance contractData)) None None None None
                    (Some (JSDate.toISOString now')) None None))
    (fun error => throw error).

(** [private async updateFirestoreForWithdrawal(userId, amount,
    walletAddress, txHash)] *)
Definition updateFirestoreForWithdrawal (userId amount walletAddress txHash : string)
  : Async unit :=
  tryCatch
    (userData <- getUserData fault generateReferralCode userId ;;
     let currentStaked := JS.parseFloat (strOr (stakedAmount userData) "0") in
     let currentRewards := JS.parseFloat (strOr (rewardsBalance userData) "0") in
     let withdrawAmount := JS.parseFloat amount in
     let '(newStakedAmount, newRewardsBalance) :=
       if PrimFloat.leb withdrawAmount currentStaked
       then ((currentStaked - withdrawAmount)%float, currentRewards)
       else (0%float, (currentRewards - (withdrawAmount - currentStaked))%float) in
     updateUserBalance fault userId
       (mkPatch None (Some (JS.toFixed (mathMax 0 newStakedAmount) 9))
                (Some (JS.toFixed (mathMax 0 newRewardsBalance) 9))
                None None None None None) ;;
     now <- currentTime ;;
     logTransaction fault
       (mkTx userId withdraw amount now completed (Some txHash)
          ("Withdrew " ++ amount ++ " TON from smart contract to " ++ walletAddress)) ;;
     contractData <- getContractData ;;
     now' <- currentTime ;;
     updatePool fault
       (mkPoolPatch (Some (totalBalance contractData)) None None None None None
                    (Some (JSDate.toISOString now')) None))
    (fun error => throw error).

(** [async processDeposit(userId, amount, userWalletAddress)] *)
Definition processDeposit (userId amount userWalletAddress : string) : Async string :=
  tryCatch
    (txHash <- external depositToContract ;;
     updateFirestoreForDeposit userId amount userWalletAddress txHash ;;
     ret txHash)
    (fun error => throw error).

(** [async processWithdrawal(userId, amount, userWalletAddress)] *)
Definition processWithdrawal (userId amount userWalletAddress : string) : Async string :=
  tryCatch
    (userData <- getUserData fault generateReferralCode userId ;;
     let availableBalance :=
       (JS.parseFloat (strOr (stakedAmount userData) "0")
        + JS.parseFloat (strOr (rewardsBalance userData) "0"))%float in
     if PrimFloat.ltb availableBalance (JS.parseFloat amount) then
       throw (ErrorMsg ("Insufficient balance. Available: " ++
                        JS.numberToString availableBalance ++ ", Requested: " ++ amount))
     else
       txHash <- external withdrawFromContract ;;
       updateFirestoreForWithdrawal userId amount userWalletAddress txHash ;;
       ret txHash)
    (fun error => throw error).

(** [private async processReferralBonus(referrerId, refereeReward,
    refereeId)] *)
Definition processReferralBonus (referrerId : string) (refereeReward : float)
  (refereeId : string) : Async unit :=
  tryCatch
    (let bonus := (refereeReward * referralBonus config)%float in
     referrerData <- getUserData fault generateReferralCode referrerId ;;
     updateUserBalance fault referrerId (creditPatch referrerData bonus) ;;
     now <- currentTime ;;
     logTransaction fault
       (mkTx referrerId referral (JS.toFixed bonus 9) now completed None
          ("Referral bonus from user " ++ refereeId ++ " (10% of " ++
           JS.toFixed refereeReward 9 ++ " TON)")%string) ;;
     ret tt)
    (fun error => ret tt).

(** [private async distributeUserReward(user, netDailyReward,
    totalStaked)] *)
Definition distributeUserReward (user : UserData) (netDaily totalStaked : float)
  : Async unit :=
  tryCatch
    (let userProportion := (userStake user / totalStaked)%float in
     let userReward := proportionalReward netDaily (userStake user) totalStaked in
     updateUserBalance fault (id user) (creditPatch user userReward) ;;
     now <- currentTime ;;
     logTransaction fault
       (mkTx (id user) reward (JS.toFixed userReward 9) now completed None
          ("Daily staking reward (" ++ JS.toFixed (userProportion * 100)%float 2 ++
           "% of pool)")%string) ;;
     match referredBy user with
     | Some referrer =>
         if truthy (referredBy user)
         then processReferralBonus referrer userReward (id user)
         else ret tt
     | None => ret tt
     end)
    (fun error => ret tt).

(** [async distributeRewards()] *)
Definition distributeRewards : Async unit :=
  tryCatch
    (contractData <- getContractData ;;
     stakers <- getAllUsersWithStakes fault ;;
     if (length stakers =? 0)%nat then ret tt
     else
       let totalStaked := totalStakedOf stakers in
       if PrimFloat.eqb totalStaked 0 then ret tt
       else
         let dailyRate := contractDailyRate (apy config) in
         let grossDaily := grossDailyReward (apy config) totalStaked in
         let commission := (grossDaily * adminCommission config)%float in
         let netDaily := netDailyReward (apy config) (adminCommission config) totalStaked in
         forEach stakers (fun user => distributeUserReward user netDaily totalStaked) ;;
         now <- currentTime ;;
         updatePool fault
           (mkPoolPatch (Some (JS.numberToString totalStaked)) None
                        (Some (JS.numberToString dailyRate)) None (Some now) None None
                        (Some (JS.numberToString commission))))
    (fun error => throw error).

End Manager.

End SmartContract.

(** ** server/routes.ts: the retry of a chain transaction *)

Module Routes.

Local Open Scope Z_scope.

(** The delay of [setTimeout(resolve, ms)]: [ms], or one millisecond when
    [ms] is less than 1 or more than 2147483647. *)
Definition timerDelay (ms : Z) : Z :=
  if (ms <? 1) || (2147483647 <? ms) then 1 else ms.

(** [await new Promise(resolve => setTimeout(resolve, ms))], with the
    timer firing when its delay has passed. *)
Definition sleep {D} (ms : Z) : Async D unit :=
  fun w => (Returned tt, mkWorld (data w) (clock w + timerDelay ms) (requests w)).

(** The loop of [retryTransaction] from [attempt] on; [fuel] bounds the
    iterations. *)
Fixpoint retryLoop {D} (operation : Async D string) (maxRetries : Z) (fuel : nat)
  (attempt : Z) : Async D string :=
  match fuel with
  | O => throw (ErrorMsg "All transaction attempts failed")
  | S fuel' =>
      if attempt <=? maxRetries then
        tryCatch operation
          (fun error =>
             if attempt =? maxRetries then throw error
             else
               sleep (2 ^ attempt * 1000) ;;
               retryLoop operation maxRetries fuel' (attempt + 1))
      else throw (ErrorMsg "All transaction attempts failed")
  end.

(** [async function retryTransaction(operation, maxRetries = 3)], for a
    whole number of retries. *)
Definition retryTransaction {D} (operation : Async D string) (maxRetries : option Z)
  : Async D string :=
  let n := default 3 maxRetries in
  retryLoop operation n (S (Z.to_nat n)) 1.

(** The waits before the attempts 2 to [n + 1]. *)
Fixpoint backoff (n : nat) : Z :=
  match n with
  | O => 0
  | S k => backoff k + timerDelay (2 ^ Z.of_nat n * 1000)
  end.

(** An operation that asks the store for one write and returns a hash. *)
Definition stakeOnce (fault : nat -> Request -> bool) : Async unit string :=
  request fault (Add Transactions) ;; ret "stake_tx"%string.

(** The store rejects the first two requests. *)
Definition failTwice (n : nat) (r : Request) : bool := (n <? 2)%nat.

End Routes.

(** ** The staking API (the express router that follows the manager in
    server/firestoreManager.ts)

    A handler is given the fields of its request and leaves a reply: the
    JSON body of a success, the status and message of a refusal or of a
    failure, or the 400 of [validateRequest]. *)

Module StakingApi.
Import Firestore FirestoreQueries.

Inductive Reply (Body : Type) :=
  | Json (body : Body)                        (* [res.json({ success: true, ... })] *)
  | Refused (status : nat) (message : string) (* [res.status(status).json({ success: false, message })] *)
  | Invalid.                                  (* [validateRequest]: status 400 with the errors *)
Arguments Json {Body} body.
Arguments Refused {Body} status message.
Arguments Invalid {Body}.

(** [/^\d+(\.\d+)?$/.test(s)] *)
Definition matchesAmount (s : string) : bool :=
  match JS.takeDigits (list_ascii_of_string s) with
  | ([], _) => false
  | (_ :: _, []) => true
  | (_ :: _, c :: rest) =>
      Ascii.eqb c "." &&
      match JS.takeDigits rest with
      | (_ :: _, []) => true
      | _ => false
      end
  end.

(** [isString().notEmpty()] on a string *)
Definition notEmpty (s : string) : bool := negb (String.eqb s EmptyString).

(** [error instanceof Error ? error.message : fallback]: everything thrown
    here is an [Error]. *)
Definition messageOf (e : Error) : string := Pool.messageOf e.

(** The body of a successful deposit or withdrawal. *)
Record MoneyBody := mkMoneyBody {
  moneyMessage : string;
  moneyTxHash : string;
  moneyUserData : UserData
}.

(** The [user] and [poolData] of [GET /user/:userId]. *)
Record UserBody := mkUserBody {
  viewId : string;
  viewWalletAddress : option string;
  viewStakedAmount : string;
  viewRewardsBalance : string;
  viewTotalEarned : string;
  viewReferralCode : string;
  totalBalance : string;
  referralCount : nat;
  referralTotalEarned : string;
  viewApy : string;
  viewTotalStaked : string;
  viewDailyRate : string
}.

(** The body of [GET /premium/status/:telegramId]. *)
Record PremiumBody := mkPremiumBody {
  bodyIsPremium : bool;
  bodyPremiumExpiresAt : option Z;
  bodyPremiumRate : string;
  standardRate : string;
  premiumBenefit : string;
  monthlyCost : string
}.

Section Router.
Variable fault : nat -> Request -> bool.
Variable generateReferralCode : string -> Z -> string.

(** [getAdminWallet()], taken as initialised: its address and the
    [addTransaction] it imports. *)
Variable adminAddress : string.
Variable addTransaction : WalletTransaction -> Async Db unit.

Abbreviation Async := (Async Db).
Abbreviation getUserData := (getUserData fault generateReferralCode).

(** [router.post('/wallet/connect', ...)] *)
Definition walletConnect (telegramId walletAddress : string) : Async (Reply string) :=
  if notEmpty telegramId && notEmpty walletAddress then
    tryCatch
      (updateUserBalance fault telegramId
         (mkPatch (Some walletAddress) None None None None None None None) ;;
       ret (Json "Wallet connected successfully"%string))
      (fun error => ret (Refused 500 (messageOf error)))
  else ret Invalid.

(** [router.post('/deposit', ...)], for a request with a [telegramId] *)
Definition deposit (telegramId amount : string) (walletAddress : option string)
  : Async (Reply MoneyBody) :=
  if matchesAmount amount then
    tryCatch
      (let userId := telegramId in
       let amountFloat := JS.parseFloat amount in
       if PrimFloat.leb amountFloat 0 || PrimFloat.ltb amountFloat 0.1 then
         ret (Refused 400 "Minimum stake amount is 0.1 TON")
       else
         userData <- getUserData userId ;;
         txHash <- processDirectDeposit fault adminAddress addTransaction userId amount
                     (match walletAddress with
                      | Some a => strOr a "user_wallet"
                      | None => "user_wallet"%string
                      end) ;;
         updatedUserData <- getUserData userId ;;
         ret (Json (mkMoneyBody ("Successfully staked " ++ amount ++ " TON") txHash
                      updatedUserData)))
      (fun error => ret (Refused 500 (messageOf error)))
  else ret Invalid.

(** [router.post('/withdraw', ...)], for a request with a [telegramId] *)
Definition withdraw (telegramId amount : string) (walletAddress : option string)
  : Async (Reply MoneyBody) :=
  if matchesAmount amount then
    tryCatch
      (let userId := telegramId in
       let amountFloat := JS.parseFloat amount in
       if PrimFloat.leb amountFloat 0 then
         ret (Refused 400 "Withdraw amount must be greater than 0")
       else
         txHash <- processDirectWithdrawal fault generateReferralCode adminAddress
                     addTransaction userId amount
                     (match walletAddress with
                      | Some a => strOr a "user_wallet"
                      | None => "user_wallet"%string
                      end) ;;
         updatedUserData <- getUserData userId ;;
         ret (Json (mkMoneyBody
                      ("Successfully withdrew " ++ amount ++ " TON to " ++
                       match walletAddress with
                       | Some a => strOr a "wallet"
                       | None => "wallet"%string
                       end)
                      txHash updatedUserData)))
      (fun error => ret (Refused 500 (messageOf error)))
  else ret Invalid.

(** [router.get('/user/:userId', ...)] *)
Definition user (userId : string) : Async (Reply UserBody) :=
  if notEmpty userId then
    tryCatch
      (userData <- getUserData userId ;;
       referralEarnings <- calculateReferralEarnings fault userId ;;
       poolData <- getPoolData fault ;;
       ret (Json (mkUserBody (id userData) (walletAddress userData) (stakedAmount userData)
                    (rewardsBalance userData) (totalEarnings userData)
                    (referralCode userData)
                    (JS.toFixed (JS.parseFloat (stakedAmount userData)
                                 + JS.parseFloat (rewardsBalance userData))%float 9)
                    0 (JS.toFixed referralEarnings 9)
                    "8.7" (totalStaked poolData) (poolDailyRate poolData))))
      (fun error => ret (Refused 500 (messageOf error)))
  else ret Invalid.

(** [router.post('/referral', ...)] *)
Definition referral (userId referralCode : string) : Async (Reply UserData) :=
  if notEmpty userId && notEmpty referralCode then
    tryCatch
      (success <- processReferral fault userId referralCode ;;
       if success then
         userData <- getUserData userId ;;
         ret (Json userData)
       else ret (Refused 400 "Invalid referral code or already used"))
      (fun error => ret (Refused 500 (messageOf error)))
  else ret Invalid.

(** [router.get('/premium/status/:telegramId', ...)] *)
Definition premiumStatus (telegramId : string) : Async (Reply PremiumBody) :=
  if notEmpty telegramId then
    tryCatch
      (userData <- getUserData telegramId ;;
       now <- currentTime ;;
       let isExpired := match premiumExpiresAt userData with
                        | Some stamp => dateBefore (dateOfStored stamp) now
                        | None => false
                        end in
       let downgrade := isPremium userData && isExpired in
       (if downgrade
        then updateUserPremiumStatus fault telegramId false None "8.7"
        else ret tt) ;;
       let nowPremium := if downgrade then false else isPremium userData in
       let rate := if downgrade then Some "8.7"%string else premiumRate userData in
       ret (Json (mkPremiumBody nowPremium (premiumExpiresAt userData)
                    (match rate with
                     | Some r => strOr r (if nowPremium then "10.5" else "8.7")
                     | None => if nowPremium then "10.5"%string else "8.7"%string
                     end)
                    "8.7" "1.8% higher APY (10.5% vs 8.7%)" "2 TON")))
      (fun error => ret (Refused 500 (messageOf error)))
  else ret Invalid.

End Router.

End StakingApi.

(** ** Vocabulary of the further statements *)

Module LedgerFacts.
Import Firestore.

(** What a user document says about the account apart from its rewards
    and its premium tier. *)
Definition profile (u : UserData)
  : string * option string * string * string * option string * Z :=
  (id u, walletAddress u, stakedAmount u, referralCode u, referredBy u, joinedAt u).

(** Every stored document stays stored with the same [f], and the
    transactions are only added to. *)
Definition Keeps {X : Type} (f : UserData -> X) (w w' : World Db) : Prop :=
  (forall k u, users (data w) !! k = Some u ->
     exists u', users (data w') !! k = Some u' /\ f u' = f u)
  /\ (exists added, transactions (data w') = transactions (data w) ++ added)
  /\ clock w' = clock w.

(** A store where one account's stake reads as zero although the stake
    query selects it. *)
Definition zeroStakeWorld : World Db :=
  mkWorld (mkDb {[ "zed" := Examples.account "zed" "0.0" None ]} []
                (Some Examples.emptyPool)) 1000 0.

(** An account that has a referrer, and the holders of two codes. *)
Definition referredAgainWorld : World Db :=
  mkWorld (mkDb (<[ "alice" := Examples.account "alice" "1000" (Some "bob") ]>
                   (<[ "bob" := Examples.bob ]> {[ "carol" := Examples.carol ]}))
                [] None) 1000 0.



End LedgerFacts.

Module ContractFacts.
Import Firestore.

(** The document [getUserData] reads or creates. *)
Definition current (gen : string -> Z -> string) (userId : string) (w : World Db)
  : UserData :=
  default (FirestoreFacts.newUser gen userId (clock w)) (users (data w) !! userId).

End ContractFacts.

Module QueryFacts.
Import Firestore.

(** [a] is not older than [b]. *)
Definition notOlder (a b : string * TransactionData) : Prop :=
  (timestamp (snd b) <= timestamp (snd a))%Z.

(** A ledger with three transactions of ann, one of ben, and the record
    of a premium payment by ann. *)
Definition annLedger : World Db :=
  mkWorld (mkDb ∅
             [Logged (mkTx "ann" deposit "5" 100 completed None "Staked 5 TON");
              Logged (mkTx "ben" reward "1" 150 completed None "Daily staking reward");
              PremiumPayment "ann" 2.0 completed "Premium subscription activated" 160;
              Logged (mkTx "ann" reward "0.1" 200 completed None "Daily staking reward");
              Logged (mkTx "ann" referral "0.01" 300 completed None "Referral bonus")]
             None) 1000 0.

End QueryFacts.

Module StorageFacts.
Import Pool.

(** Three members: alice, referred by bob, and carol, who has no
    referrer. *)
Definition threeMembers : World Db :=
  mkWorld (mkDb (<[ "uuid-a" := PoolFacts.member "alice" "1000" (Some "bob") ]>
                   (<[ "uuid-b" := PoolFacts.member "bob" "0" None ]>
                      {[ "uuid-c" := PoolFacts.member "carol" "5" None ]}))
                [] [] [] None []) 1000 0.

(** The store rejects every update of a user document. *)
Definition rejectUpdates (n : nat) (r : Request) : bool :=
  match r with
  | Update Users _ => true
  | _ => false
  end.

End StorageFacts.

Section ExactSums.
Local Open Scope Qc_scope.

Lemma lit_zero : lit (num := Qc) 0 0 = 0.
Proof. apply Qc_is_canon. reflexivity. Qed.

Lemma fold_plus_shift (l : list Qc) (a : Qc) :
  fold_left Qcplus l a = a + fold_left Qcplus l 0.
Proof.
  revert a. induction l as [|x l IH]; intros a; simpl.
  - ring.
  - rewrite (IH (a + x)), (IH (0 + x)). ring.
Qed.

Lemma total_cons (x : Qc) (l : list Qc) : total (x :: l) = x + total l.
Proof.
  unfold total. cbn [fold_left]. rewrite lit_zero.
  change (@nadd Qc rational) with Qcplus.
  rewrite fold_plus_shift. ring.
Qed.

Lemma total_nil : total (num := Qc) [] = 0.
Proof. unfold total. cbn [fold_left]. apply lit_zero. Qed.

(** In exact arithmetic a net reward and its commission add up to the
    gross reward. *)
Lemma net_plus_commission (r : Qc) : netUserReward r + adminCommission r = r.
Proof. unfold netUserReward, adminCommission. simpl. ring. Qed.

Lemma commission_additive (r s : Qc) :
  adminCommission (r + s) = adminCommission r + adminCommission s.
Proof. unfold adminCommission. simpl. ring. Qed.

Lemma commission_zero : adminCommission (num := Qc) 0 = 0.
Proof. unfold adminCommission. simpl. ring. Qed.

(** The commissions of a list of accounts add up to the commission of
    their total gross reward. *)
Lemma commission_of_total (rewards : list Qc) :
  total (List.map adminCommission rewards) = adminCommission (total rewards).
Proof.
  induction rewards as [|r l IH]; cbn [List.map].
  - rewrite !total_nil. symmetry. apply commission_zero.
  - rewrite !total_cons, IH. symmetry. apply commission_additive.
Qed.

(** The shares of the net pool add up to the net pool. *)
Lemma shares_of_total (c T : Qc) (stakes : list Qc) :
  T <> 0 ->
  total (List.map (fun s => c * (s / T)) stakes) = c * (total stakes / T).
Proof.
  intros HT. induction stakes as [|s l IH]; cbn [List.map].
  - rewrite !total_nil. field. exact HT.
  - rewrite !total_cons, IH. field. exact HT.
Qed.

End ExactSums.

(** C3, as stated, fails in the arithmetic of the code: for two standard
    accounts staking 1000 and 2 TON the per-account commissions, which is
    what [distributeUserRewardWithPremium] computes, do not add up to the
    commission of the total gross reward. *)
Lemma commission_drift_counterexample :
  let accounts := accountsOf 1000 (Firestore.usersWithStakes
                    (Firestore.users (data Examples.twoWorld))) in
  accounts = [(1000%float, false); (2%float, false)] /\
  PrimFloat.eqb (total (List.map commission accounts))
                (adminCommission (total (List.map gross accounts))) = false.
Proof. vm_compute. split; reflexivity. Qed.

(** ** Reasoning about asynchronous operations *)

Section PreservesRules.
Context {D : Type} (R : World D -> World D -> Prop).
Context `{!Reflexive R} `{!Transitive R}.

Lemma preserves_ret {A} (a : A) : Preserves R (ret a).
Proof. intros w. simpl. reflexivity. Qed.

Lemma preserves_throw {A} (e : Error) : Preserves R (throw (A := A) e).
Proof. intros w. simpl. reflexivity. Qed.

Lemma preserves_getWorld : Preserves R getWorld.
Proof. intros w. simpl. reflexivity. Qed.

Lemma preserves_currentTime : Preserves R currentTime.
Proof. intros w. simpl. reflexivity. Qed.

Lemma preserves_bind {A B} (m : Async D A) (k : A -> Async D B) :
  Preserves R m -> (forall a, Preserves R (k a)) -> Preserves R (bind m k).
Proof.
  intros Hm Hk w. unfold bind.
  specialize (Hm w). destruct (m w) as [[a|e] w1]; simpl in *.
  - etransitivity; [exact Hm | apply Hk].
  - exact Hm.
Qed.

Lemma preserves_tryCatch {A} (m : Async D A) (h : Error -> Async D A) :
  Preserves R m -> (forall e, Preserves R (h e)) -> Preserves R (tryCatch m h).
Proof.
  intros Hm Hh w. unfold tryCatch.
  specialize (Hm w). destruct (m w) as [[a|e] w1]; simpl in *.
  - exact Hm.
  - etransitivity; [exact Hm | apply Hh].
Qed.

Lemma preserves_forEach {A} (l : list A) (body : A -> Async D unit) :
  (forall x, Preserves R (body x)) -> Preserves R (forEach l body).
Proof.
  intros Hb. induction l as [|x l IH]; simpl.
  - apply preserves_ret.
  - apply preserves_bind; [apply Hb | intros _; exact IH].
Qed.

Lemma preserves_request fault (r : Request) :
  (forall w, R w (tick w)) -> Preserves R (request fault r).
Proof.
  intros Ht w. unfold request. destruct (fault (requests w) r); apply Ht.
Qed.

Lemma preserves_modify (f : D -> D) :
  (forall w, R w (mkWorld (f (data w)) (clock w) (requests w))) ->
  Preserves R (modify f).
Proof. intros Hf w. apply Hf. Qed.

End PreservesRules.

(** Apply a rule and discharge its side conditions on the relation. *)
Tactic Notation "rule" uconstr(L) := apply L; try typeclasses eauto.

(** A [try] whose handler returns never throws. *)
Lemma tryCatch_total {D A} (m : Async D A) (h : Error -> Async D A) :
  (forall e, Total (h e)) -> Total (tryCatch m h).
Proof.
  intros Hh w. unfold tryCatch.
  destruct (m w) as [[a|e] w1]; simpl.
  - exists a. reflexivity.
  - apply Hh.
Qed.

Lemma forEach_total {D A} (l : list A) (body : A -> Async D unit) :
  (forall x, Total (body x)) -> Total (forEach l body).
Proof.
  intros Hb. induction l as [|x l IH]; intros w; simpl.
  - exists tt. reflexivity.
  - unfold bind. destruct (Hb x w) as [a Ha].
    destruct (body x w) as [o w1]. simpl in Ha. subst o. apply IH.
Qed.

(** ** The operations of [FirestoreManager], one request at a time *)

Module FirestoreLemmas.
Import Firestore FirestoreFacts.

Section Operations.
Variable fault : nat -> Request -> bool.
Variable gen : string -> Z -> string.

Lemma updateUserBalance_eq (k : string) (p : UserPatch) (w : World Db) :
  updateUserBalance fault k p w =
  if fault (requests w) (Update Users k) then (Thrown (Unavailable (Update Users k)), tick w)
  else match users (data w) !! k with
       | None => (Thrown (NotFound Users k), tick w)
       | Some u => (Returned tt, putUser k (applyPatch u p (clock w)) (tick w))
       end.
Proof.
  unfold updateUserBalance, tryCatch, bind, request, getWorld, modify, throw.
  destruct (fault (requests w) (Update Users k)); [reflexivity|].
  simpl. destruct (users (data w) !! k); reflexivity.
Qed.

Lemma logTransaction_eq (t : TransactionData) (w : World Db) :
  logTransaction fault t w =
  if fault (requests w) (Add Transactions)
  then (Thrown (Unavailable (Add Transactions)), tick w)
  else (Returned (autoId (length (transactions (data w)))),
        addDoc (Logged (mkTx (userId t) (type t) (amount t) (clock w) (status t)
                             (txHash t) (description t))) (tick w)).
Proof.
  unfold logTransaction, tryCatch, bind, request, getWorld, modify, throw, ret.
  destruct (fault (requests w) (Add Transactions)); reflexivity.
Qed.

Lemma getUserData_eq (k : string) (w : World Db) :
  getUserData fault gen k w =
  if fault (requests w) (Get Users k) then (Thrown (Unavailable (Get Users k)), tick w)
  else match users (data w) !! k with
       | Some d => (Returned d, tick w)
       | None =>
           if fault (S (requests w)) (SetDoc Users k)
           then (Thrown (Unavailable (SetDoc Users k)), tick (tick w))
           else (Returned (newUser gen k (clock w)),
                 putUser k (newUser gen k (clock w)) (tick (tick w)))
       end.
Proof.
  unfold getUserData, tryCatch, bind, request, getWorld, modify, throw, ret.
  destruct (fault (requests w) (Get Users k)); [reflexivity|].
  simpl. destruct (users (data w) !! k); [reflexivity|].
  simpl. destruct (fault (S (requests w)) (SetDoc Users k)); reflexivity.
Qed.

Lemma updateUserPremiumStatus_eq (k : string) (premium : bool) (expiresAt : option Z)
  (rate : string) (w : World Db) :
  updateUserPremiumStatus fault k premium expiresAt rate w =
  if fault (requests w) (Update Users k) then (Thrown (Unavailable (Update Users k)), tick w)
  else match users (data w) !! k with
       | None => (Thrown (NotFound Users k), tick w)
       | Some u =>
           let w1 := putUser k (applyPatch u (premiumPatch premium expiresAt rate) (clock w))
                       (tick w) in
           if fault (S (requests w)) (Add Transactions)
           then (Thrown (Unavailable (Add Transactions)), tick w1)
           else (Returned tt, addDoc (premiumDoc k premium (clock w)) (tick w1))
       end.
Proof.
  unfold updateUserPremiumStatus, tryCatch, bind, request, getWorld, modify, throw.
  destruct (fault (requests w) (Update Users k)); [reflexivity|].
  simpl. destruct (users (data w) !! k); [|reflexivity].
  simpl. destruct (fault (S (requests w)) (Add Transactions)); reflexivity.
Qed.

Lemma updatePool_eq (p : PoolPatch) (w : World Db) :
  updatePool fault p w =
  if fault (requests w) (Update Pool "main")
  then (Thrown (Unavailable (Update Pool "main")), tick w)
  else match pool (data w) with
       | None => (Thrown (NotFound Pool "main"), tick w)
       | Some old =>
           (Returned tt,
            mkWorld (withPool (applyPoolPatch old p (clock w)) (data w))
                    (clock w) (S (requests w)))
       end.
Proof.
  unfold updatePool, tryCatch, bind, request, getWorld, modify, throw.
  destruct (fault (requests w) (Update Pool "main")); [reflexivity|].
  simpl. destruct (pool (data w)); reflexivity.
Qed.

Lemma getAllUsersWithStakes_eq (w : World Db) :
  getAllUsersWithStakes fault w =
  if fault (requests w) (Query Users) then (Thrown (Unavailable (Query Users)), tick w)
  else (Returned (usersWithStakes (users (data w))), tick w).
Proof.
  unfold getAllUsersWithStakes, tryCatch, bind, request, getWorld, throw, ret.
  destruct (fault (requests w) (Query Users)); reflexivity.
Qed.

End Operations.

(** *** The expiry tests

    Both compare [new Date(user.premiumExpiresAt)] with the current time.
    For a stored expiry that date is invalid: no account is ever found
    lapsed, and the premium rate is in force only for a flagged account
    without an expiry date. *)

Lemma premiumLapsed_never (user : UserData) (now : Z) : premiumLapsed user now = false.
Proof.
  unfold premiumLapsed. destruct (isPremium user); [|reflexivity].
  destruct (premiumExpiresAt user); reflexivity.
Qed.


(** *** What a part of a run may do *)

Section Steps.
Variable P : TransactionDoc -> Prop.

#[export] Instance Step_refl : Reflexive (Step P).
Proof.
  intros w. constructor; auto.
  - exists []. rewrite app_nil_r. auto.
  - intros k u Hk. exists u. auto.
Qed.

#[export] Instance Step_trans : Transitive (Step P).
Proof.
  intros w1 w2 w3 [c1 p1 [a1 [t1 f1]] d1 s1] [c2 p2 [a2 [t2 f2]] d2 s2].
  constructor.
  - congruence.
  - congruence.
  - exists (a1 ++ a2). rewrite t2, t1, app_assoc. split; [reflexivity|].
    apply Forall_app; auto.
  - intros k u Hk. destruct (d1 k u Hk) as (u1 & H1 & I1 & S1).
    destruct (d2 k u1 H1) as (u2 & H2 & I2 & S2).
    exists u2. repeat split; congruence.
  - auto.
Qed.

Lemma Step_tick (w : World Db) : Step P w (tick w).
Proof.
  constructor; simpl; auto.
  - exists []. rewrite app_nil_r. auto.
  - intros k u Hk. exists u. auto.
Qed.

Lemma Step_patch (k : string) (u : UserData) (p : UserPatch) (now : Z) (w : World Db) :
  users (data w) !! k = Some u -> setStakedAmount p = None ->
  Step P w (putUser k (applyPatch u p now) w).
Proof.
  intros Hk Hp. constructor; simpl; auto.
  - exists []. rewrite app_nil_r. auto.
  - intros j v Hj. destruct (decide (k = j)) as [->|Hne].
    + rewrite lookup_insert_eq. exists (applyPatch u p now).
      assert (v = u) by congruence. subst v.
      simpl. rewrite Hp. auto.
    + rewrite lookup_insert_ne by exact Hne. exists v. auto.
  - intros Hwf j v. destruct (decide (k = j)) as [->|Hne].
    + rewrite lookup_insert_eq. intros [= <-]. simpl. apply Hwf. exact Hk.
    + rewrite lookup_insert_ne by exact Hne. apply Hwf.
Qed.

Lemma Step_create (k : string) (u : UserData) (w : World Db) :
  users (data w) !! k = None -> id u = k -> Step P w (putUser k u w).
Proof.
  intros Hk Hid. constructor; simpl; auto.
  - exists []. rewrite app_nil_r. auto.
  - intros j v Hj. destruct (decide (k = j)) as [->|Hne]; [congruence|].
    rewrite lookup_insert_ne by exact Hne. exists v. auto.
  - intros Hwf j v. destruct (decide (k = j)) as [->|Hne].
    + rewrite lookup_insert_eq. intros [= <-]. exact Hid.
    + rewrite lookup_insert_ne by exact Hne. apply Hwf.
Qed.

Lemma Step_addDoc (d : TransactionDoc) (w : World Db) :
  P d -> Step P w (addDoc d w).
Proof.
  intros Hd. constructor; simpl; auto.
  - exists [d]. auto.
  - intros k u Hk. exists u. auto.
Qed.

Variable fault : nat -> Request -> bool.
Variable gen : string -> Z -> string.

Lemma updateUserBalance_step (k : string) (p : UserPatch) :
  setStakedAmount p = None -> Preserves (Step P) (updateUserBalance fault k p).
Proof.
  intros Hp w. rewrite updateUserBalance_eq.
  destruct (fault (requests w) (Update Users k)); [apply Step_tick|].
  destruct (users (data w) !! k) as [u|] eqn:Hk; simpl; [|apply Step_tick].
  etransitivity; [apply Step_tick|]. apply Step_patch; auto.
Qed.

Lemma logTransaction_step (t : TransactionData) :
  (forall now, P (Logged (mkTx (userId t) (type t) (amount t) now (status t)
                               (txHash t) (description t)))) ->
  Preserves (Step P) (logTransaction fault t).
Proof.
  intros Ht w. rewrite logTransaction_eq.
  destruct (fault (requests w) (Add Transactions)); simpl; [apply Step_tick|].
  etransitivity; [apply Step_tick|]. apply Step_addDoc, Ht.
Qed.

Lemma getUserData_step (k : string) : Preserves (Step P) (getUserData fault gen k).
Proof.
  intros w. rewrite getUserData_eq.
  destruct (fault (requests w) (Get Users k)); [apply Step_tick|].
  destruct (users (data w) !! k) as [u|] eqn:Hk; simpl; [apply Step_tick|].
  destruct (fault (S (requests w)) (SetDoc Users k)); simpl.
  - etransitivity; apply Step_tick.
  - etransitivity; [apply Step_tick|]. etransitivity; [apply Step_tick|].
    apply Step_create; auto.
Qed.

Lemma updateUserPremiumStatus_step (k : string) (premium : bool)
  (expiresAt : option Z) (rate : string) :
  (forall now, P (premiumDoc k premium now)) ->
  Preserves (Step P) (updateUserPremiumStatus fault k premium expiresAt rate).
Proof.
  intros Hd w. rewrite updateUserPremiumStatus_eq.
  destruct (fault (requests w) (Update Users k)); [apply Step_tick|].
  destruct (users (data w) !! k) as [u|] eqn:Hk; [|apply Step_tick].
  assert (Step P w (putUser k (applyPatch u (premiumPatch premium expiresAt rate) (clock w))
                      (tick w))) as H1.
  { etransitivity; [apply Step_tick|]. apply Step_patch; auto. }
  cbv zeta. destruct (fault (S (requests w)) (Add Transactions)); simpl.
  - etransitivity; [exact H1|]. apply Step_tick.
  - etransitivity; [exact H1|]. etransitivity; [apply Step_tick|].
    apply Step_addDoc, Hd.
Qed.

Lemma processReferralBonus_step (referrerId : string) (refereeReward : float)
  (refereeId : string) :
  (forall t, type t = referral -> status t = completed -> P (Logged t)) ->
  Preserves (Step P) (processReferralBonus fault gen referrerId refereeReward refereeId).
Proof.
  intros HP. unfold processReferralBonus.
  rule preserves_tryCatch; [|intros ?; rule preserves_ret].
  rule preserves_bind; [apply getUserData_step | intros d].
  rule preserves_bind; [apply updateUserBalance_step; reflexivity | intros _].
  rule preserves_bind; [rule preserves_currentTime | intros now].
  rule preserves_bind; [|intros ?; rule preserves_ret].
  apply logTransaction_step. intros now'. apply HP; reflexivity.
Qed.

Lemma referralPart_step (user : UserData) (netReward : float) :
  (forall t, type t = referral -> status t = completed -> P (Logged t)) ->
  Preserves (Step P) (referralPart fault gen user netReward).
Proof.
  intros HP. unfold referralPart.
  destruct (referredBy user); [|rule preserves_ret].
  destruct (truthy _); [|rule preserves_ret].
  apply processReferralBonus_step, HP.
Qed.

Lemma distributeUserRewardWithPremium_step (user : UserData) (totalStaked : float) :
  (forall k now, P (premiumDoc k false now)) ->
  (forall t, status t = completed -> P (Logged t)) ->
  Preserves (Step P) (distributeUserRewardWithPremium fault gen user totalStaked).
Proof.
  intros HP1 HP2. unfold distributeUserRewardWithPremium.
  rule preserves_tryCatch; [|intros ?; rule preserves_ret].
  rule preserves_bind; [rule preserves_currentTime | intros now].
  rule preserves_bind; [|intros _].
  { destruct (premiumLapsed user now); [|rule preserves_ret].
    apply updateUserPremiumStatus_step. intros; apply HP1. }
  rule preserves_bind; [apply updateUserBalance_step; reflexivity | intros _].
  rule preserves_bind; [|intros _].
  { apply logTransaction_step. intros; apply HP2; reflexivity. }
  apply (referralPart_step user). intros t _ Ht. apply HP2, Ht.
Qed.


End Steps.

Lemma processReferralBonus_total fault gen referrerId refereeReward refereeId :
  Total (processReferralBonus fault gen referrerId refereeReward refereeId).
Proof.
  unfold processReferralBonus. apply tryCatch_total.
  intros e w. exists tt. reflexivity.
Qed.

Lemma referralPart_total fault gen user netReward :
  Total (referralPart fault gen user netReward).
Proof.
  unfold referralPart. destruct (referredBy user); [|intros w; exists tt; reflexivity].
  destruct (truthy _); [|intros w; exists tt; reflexivity].
  apply processReferralBonus_total.
Qed.

(** No error of an account leaves [distributeUserRewardWithPremium]. *)
Lemma distributeUserRewardWithPremium_total fault gen user totalStaked :
  Total (distributeUserRewardWithPremium fault gen user totalStaked).
Proof.
  unfold distributeUserRewardWithPremium. apply tryCatch_total.
  intros e w. exists tt. reflexivity.
Qed.

End FirestoreLemmas.

Lemma bind_returned {D A B} (m : Async D A) (k : A -> Async D B) w a w1 :
  m w = (Returned a, w1) -> bind m k w = k a w1.
Proof. intros H. unfold bind. rewrite H. reflexivity. Qed.

Lemma bind_thrown {D A B} (m : Async D A) (k : A -> Async D B) w e w1 :
  m w = (Thrown e, w1) -> bind m k w = (Thrown e, w1).
Proof. intros H. unfold bind. rewrite H. reflexivity. Qed.

Lemma tryCatch_returned {D A} (m : Async D A) (h : Error -> Async D A) w a w1 :
  m w = (Returned a, w1) -> tryCatch m h w = (Returned a, w1).
Proof. intros H. unfold tryCatch. rewrite H. reflexivity. Qed.

Lemma tryCatch_thrown {D A} (m : Async D A) (h : Error -> Async D A) w e w1 :
  m w = (Thrown e, w1) -> tryCatch m h w = h e w1.
Proof. intros H. unfold tryCatch. rewrite H. reflexivity. Qed.

Lemma total_unit {D} (m : Async D unit) (w : World D) :
  Total m -> m w = (Returned tt, snd (m w)).
Proof.
  intros H. destruct (H w) as [[] Ha]. destruct (m w) as [o w1].
  simpl in *. subst o. reflexivity.
Qed.

Module FirestoreRuns.
Import Firestore FirestoreFacts FirestoreLemmas.

Section Credits.
Variable fault : nat -> Request -> bool.
Variable gen : string -> Z -> string.

(** The step for one account when the store accepts its two requests,
    the update of its document and the addition of its record: the
    account is credited and its reward logged, and what follows only adds
    records that are not rewards. *)
Lemma step_credits_at (y : UserData) (totalStaked : float) (w : World Db) (stored : UserData) :
  users (data w) !! id y = Some stored ->
  fault (requests w) (Update Users (id y)) = false ->
  fault (S (requests w)) (Add Transactions) = false ->
  exists w2 w3,
    distributeUserRewardWithPremium fault gen y totalStaked w = (Returned tt, w3)
    /\ Step completedAside w2 w3
    /\ users (data w2) =
         <[id y := applyPatch stored (creditPatch y (netRewardOf y (clock w))) (clock w)]>
           (users (data w))
    /\ transactions (data w2) = transactions (data w) ++ [rewardRecord y (clock w)]
    /\ clock w2 = clock w /\ pool (data w2) = pool (data w)
    /\ w3 = snd (referralPart fault gen y (netRewardOf y (clock w)) w2).
Proof.
  intros Hk HU HA.
  set (now := clock w).
  (* the credit *)
  pose (wB := putUser (id y) (applyPatch stored (creditPatch y (netRewardOf y now)) now)
                (tick w)).
  assert (updateUserBalance fault (id y) (creditPatch y (netRewardOf y now)) w
          = (Returned tt, wB)) as EB.
  { rewrite updateUserBalance_eq, HU, Hk. reflexivity. }
  (* the record *)
  pose (w2 := addDoc (rewardRecord y now) (tick wB)).
  assert (forall t, logTransaction fault
            (mkTx (id y) reward (JS.toFixed (netRewardOf y now) 9) t completed None
               ("Daily staking reward " ++
                (if premiumActive y now then "(Premium 10.5% APY)"
                 else "(Standard 8.7% APY)"))%string) wB
          = (Returned (autoId (length (transactions (data wB)))), w2)) as EC.
  { intros t. rewrite logTransaction_eq. cbn [wB putUser tick requests]. rewrite HA.
    reflexivity. }
  exists w2, (snd (referralPart fault gen y (netRewardOf y now) w2)).
  split; [|split; [|split; [|split; [|split; [|split]]]]]; [| | | | | | reflexivity].
  - unfold distributeUserRewardWithPremium. apply tryCatch_returned.
    unfold bind at 1. unfold currentTime. cbv beta iota. fold now.
    rewrite premiumLapsed_never. unfold bind at 1, ret. cbv beta iota.
    rewrite (bind_returned _ _ _ _ _ EB).
    rewrite (bind_returned _ _ _ _ _ (EC now)).
    apply (total_unit (referralPart fault gen y (netRewardOf y now))).
    apply referralPart_total.
  - apply referralPart_step. intros t Ht Hs. split; [exact Hs|].
    simpl. rewrite Ht. reflexivity.
  - reflexivity.
  - reflexivity.
  - reflexivity.
  - reflexivity.
Qed.

Lemma step_credits (y : UserData) (totalStaked : float) (w : World Db) (stored : UserData) :
  users (data w) !! id y = Some stored ->
  (forall n, fault n (Update Users (id y)) = false) ->
  (forall n, fault n (Add Transactions) = false) ->
  exists w2 w3,
    distributeUserRewardWithPremium fault gen y totalStaked w = (Returned tt, w3)
    /\ Step completedAside w2 w3
    /\ users (data w2) =
         <[id y := applyPatch stored (creditPatch y (netRewardOf y (clock w))) (clock w)]>
           (users (data w))
    /\ transactions (data w2) = transactions (data w) ++ [rewardRecord y (clock w)]
    /\ clock w2 = clock w /\ pool (data w2) = pool (data w)
    /\ w3 = snd (referralPart fault gen y (netRewardOf y (clock w)) w2).
Proof. intros Hk HU HA. apply step_credits_at; auto. Qed.

End Credits.
End FirestoreRuns.

Module FirestoreRunFacts.
Import Firestore FirestoreFacts FirestoreLemmas FirestoreRuns.

Lemma rewardCount_app (l1 l2 : list TransactionDoc) :
  rewardCount (l1 ++ l2) = (rewardCount l1 + rewardCount l2)%nat.
Proof. unfold rewardCount. rewrite List.filter_app, length_app. reflexivity. Qed.

Lemma rewardCount_aside (l : list TransactionDoc) :
  Forall completedAside l -> rewardCount l = 0%nat.
Proof.
  unfold rewardCount. induction 1 as [|d l [_ Hd] _ IH]; simpl; [reflexivity|].
  rewrite Hd. exact IH.
Qed.

(** A document the stake query returns is a stored document. *)
Lemma usersWithStakes_stored (m : gmap string UserData) (u : UserData) :
  u ∈ usersWithStakes m -> exists k, m !! k = Some u.
Proof.
  unfold usersWithStakes. intros Hu.
  apply list_elem_of_fmap in Hu as ([k v] & -> & Hkv).
  rewrite merge_sort_Permutation in Hkv.
  apply list_elem_of_In, List.filter_In in Hkv as [Hin _].
  apply list_elem_of_In, elem_of_map_to_list in Hin.
  exists k. exact Hin.
Qed.

Lemma usersWithStakes_under_id (m : gmap string UserData) (u : UserData) :
  StoredUnderId m -> u ∈ usersWithStakes m -> m !! id u = Some u.
Proof.
  intros Hwf Hu. destruct (usersWithStakes_stored m u Hu) as [k Hk].
  rewrite (Hwf k u Hk). exact Hk.
Qed.

Section Runs.
Variable fault : nat -> Request -> bool.
Variable gen : string -> Z -> string.

Lemma completedAside_completed (w w' : World Db) :
  Step completedAside w w' -> Step completedDoc w w'.
Proof.
  intros [c p (added & Ht & Hf) d s]. constructor; auto.
  exists added. split; [exact Ht|].
  eapply Forall_impl; [exact Hf|]. intros x [Hx _]. exact Hx.
Qed.

Lemma step_completed (user : UserData) (totalStaked : float) :
  Preserves (Step completedDoc) (distributeUserRewardWithPremium fault gen user totalStaked).
Proof.
  apply distributeUserRewardWithPremium_step.
  - intros k now. reflexivity.
  - intros t Ht. exact Ht.
Qed.

Lemma forEach_completed (l : list UserData) (totalStaked : float) :
  Preserves (Step completedDoc)
    (forEach l (fun user => distributeUserRewardWithPremium fault gen user totalStaked)).
Proof. rule preserves_forEach. intros x. apply step_completed. Qed.

Lemma forEach_returns (l : list UserData) (totalStaked : float) (w : World Db) :
  forEach l (fun user => distributeUserRewardWithPremium fault gen user totalStaked) w
  = (Returned tt,
     snd (forEach l (fun user => distributeUserRewardWithPremium fault gen user totalStaked) w)).
Proof.
  apply total_unit, forEach_total. intros x.
  apply distributeUserRewardWithPremium_total.
Qed.

(** The run: the stake query, the accounts one after the other, the pool
    update. *)
Lemma distributeRewards_eq (w : World Db) :
  distributeRewards fault gen w =
  if fault (requests w) (Query Users) then (Thrown (Unavailable (Query Users)), tick w)
  else
    let stakers := usersWithStakes (users (data w)) in
    if (length stakers =? 0)%nat then (Returned tt, tick w)
    else if PrimFloat.eqb (totalStakedOf stakers) 0 then (Returned tt, tick w)
    else
      let w1 := snd (forEach stakers
                       (fun user => distributeUserRewardWithPremium fault gen user
                                      (totalStakedOf stakers)) (tick w)) in
      updatePool fault
        (mkPoolPatch (Some (JS.numberToString (totalStakedOf stakers))) None None None
                     (Some (clock w1)) None None None) w1.
Proof.
  unfold distributeRewards.
  destruct (fault (requests w) (Query Users)) eqn:HQ.
  - apply tryCatch_thrown with (e := Unavailable (Query Users)) (w1 := tick w).
    apply bind_thrown. rewrite getAllUsersWithStakes_eq, HQ. reflexivity.
  - cbv zeta.
    assert (getAllUsersWithStakes fault w
            = (Returned (usersWithStakes (users (data w))), tick w)) as EQ.
    { rewrite getAllUsersWithStakes_eq, HQ. reflexivity. }
    unfold tryCatch. rewrite (bind_returned _ _ _ _ _ EQ).
    destruct (length _ =? 0)%nat; [reflexivity|].
    destruct (PrimFloat.eqb _ 0); [reflexivity|].
    rewrite (bind_returned _ _ _ _ _ (forEach_returns _ _ _)).
    unfold bind at 1, currentTime. cbv beta iota.
    destruct (updatePool _ _ _) as [[[]|e] w2]; reflexivity.
Qed.

Lemma Step_keeps_docs P (w w' : World Db) (k : string) :
  Step P w w' -> is_Some (users (data w) !! k) -> is_Some (users (data w') !! k).
Proof.
  intros HS [u Hu]. destruct (step_docs _ _ _ HS k u Hu) as (u' & Hu' & _).
  exists u'. exact Hu'.
Qed.

Lemma Step_keeps_records P (w w' : World Db) (d : TransactionDoc) :
  Step P w w' -> d ∈ transactions (data w) -> d ∈ transactions (data w').
Proof.
  intros HS Hd. destruct (step_added _ _ _ HS) as (added & -> & _).
  apply elem_of_app. left. exact Hd.
Qed.

Lemma forEach_cons (y : UserData) (l : list UserData) (totalStaked : float) (w : World Db) :
  forEach (y :: l) (fun user => distributeUserRewardWithPremium fault gen user totalStaked) w
  = forEach l (fun user => distributeUserRewardWithPremium fault gen user totalStaked)
      (snd (distributeUserRewardWithPremium fault gen y totalStaked w)).
Proof.
  cbn [forEach]. erewrite bind_returned; [reflexivity|].
  apply total_unit, distributeUserRewardWithPremium_total.
Qed.

(** Every account of the snapshot whose document updates and whose
    transaction records the store accepts gets its reward logged, whatever
    happens to the other accounts. *)
Lemma forEach_logs (l : list UserData) (totalStaked : float) (w : World Db) (y : UserData) :
  (forall n, fault n (Update Users (id y)) = false) ->
  (forall n, fault n (Add Transactions) = false) ->
  y ∈ l -> is_Some (users (data w) !! id y) ->
  rewardRecord y (clock w) ∈
    transactions (data (snd (forEach l
      (fun user => distributeUserRewardWithPremium fault gen user totalStaked) w))).
Proof.
  intros HU HA. revert w. induction l as [|x l IH]; intros w Hy Hs.
  - apply elem_of_nil in Hy. contradiction.
  - rewrite forEach_cons.
    pose proof (step_completed x totalStaked w) as Hx.
    apply elem_of_cons in Hy as [->|Hy].
    + destruct Hs as [stored Hs].
      destruct (step_credits fault gen x totalStaked w stored Hs HU HA)
        as (w2 & w3 & E & H23 & _ & HT & _).
      rewrite E. cbn [snd].
      eapply Step_keeps_records; [apply forEach_completed|].
      eapply Step_keeps_records; [exact H23|].
      rewrite HT, !elem_of_app. right. apply list_elem_of_singleton. reflexivity.
    + rewrite <- (step_clock _ _ _ Hx). apply IH; [exact Hy|].
      eapply Step_keeps_docs; [exact Hx | exact Hs].
Qed.

Lemma forEach_app (l1 l2 : list UserData) (totalStaked : float) (w : World Db) :
  forEach (l1 ++ l2) (fun user => distributeUserRewardWithPremium fault gen user totalStaked) w
  = forEach l2 (fun user => distributeUserRewardWithPremium fault gen user totalStaked)
      (snd (forEach l1
              (fun user => distributeUserRewardWithPremium fault gen user totalStaked) w)).
Proof.
  revert w. induction l1 as [|x l1 IH]; intros w; [reflexivity|].
  rewrite <- app_comm_cons, !forEach_cons. apply IH.
Qed.

(** An account of the snapshot gets its reward logged as soon as the
    store accepts the two requests of its own turn, whatever it does with
    the requests of the accounts before and after it. *)
Lemma forEach_logs_at (before after : list UserData) (totalStaked : float) (w : World Db)
  (y : UserData) :
  is_Some (users (data w) !! id y) ->
  let turn := snd (forEach before
                     (fun user => distributeUserRewardWithPremium fault gen user totalStaked)
                     w) in
  fault (requests turn) (Update Users (id y)) = false ->
  fault (S (requests turn)) (Add Transactions) = false ->
  rewardRecord y (clock w) ∈
    transactions (data (snd (forEach (before ++ y :: after)
      (fun user => distributeUserRewardWithPremium fault gen user totalStaked) w))).
Proof.
  intros Hs turn HU HA. rewrite forEach_app, forEach_cons. fold turn.
  assert (Step completedDoc w turn) as Hturn by apply forEach_completed.
  destruct (Step_keeps_docs _ _ _ _ Hturn Hs) as [stored Hk].
  destruct (step_credits_at fault gen y totalStaked turn stored Hk HU HA)
    as (w2 & w3 & E & H23 & _ & HT & _).
  rewrite E. cbn [snd].
  eapply Step_keeps_records; [apply forEach_completed|].
  eapply Step_keeps_records; [exact H23|].
  rewrite HT, (step_clock _ _ _ Hturn), elem_of_app. right.
  apply list_elem_of_singleton. reflexivity.
Qed.

End Runs.

(** With a store that accepts every request, each account of the snapshot
    adds exactly one reward record. *)
Lemma forEach_counts (gen : string -> Z -> string) (l : list UserData)
  (totalStaked : float) (w : World Db) :
  (forall y, y ∈ l -> is_Some (users (data w) !! id y)) ->
  rewardCount (transactions (data (snd (forEach l
      (fun user => distributeUserRewardWithPremium reliable gen user totalStaked) w))))
  = (rewardCount (transactions (data w)) + length l)%nat.
Proof.
  revert w. induction l as [|y l IH]; intros w Hl.
  - simpl. lia.
  - rewrite forEach_cons.
    destruct (Hl y) as [stored Hs]; [apply elem_of_cons; auto|].
    destruct (step_credits reliable gen y totalStaked w stored Hs)
      as (w2 & w3 & E & H23 & _ & HT & _); [reflexivity | reflexivity |].
    pose proof (step_completed reliable gen y totalStaked w) as Hy.
    rewrite E in *. cbn [snd] in *.
    rewrite IH.
    + destruct (step_added _ _ _ H23) as (added & -> & Hadded).
      rewrite HT, !rewardCount_app, (rewardCount_aside _ Hadded).
      cbn [length]. unfold rewardCount at 2. simpl. lia.
    + intros z Hz. eapply Step_keeps_docs; [exact Hy|].
      apply Hl, elem_of_cons. auto.
Qed.

End FirestoreRunFacts.

(** *** The run does not read the pool document *)

Module FirestoreBlind.
Import Firestore FirestoreFacts FirestoreLemmas FirestoreRuns FirestoreRunFacts.

Lemma blind_ret {A} (a : A) : PoolBlind (ret a).
Proof. intros q w. reflexivity. Qed.

Lemma blind_currentTime : PoolBlind currentTime.
Proof. intros q w. reflexivity. Qed.

Lemma blind_bind {A B} (m : Async Db A) (k : A -> Async Db B) :
  PoolBlind m -> (forall a, PoolBlind (k a)) -> PoolBlind (bind m k).
Proof.
  intros Hm Hk q w. unfold bind. rewrite Hm.
  destruct (m w) as [[a|e] w1]; cbn [fst snd]; [apply Hk | reflexivity].
Qed.

Lemma blind_tryCatch {A} (m : Async Db A) (h : Error -> Async Db A) :
  PoolBlind m -> (forall e, PoolBlind (h e)) -> PoolBlind (tryCatch m h).
Proof.
  intros Hm Hh q w. unfold tryCatch. rewrite Hm.
  destruct (m w) as [[a|e] w1]; cbn [fst snd]; [reflexivity | apply Hh].
Qed.

Lemma blind_forEach {A} (l : list A) (body : A -> Async Db unit) :
  (forall x, PoolBlind (body x)) -> PoolBlind (forEach l body).
Proof.
  intros Hb. induction l as [|x l IH]; cbn [forEach].
  - apply blind_ret.
  - apply blind_bind; [apply Hb | intros _; exact IH].
Qed.

Section Blind.
Variable fault : nat -> Request -> bool.
Variable gen : string -> Z -> string.

Lemma blind_updateUserBalance (k : string) (p : UserPatch) :
  PoolBlind (updateUserBalance fault k p).
Proof.
  intros q w. rewrite !updateUserBalance_eq. cbn [setPool requests data users clock].
  destruct (fault (requests w) (Update Users k)); [reflexivity|].
  destruct (users (data w) !! k); reflexivity.
Qed.

Lemma blind_logTransaction (t : TransactionData) : PoolBlind (logTransaction fault t).
Proof.
  intros q w. rewrite !logTransaction_eq. cbn [setPool requests data transactions clock].
  destruct (fault (requests w) (Add Transactions)); reflexivity.
Qed.

Lemma blind_getUserData (k : string) : PoolBlind (getUserData fault gen k).
Proof.
  intros q w. rewrite !getUserData_eq. cbn [setPool requests data users clock].
  destruct (fault (requests w) (Get Users k)); [reflexivity|].
  destruct (users (data w) !! k); [reflexivity|].
  destruct (fault (S (requests w)) (SetDoc Users k)); reflexivity.
Qed.

Lemma blind_updateUserPremiumStatus (k : string) (premium : bool)
  (expiresAt : option Z) (rate : string) :
  PoolBlind (updateUserPremiumStatus fault k premium expiresAt rate).
Proof.
  intros q w. rewrite !updateUserPremiumStatus_eq.
  cbn [setPool requests data users clock].
  destruct (fault (requests w) (Update Users k)); [reflexivity|].
  destruct (users (data w) !! k); [|reflexivity].
  cbv zeta. destruct (fault (S (requests w)) (Add Transactions)); reflexivity.
Qed.

Lemma blind_processReferralBonus (referrerId : string) (refereeReward : float)
  (refereeId : string) :
  PoolBlind (processReferralBonus fault gen referrerId refereeReward refereeId).
Proof.
  unfold processReferralBonus.
  apply blind_tryCatch; [|intros ?; apply blind_ret].
  apply blind_bind; [apply blind_getUserData | intros d].
  apply blind_bind; [apply blind_updateUserBalance | intros _].
  apply blind_bind; [apply blind_currentTime | intros now].
  apply blind_bind; [apply blind_logTransaction | intros ?; apply blind_ret].
Qed.

Lemma blind_step (user : UserData) (totalStaked : float) :
  PoolBlind (distributeUserRewardWithPremium fault gen user totalStaked).
Proof.
  unfold distributeUserRewardWithPremium.
  apply blind_tryCatch; [|intros ?; apply blind_ret].
  apply blind_bind; [apply blind_currentTime | intros now].
  apply blind_bind; [|intros _].
  { destruct (premiumLapsed user now);
      [apply blind_updateUserPremiumStatus | apply blind_ret]. }
  apply blind_bind; [apply blind_updateUserBalance | intros _].
  apply blind_bind; [apply blind_logTransaction | intros _].
  destruct (referredBy user); [|apply blind_ret].
  destruct (truthy _); [apply blind_processReferralBonus | apply blind_ret].
Qed.

(** Whatever the pool document holds before a run, in particular
    whatever [lastRewardDistribution] says, the run does the same to the
    users and the transactions. *)
Lemma distributeRewards_blind (w : World Db) (p q : PoolData) :
  pool (data w) = Some p ->
  let r := distributeRewards fault gen w in
  let r' := distributeRewards fault gen (setPool (Some q) w) in
  fst r' = fst r
  /\ users (data (snd r')) = users (data (snd r))
  /\ transactions (data (snd r')) = transactions (data (snd r)).
Proof.
  intros Hp. cbv zeta. rewrite !distributeRewards_eq.
  cbn [setPool requests data users].
  destruct (fault (requests w) (Query Users)); [auto|].
  cbv zeta. destruct (length _ =? 0)%nat; [auto|].
  destruct (PrimFloat.eqb _ 0); [auto|].
  change (tick (setPool (Some q) w)) with (setPool (Some q) (tick w)).
  rewrite (blind_forEach _ _ (fun x => blind_step x _)). cbn [snd].
  set (w1 := snd (forEach _ _ (tick w))).
  assert (pool (data w1) = Some p) as Hp1.
  { unfold w1. rewrite (step_pool _ _ _ (forEach_completed fault gen _ _ (tick w))).
    exact Hp. }
  rewrite !updatePool_eq. cbn [setPool requests data pool clock]. rewrite Hp1.
  destruct (fault (requests w1) (Update Pool "main")); auto.
Qed.

End Blind.
End FirestoreBlind.

(** *** Fields and documents a credit leaves alone *)

Module FirestoreFrames.
Import Firestore FirestoreFacts FirestoreLemmas FirestoreRuns.

#[export] Instance KeepsPremium_refl : Reflexive KeepsPremium.
Proof. intros w k u Hk. exists u. auto. Qed.

#[export] Instance KeepsPremium_trans : Transitive KeepsPremium.
Proof.
  intros w1 w2 w3 H12 H23 k u Hk.
  destruct (H12 k u Hk) as (u1 & H1 & A1 & B1 & C1).
  destruct (H23 k u1 H1) as (u2 & H2 & A2 & B2 & C2).
  exists u2. repeat split; congruence.
Qed.

#[export] Instance SameAt_refl k : Reflexive (SameAt k).
Proof. intros w. reflexivity. Qed.

#[export] Instance SameAt_trans k : Transitive (SameAt k).
Proof. intros w1 w2 w3 H12 H23. unfold SameAt in *. congruence. Qed.

Section Frames.
Variable fault : nat -> Request -> bool.
Variable gen : string -> Z -> string.

Lemma KeepsPremium_tick (w : World Db) : KeepsPremium w (tick w).
Proof. intros k u Hk. exists u. auto. Qed.



Lemma KeepsPremium_create (k : string) (u : UserData) (w : World Db) :
  users (data w) !! k = None -> KeepsPremium w (putUser k u w).
Proof.
  intros Hk j v Hj. simpl. destruct (decide (k = j)) as [->|Hne]; [congruence|].
  rewrite lookup_insert_ne by exact Hne. exists v. auto.
Qed.



Lemma getUserData_keeps (k : string) : Preserves KeepsPremium (getUserData fault gen k).
Proof.
  intros w. rewrite getUserData_eq.
  destruct (fault (requests w) (Get Users k)); [apply KeepsPremium_tick|].
  destruct (users (data w) !! k) as [u|] eqn:Hk; simpl; [apply KeepsPremium_tick|].
  destruct (fault (S (requests w)) (SetDoc Users k)); simpl.
  - etransitivity; apply KeepsPremium_tick.
  - etransitivity; [apply KeepsPremium_tick|]. etransitivity; [apply KeepsPremium_tick|].
    apply KeepsPremium_create; auto.
Qed.




End Frames.
End FirestoreFrames.

(** ** The distribution run (C2, C6, C7) *)

Section DistributionClaims.
Import Firestore FirestoreFacts FirestoreLemmas FirestoreRuns FirestoreRunFacts
       FirestoreBlind FirestoreFrames.

(** C2 (as the code has it): [distributeRewards] has no idempotency guard.
    What a run does to the users and the transactions does not depend on
    what the pool document, and so [lastRewardDistribution], holds; and
    every run on a store that accepts all requests, a second one for the
    same period included, returns normally and logs one more reward for
    each account of the stake query. *)
Theorem distribution_repeats (gen : string -> Z -> string) (w : World Db) (p : PoolData) :
  pool (data w) = Some p ->
  StoredUnderId (users (data w)) ->
  usersWithStakes (users (data w)) <> [] ->
  PrimFloat.eqb (totalStakedOf (usersWithStakes (users (data w)))) 0 = false ->
  (forall fault marker,
     let r := distributeRewards fault gen w in
     let r' := distributeRewards fault gen (setPool (Some marker) w) in
     fst r' = fst r
     /\ users (data (snd r')) = users (data (snd r))
     /\ transactions (data (snd r')) = transactions (data (snd r)))
  /\ (let r := distributeRewards reliable gen w in
      fst r = Returned tt
      /\ rewardCount (transactions (data (snd r)))
         = (rewardCount (transactions (data w))
            + length (usersWithStakes (users (data w))))%nat).
Proof.
  intros Hp Hwf Hne Htot. split.
  - intros fault marker. apply distributeRewards_blind with (p := p). exact Hp.
  - cbv zeta. rewrite distributeRewards_eq. cbn [reliable]. cbv zeta.
    destruct (usersWithStakes (users (data w))) as [|y l] eqn:El; [congruence|].
    cbn [length Nat.eqb]. rewrite Htot.
    set (total := totalStakedOf (y :: l)).
    set (w1 := snd (forEach (y :: l) _ (tick w))).
    assert (Step completedDoc (tick w) w1) as H1 by apply forEach_completed.
    rewrite updatePool_eq. cbn [reliable].
    rewrite (step_pool _ _ _ H1). cbn [tick data]. rewrite Hp. cbn [fst snd data transactions withPool].
    split; [reflexivity|].
    unfold w1. rewrite forEach_counts; [reflexivity|].
    intros z Hz. exists z. cbn [tick data].
    apply usersWithStakes_under_id; [exact Hwf|]. rewrite El. exact Hz.
Qed.

(** The second of two runs on a store that accepts everything: the marker
    set by the first run is in place, and the second run returns normally
    and credits the account once more. *)
Lemma second_run_counterexample :
  let first := distributeRewards reliable Examples.gen Examples.daveWorld in
  let second := distributeRewards reliable Examples.gen (snd first) in
  (lastRewardDistribution <$> pool (data (snd first))) = Some (Some 1000%Z)
  /\ fst second = Returned tt
  /\ (rewardsBalance <$> users (data (snd first)) !! "dave") = Some "0.008599890"%string
  /\ (rewardsBalance <$> users (data (snd second)) !! "dave") = Some "0.017199780"%string
  /\ length (transactions (data (snd first))) = 1%nat
  /\ length (transactions (data (snd second))) = 2%nat.
Proof. vm_compute. repeat split; reflexivity. Qed.

(** The scheduler repeats as well: a second run after the first, which
    recorded [lastPayout], compounds the reward once more. *)
Lemma scheduler_second_run :
  let run := Pool.calculateAndDistributeRewards reliable (Returned PoolFacts.reported)
               "admin" in
  let first := run PoolFacts.referredWorld in
  let second := run (snd first) in
  (Pool.lastPayout <$> Pool.poolConfig (data (snd first))) = Some 1000%Z
  /\ fst second = Returned tt
  /\ (Pool.totalStaked <$> Pool.users (data (snd first)) !! "uuid-a")
     = Some "1010.000000000"%string
  /\ (Pool.totalStaked <$> Pool.users (data (snd second)) !! "uuid-a")
     = Some "1020.000000000"%string
  /\ length (Pool.transactions (data (snd first))) = 3%nat
  /\ length (Pool.transactions (data (snd second))) = 6%nat.
Proof. vm_compute. repeat split; reflexivity. Qed.

Lemma stored_under_id_check (m : gmap string UserData) :
  bool_decide (map_Forall (fun k u => id u = k) m) = true -> StoredUnderId m.
Proof. intros H. apply bool_decide_eq_true in H. exact H. Qed.

Lemma distribution_repeats_witness :
  let first := distributeRewards reliable Examples.gen Examples.daveWorld in
  let second := distributeRewards reliable Examples.gen (snd first) in
  fst second = Returned tt
  /\ rewardCount (transactions (data (snd second)))
     = (rewardCount (transactions (data (snd first))) + 1)%nat.
Proof.
  cbv zeta.
  refine (proj2 (distribution_repeats Examples.gen
                   (snd (distributeRewards reliable Examples.gen Examples.daveWorld))
                   (mkPool "41" "0" "0.000238356164383562" "admin" (Some 1000%Z) None None
                           (Some "0"%string) (Some 1000%Z))
                   _ _ _ _)).
  - vm_compute. reflexivity.
  - apply stored_under_id_check. vm_compute. reflexivity.
  - vm_compute. discriminate.
  - vm_compute. reflexivity.
Defined.

(** The outcome of a run is that of its stake query or of its pool
    update: no error of an account's processing ends the run. *)
Lemma run_outcome fault gen (w : World Db) :
  let r := distributeRewards fault gen w in
  fst r = Returned tt
  \/ fst r = Thrown (Unavailable (Query Users))
  \/ fst r = Thrown (Unavailable (Update Pool "main"))
  \/ fst r = Thrown (NotFound Pool "main").
Proof.
  cbv zeta. rewrite distributeRewards_eq.
  destruct (fault (requests w) (Query Users)); [auto|].
  cbv zeta. destruct (length _ =? 0)%nat; [auto|].
  destruct (PrimFloat.eqb _ 0); [auto|].
  rewrite updatePool_eq.
  destruct (fault _ (Update Pool "main")); [auto|].
  destruct (pool _); auto.
Qed.

(** Every record a run adds is a completed one. *)
Lemma run_adds_completed fault gen (w : World Db) :
  exists added,
    transactions (data (snd (distributeRewards fault gen w)))
    = transactions (data w) ++ added
    /\ Forall completedDoc added.
Proof.
  rewrite distributeRewards_eq.
  assert (exists added, transactions (data (tick w)) = transactions (data w) ++ added
                        /\ Forall completedDoc added) as Htick.
  { exists []. rewrite app_nil_r. auto. }
  destruct (fault (requests w) (Query Users)); [exact Htick|].
  cbv zeta. destruct (length _ =? 0)%nat; [exact Htick|].
  destruct (PrimFloat.eqb _ 0); [exact Htick|].
  set (w1 := snd (forEach _ _ (tick w))).
  assert (Step completedDoc (tick w) w1) as H1 by apply forEach_completed.
  destruct (step_added _ _ _ H1) as (added & Ht & Hf).
  exists added. split; [|exact Hf].
  rewrite updatePool_eq.
  destruct (fault _ (Update Pool "main")); [exact Ht|].
  destruct (pool _); exact Ht.
Qed.

Lemma tryCatch_swallow_world {D A} (m : Async D A) (a : A) (w : World D) :
  snd (tryCatch m (fun _ => ret a) w) = snd (m w).
Proof. unfold tryCatch. destruct (m w) as [[x|e] w1]; reflexivity. Qed.

(** C6 (as the code has it): an error in the processing of one account is
    caught inside [distributeUserRewardWithPremium] and only written to the
    console.  The run goes on: its outcome is that of the stake query or of
    the pool update, every record it adds has status [completed] (none
    records a failure, and the run returns nothing, so there is no tally).
    An account of the snapshot has its reward credited and logged as soon
    as the store accepts the two requests of its own turn, the update of
    its document and the addition of its record, whatever the store does
    with the requests of the accounts before it and after it: in its turn
    the credited document is written, then the reward record, and the
    record is still there when the run ends. *)
Theorem failure_isolated (fault : nat -> Request -> bool) (gen : string -> Z -> string)
  (w : World Db) (before after : list UserData) (y : UserData) :
  fault (requests w) (Query Users) = false ->
  usersWithStakes (users (data w)) = before ++ y :: after ->
  PrimFloat.eqb (totalStakedOf (usersWithStakes (users (data w)))) 0 = false ->
  is_Some (users (data w) !! id y) ->
  let totalStaked := totalStakedOf (usersWithStakes (users (data w))) in
  let turn := snd (forEach before
                     (fun user => distributeUserRewardWithPremium fault gen user totalStaked)
                     (tick w)) in
  fault (requests turn) (Update Users (id y)) = false ->
  fault (S (requests turn)) (Add Transactions) = false ->
  let r := distributeRewards fault gen w in
  (forall user total, Total (distributeUserRewardWithPremium fault gen user total))
  /\ (fst r = Returned tt
      \/ fst r = Thrown (Unavailable (Update Pool "main"))
      \/ fst r = Thrown (NotFound Pool "main"))
  /\ (exists added,
        transactions (data (snd r)) = transactions (data w) ++ added
        /\ Forall (fun d => docStatus d = completed) added)
  /\ rewardRecord y (clock w) ∈ transactions (data (snd r))
  /\ (exists stored w2,
        users (data turn) !! id y = Some stored
        /\ distributeUserRewardWithPremium fault gen y totalStaked turn
           = (Returned tt, snd (referralPart fault gen y (netRewardOf y (clock w)) w2))
        /\ users (data w2) !! id y
           = Some (applyPatch stored (creditPatch y (netRewardOf y (clock w))) (clock w))
        /\ transactions (data w2)
           = transactions (data turn) ++ [rewardRecord y (clock w)]).
Proof.
  intros HQ El Htot Hs totalStaked turn HU HA. cbv zeta.
  assert (Step completedDoc (tick w) turn) as Hturn by apply forEach_completed.
  split; [|split; [|split; [|split]]].
  - intros user total. apply distributeUserRewardWithPremium_total.
  - destruct (run_outcome fault gen w) as [H|[H|[H|H]]]; auto.
    rewrite distributeRewards_eq, HQ in H. cbv zeta in H.
    destruct (length _ =? 0)%nat; [discriminate|].
    destruct (PrimFloat.eqb _ 0); [discriminate|].
    rewrite updatePool_eq in H.
    destruct (fault _ (Update Pool "main")); [discriminate|].
    destruct (pool _); discriminate.
  - apply run_adds_completed.
  - assert (rewardRecord y (clock w) ∈
            transactions (data (snd (forEach (before ++ y :: after)
              (fun user => distributeUserRewardWithPremium fault gen user totalStaked)
              (tick w))))) as Hin.
    { change (clock w) with (clock (tick w)). apply forEach_logs_at; assumption. }
    rewrite <- El in Hin.
    rewrite distributeRewards_eq, HQ. cbv zeta. rewrite Htot.
    destruct (length _ =? 0)%nat eqn:EL.
    { apply Nat.eqb_eq in EL. rewrite El, length_app in EL. cbn [length] in EL. lia. }
    rewrite updatePool_eq.
    destruct (fault _ (Update Pool "main")); [exact Hin|].
    destruct (pool _); exact Hin.
  - destruct (Step_keeps_docs _ _ _ _ Hturn Hs) as [stored Hk].
    destruct (step_credits_at fault gen y totalStaked turn stored Hk HU HA)
      as (w2 & w3 & E & _ & U & T & _ & _ & ->).
    rewrite (step_clock _ _ _ Hturn) in *. cbn [tick clock] in *.
    exists stored, w2. split; [exact Hk|]. split; [exact E|]. split; [|exact T].
    rewrite U. apply lookup_insert_eq.
Qed.

(** C6, as stated, fails: the store rejects the updates of xavier's
    document; the run returns normally, yara and zoe are credited and
    their rewards logged, and nothing records xavier's failure: the
    transactions hold no record for xavier and none with status
    [failed]. *)
Lemma failed_account_counterexample :
  let r := distributeRewards Examples.rejectXavier Examples.gen Examples.xyzWorld in
  fst r = Returned tt
  /\ (rewardsBalance <$> users (data (snd r)) !! "xavier") = Some "0"%string
  /\ (rewardsBalance <$> users (data (snd r)) !! "yara") = Some "0.041950685"%string
  /\ (rewardsBalance <$> users (data (snd r)) !! "zoe") = Some "0.062926027"%string
  /\ List.map (fun d => match d with
                        | Logged t => (userId t, status t)
                        | PremiumPayment k _ s _ _ => (k, s)
                        end) (transactions (data (snd r)))
     = [("yara"%string, completed); ("zoe"%string, completed)].
Proof. vm_compute. repeat split; reflexivity. Qed.

(** The same when it is xavier's reward record that the store rejects,
    all other requests being accepted: his balance has been credited, no
    record tells of it or of the failure, and yara and zoe are credited
    and logged. *)
Lemma rejected_record_example :
  let r := distributeRewards Examples.rejectThird Examples.gen Examples.xyzWorld in
  fst r = Returned tt
  /\ (rewardsBalance <$> users (data (snd r)) !! "xavier") = Some "0.020975342"%string
  /\ (rewardsBalance <$> users (data (snd r)) !! "yara") = Some "0.041950685"%string
  /\ (rewardsBalance <$> users (data (snd r)) !! "zoe") = Some "0.062926027"%string
  /\ List.map (fun d => match d with
                        | Logged t => (userId t, status t)
                        | PremiumPayment k _ s _ _ => (k, s)
                        end) (transactions (data (snd r)))
     = [("yara"%string, completed); ("zoe"%string, completed)].
Proof. vm_compute. repeat split; reflexivity. Qed.

(** In the scheduler an account's failed update rejects [Promise.all]:
    the run skips the pool configuration and the commission record, and
    logs one [failed] transaction for [system]. *)
Lemma scheduler_failure_example :
  let r := Pool.calculateAndDistributeRewards PoolFacts.rejectAlice
             (Returned PoolFacts.reported) "admin" PoolFacts.referredWorld in
  fst r = Returned tt
  /\ Pool.poolConfig (data (snd r)) = None
  /\ List.map (fun t => (Pool.txTelegramId (Pool.inserted t), Pool.status t,
                         Pool.txDescription (Pool.inserted t)))
              (Pool.transactions (data (snd r)))
     = [("system", Pool.failed, "Reward distribution failed: unavailable")]%string.
Proof. vm_compute. repeat split; reflexivity. Qed.

Lemma failure_isolated_witness :
  rewardRecord (Examples.account "yara" "200" None) 1000 ∈
    transactions (data (snd (distributeRewards Examples.rejectThird Examples.gen
                               Examples.xyzWorld))).
Proof.
  refine (proj1 (proj2 (proj2 (proj2
    (failure_isolated Examples.rejectThird Examples.gen Examples.xyzWorld
       [Examples.account "xavier" "100" None] [Examples.account "zoe" "300" None]
       (Examples.account "yara" "200" None) _ _ _ _ _ _))))).
  - reflexivity.
  - vm_compute. reflexivity.
  - vm_compute. reflexivity.
  - vm_compute. eexists. reflexivity.
  - vm_compute. reflexivity.
  - vm_compute. reflexivity.
Defined.

(** *** The premium fields in a run *)



(** The reward record of an account of the stake query is among the
    transactions when a run on a store that accepts every request ends. *)
Lemma run_logs (gen : string -> Z -> string) (w : World Db) (y : UserData) :
  StoredUnderId (users (data w)) ->
  y ∈ usersWithStakes (users (data w)) ->
  PrimFloat.eqb (totalStakedOf (usersWithStakes (users (data w)))) 0 = false ->
  rewardRecord y (clock w) ∈ transactions (data (snd (distributeRewards reliable gen w))).
Proof.
  intros Hwf Hy Htot. rewrite distributeRewards_eq. cbn [reliable]. cbv zeta.
  destruct (usersWithStakes (users (data w))) as [|x l] eqn:El.
  { apply elem_of_nil in Hy. contradiction. }
  cbn [length Nat.eqb]. rewrite Htot.
  set (w1 := snd (forEach (x :: l) _ (tick w))).
  assert (rewardRecord y (clock w) ∈ transactions (data w1)) as Hin.
  { unfold w1. change (clock w) with (clock (tick w)).
    apply forEach_logs; [reflexivity | reflexivity | exact Hy |].
    exists y. cbn [tick data]. apply usersWithStakes_under_id; [exact Hwf|].
    rewrite El. exact Hy. }
  rewrite updatePool_eq. cbn [reliable].
  destruct (pool _); exact Hin.
Qed.




(** ** Conservation (C1) and the premium differential (C4) in a run *)

(** C1 (as the code has it): the amounts of a run are binary64 numbers.
    For each account of the stake query, on a store that accepts every
    request, the run logs as its reward the binary64 difference of its
    gross reward and its commission, with nine fraction digits.  With
    exact arithmetic on fractions the net rewards and the commissions of
    any list of accounts add up to the gross rewards, and the scheduler's
    shares of the net figure and its commission add up to the gross
    figure. *)
Theorem conservation_exact :
  (forall accounts : list (Qc * bool),
     (total (List.map net accounts) + total (List.map commission accounts))%num
     = total (List.map gross accounts))
  /\ (forall (grossRewards : Qc) (stakes : list Qc),
        total stakes <> 0%Qc ->
        (total (List.map (fun s => poolUserReward grossRewards s (total stakes)) stakes)
         + poolCommission grossRewards)%num = grossRewards)
  /\ (forall (gen : string -> Z -> string) (w : World Db) (y : UserData),
        StoredUnderId (users (data w)) ->
        y ∈ usersWithStakes (users (data w)) ->
        PrimFloat.eqb (totalStakedOf (usersWithStakes (users (data w)))) 0 = false ->
        let now := clock w in
        let account := (userStake y, premiumActive y now) in
        account ∈ accountsOf now (usersWithStakes (users (data w)))
        /\ Logged (mkTx (id y) reward
                     (JS.toFixed (PrimFloat.sub (gross account) (commission account)) 9)
                     now completed None
                     ("Daily staking reward " ++
                      (if snd account then "(Premium 10.5% APY)"
                       else "(Standard 8.7% APY)")))
           ∈ transactions (data (snd (distributeRewards reliable gen w)))).
Proof.
  split; [|split].
  - induction accounts as [|a l IH]; cbn [List.map].
    + rewrite !total_nil. change (@nadd Qc rational) with Qcplus. ring.
    + pose proof (net_plus_commission (gross a)) as Ha.
      change (netUserReward (gross a)) with (net a) in Ha.
      change (adminCommission (gross a)) with (commission a) in Ha.
      rewrite !total_cons, <- IH, <- Ha.
      change (@nadd Qc rational) with Qcplus. ring.
  - intros g stakes HT. unfold poolUserReward, userShare.
    change (@nmul Qc rational) with Qcmult. change (@ndiv Qc rational) with Qcdiv.
    rewrite (shares_of_total _ _ _ HT).
    unfold netRewards, poolCommission.
    change (@nadd Qc rational) with Qcplus. change (@nsub Qc rational) with Qcminus.
    change (@nmul Qc rational) with Qcmult.
    field. exact HT.
  - intros gen w y Hwf Hy Htot. cbv zeta. split.
    + unfold accountsOf. apply list_elem_of_fmap. exists y. split; [reflexivity|exact Hy].
    + apply (run_logs gen w y Hwf Hy Htot).
Qed.

(** C1, as stated, fails in the arithmetic of the code.  For the single
    standard account staking 41 TON, net reward plus commission is not the
    gross reward.  And the sums need not even be close: a stake of 310
    digits, which the deposit route accepts, reads as [Infinity]; its gross
    reward and commission are [Infinity] and its net reward is [NaN]. *)
Lemma conservation_binary64_counterexample :
  (let accounts := accountsOf 1000 (Firestore.usersWithStakes
                     (Firestore.users (data Examples.daveWorld))) in
   accounts = [(41%float, false)] /\
   PrimFloat.eqb
     (total (List.map net accounts) + total (List.map commission accounts))%num
     (total (List.map gross accounts)) = false)
  /\ (let account := (userStake (Examples.account "hal" Examples.hugeStake None), false) in
      StakingApi.matchesAmount Examples.hugeStake = true
      /\ PrimFloat.ltb (JS.parseFloat Examples.hugeStake) 0.1 = false
      /\ fst account = infinity
      /\ gross account = infinity
      /\ commission account = infinity
      /\ PrimFloat.is_nan (net account) = true
      /\ JS.toFixed (net account) 9 = "NaN"%string).
Proof. vm_compute. repeat split; reflexivity. Qed.

Lemma conservation_exact_witness :
  (total (List.map (fun s => poolUserReward (lit 5 0) s (total [lit 1 0; lit 3 0]))
            [lit 1 0; lit 3 0])
   + poolCommission (lit 5 0))%num = lit (num := Qc) 5 0.
Proof.
  apply (proj1 (proj2 conservation_exact) (lit 5 0) [lit 1 0; lit 3 0]).
  intros H. apply (f_equal this) in H. vm_compute in H. discriminate.
Defined.




End DistributionClaims.

(** ** Referral registration, withdrawal and deposit (C8, C9, C10) *)

Section WalletClaims.
Import Firestore FirestoreFacts FirestoreLemmas FirestoreRuns.

Lemma tryCatch_rethrow {D A} (m : Async D A) (w : World D) :
  tryCatch m (fun error => throw error) w = m w.
Proof. unfold tryCatch, throw. destruct (m w) as [[a|e] w1]; reflexivity. Qed.

Lemma bind_currentTime {D B} (k : Z -> Async D B) (w : World D) :
  bind currentTime k w = k (clock w) w.
Proof. reflexivity. Qed.

(** The users after [addTransaction] and the returned hash are those
    after [addTransaction]. *)
Lemma users_after_record
  (addTransaction : WalletTransaction -> Async Db unit) (hash : string)
  (t : WalletTransaction) (w : World Db) :
  (forall t0 w0, users (data (snd (addTransaction t0 w0))) = users (data w0)) ->
  users (data (snd ((addTransaction t ;; ret hash) w))) = users (data w).
Proof.
  intros Hframe. unfold bind. specialize (Hframe t w).
  destruct (addTransaction t w) as [[a|e] w1]; exact Hframe.
Qed.

(** C10: a deposit through [processDirectDeposit] stores the deposited
    amount itself as the user's [stakedAmount], in place of the previous
    stake; so a user with a positive stake who deposits again ends with a
    stake smaller than the sum of the two. *)
Theorem deposit_replaces_stake :
  (forall (fault : nat -> Request -> bool) (adminAddress : string)
          (addTransaction : WalletTransaction -> Async Db unit)
          (w : World Db) (userId amount wallet : string) (u : UserData),
     (forall t0 w0, users (data (snd (addTransaction t0 w0))) = users (data w0)) ->
     users (data w) !! userId = Some u ->
     fault (requests w) (Update Users userId) = false ->
     let after := snd (processDirectDeposit fault adminAddress addTransaction
                         userId amount wallet w) in
     users (data after) !! userId = Some (applyPatch u (stakePatch amount) (clock w))
     /\ (stakedAmount <$> users (data after) !! userId) = Some amount)
  /\ (let after := snd (processDirectDeposit reliable "admin" missingAddTransaction
                         "ivy" "3" "wallet" Examples.ivyWorld) in
      (stakedAmount <$> users (data Examples.ivyWorld) !! "ivy") = Some "41"%string
      /\ (stakedAmount <$> users (data after) !! "ivy") = Some "3"%string
      /\ PrimFloat.ltb (JS.parseFloat "3") (JS.parseFloat "41" + JS.parseFloat "3") = true).
Proof.
  split.
  - intros fault adminAddress addTransaction w userId amount wallet u Hframe Hk HU.
    cbv zeta. unfold processDirectDeposit. rewrite tryCatch_rethrow.
    assert (updateUserBalance fault userId (stakePatch amount) w
            = (Returned tt, putUser userId (applyPatch u (stakePatch amount) (clock w))
                              (tick w))) as EU.
    { rewrite updateUserBalance_eq, HU, Hk. reflexivity. }
    unfold stakePatch in EU. rewrite (bind_returned _ _ _ _ _ EU).
    rewrite bind_currentTime.
    rewrite (users_after_record addTransaction _ _ _ Hframe).
    cbn [putUser data users withUsers]. rewrite lookup_insert_eq.
    split; reflexivity.
  - vm_compute. repeat split; reflexivity.
Qed.

Lemma deposit_replaces_stake_witness :
  (stakedAmount <$>
     users (data (snd (processDirectDeposit reliable "admin" missingAddTransaction
                         "ivy" "3" "wallet" Examples.ivyWorld))) !! "ivy")
  = Some "3"%string.
Proof.
  refine (proj2 (proj1 deposit_replaces_stake reliable "admin"%string
                   missingAddTransaction Examples.ivyWorld "ivy"%string "3"%string
                   "wallet"%string Examples.ivy _ _ _)).
  - intros t0 w0. reflexivity.
  - reflexivity.
  - reflexivity.
Defined.

(** C9 (as the code has it): a withdrawal that exceeds staked amount
    plus rewards throws the insufficient-balance error and leaves the user
    documents as they were; any other withdrawal is taken from the rewards
    first: up to the rewards balance nothing is deducted from the stake,
    which is written back as the number read, with nine fraction digits;
    beyond it the rewards become zero and only the remainder is taken from
    the stake. *)
Theorem withdrawal_rewards_first (fault : nat -> Request -> bool)
  (gen : string -> Z -> string) (adminAddress : string)
  (addTransaction : WalletTransaction -> Async Db unit)
  (w : World Db) (userId amount wallet : string) (u : UserData) :
  (forall t0 w0, users (data (snd (addTransaction t0 w0))) = users (data w0)) ->
  users (data w) !! userId = Some u ->
  fault (requests w) (Get Users userId) = false ->
  fault (S (requests w)) (Update Users userId) = false ->
  let staked := numOr0 (JS.parseFloat (stakedAmount u)) in
  let rewards := numOr0 (JS.parseFloat (rewardsBalance u)) in
  let requested := JS.parseFloat amount in
  let r := processDirectWithdrawal fault gen adminAddress addTransaction
             userId amount wallet w in
  (PrimFloat.ltb (staked + rewards) requested = true ->
     fst r = Thrown (ErrorMsg ("Insufficient balance. Available: " ++
                               JS.numberToString (staked + rewards) ++
                               " TON, Requested: " ++
                               JS.numberToString requested ++ " TON"))
     /\ users (data (snd r)) = users (data w))
  /\ (PrimFloat.ltb (staked + rewards) requested = false ->
      PrimFloat.leb requested rewards = true ->
      users (data (snd r)) !! userId
      = Some (applyPatch u (balancesPatch (JS.toFixed staked 9)
                                          (JS.toFixed (rewards - requested) 9))
                         (clock w)))
  /\ (PrimFloat.ltb (staked + rewards) requested = false ->
      PrimFloat.leb requested rewards = false ->
      users (data (snd r)) !! userId
      = Some (applyPatch u (balancesPatch
                              (JS.toFixed (staked - (requested - rewards)) 9)
                              (JS.toFixed 0 9))
                         (clock w))).
Proof.
  intros Hframe Hk HG HU. cbv zeta.
  unfold processDirectWithdrawal. rewrite tryCatch_rethrow.
  assert (getUserData fault gen userId w = (Returned u, tick w)) as EG.
  { rewrite getUserData_eq, HG, Hk. reflexivity. }
  rewrite (bind_returned _ _ _ _ _ EG).
  set (staked := numOr0 (JS.parseFloat (stakedAmount u))).
  set (rewards := numOr0 (JS.parseFloat (rewardsBalance u))).
  set (requested := JS.parseFloat amount).
  assert (forall p, updateUserBalance fault userId p (tick w)
                    = (Returned tt, putUser userId (applyPatch u p (clock w))
                                      (tick (tick w)))) as EU.
  { intros p. rewrite updateUserBalance_eq. cbn [tick requests data clock].
    rewrite HU, Hk. reflexivity. }
  split; [|split].
  - intros Hlt. rewrite Hlt. split; reflexivity.
  - intros Hlt Hle. rewrite Hlt, Hle. cbv beta iota.
    rewrite (bind_returned _ _ _ _ _ (EU _)).
    rewrite bind_currentTime.
    rewrite (users_after_record addTransaction _ _ _ Hframe).
    cbn [putUser data users withUsers]. apply lookup_insert_eq.
  - intros Hlt Hle. rewrite Hlt, Hle. cbv beta iota zeta.
    rewrite (bind_returned _ _ _ _ _ (EU _)).
    rewrite bind_currentTime.
    rewrite (users_after_record addTransaction _ _ _ Hframe).
    cbn [putUser data users withUsers]. apply lookup_insert_eq.
Qed.

Lemma withdrawal_rewards_first_witness :
  let r := processDirectWithdrawal reliable Examples.gen "admin" missingAddTransaction
             "ivy" "1" "wallet" Examples.ivyWorld in
  (stakedAmount <$> users (data (snd r)) !! "ivy") = Some "41.000000000"%string
  /\ (rewardsBalance <$> users (data (snd r)) !! "ivy") = Some "0.500000000"%string.
Proof.
  cbv zeta.
  destruct (withdrawal_rewards_first reliable Examples.gen "admin"%string
              missingAddTransaction Examples.ivyWorld "ivy"%string "1"%string
              "wallet"%string Examples.ivy
              (fun t0 w0 => eq_refl) eq_refl eq_refl eq_refl) as (_ & H & _).
  rewrite H; [| vm_compute; reflexivity | vm_compute; reflexivity].
  vm_compute. split; reflexivity.
Defined.

(** C9, as stated, fails for a stake deposited with more than nine
    fraction digits: a withdrawal of 0.5 TON, covered by the rewards of
    1 TON, rewrites the stake 0.1234567891 as 0.123456789. *)
Lemma stake_rewritten_counterexample :
  let r := processDirectWithdrawal reliable Examples.gen "admin" missingAddTransaction
             "jo" "0.5" "wallet" Examples.joWorld in
  PrimFloat.leb (JS.parseFloat "0.5") (JS.parseFloat (rewardsBalance Examples.jo)) = true
  /\ (stakedAmount <$> users (data Examples.joWorld) !! "jo") = Some "0.1234567891"%string
  /\ (stakedAmount <$> users (data (snd r)) !! "jo") = Some "0.123456789"%string
  /\ PrimFloat.ltb (JS.parseFloat "0.123456789") (JS.parseFloat "0.1234567891") = true.
Proof. vm_compute. repeat split; reflexivity. Qed.

End WalletClaims.

(** ** The operations of [FirebaseStorage] and the scheduler *)

Module PoolLemmas.
Import Pool PoolFacts.

#[export] Instance KeepsConfig_refl : Reflexive KeepsConfig.
Proof. intros w. reflexivity. Qed.

#[export] Instance KeepsConfig_trans : Transitive KeepsConfig.
Proof. intros w1 w2 w3 H12 H23. unfold KeepsConfig in *. congruence. Qed.

#[export] Instance RecordsCommission_refl text : Reflexive (RecordsCommission text).
Proof. intros w. left. reflexivity. Qed.

#[export] Instance RecordsCommission_trans text : Transitive (RecordsCommission text).
Proof.
  intros w1 w2 w3 H12 [H23|(c & Hc & Ht)].
  - destruct H12 as [H12|(c & Hc & Ht)].
    + left. congruence.
    + right. exists c. split; congruence.
  - right. exists c. auto.
Qed.

Lemma keeps_records text {A} (m : Async Db A) :
  Preserves KeepsConfig m -> Preserves (RecordsCommission text) m.
Proof. intros H w. left. apply H. Qed.

Lemma preserves_promiseAll (R : World Db -> World Db -> Prop)
  `{!Reflexive R} `{!Transitive R} (callbacks : list (Async Db unit)) :
  Forall (Preserves R) callbacks -> Preserves R (promiseAll callbacks).
Proof.
  induction 1 as [|m l Hm _ IH]; intros w; cbn [promiseAll].
  - reflexivity.
  - specialize (Hm w). destruct (m w) as [[a|e] w1]; cbn [snd] in *.
    + etransitivity; [exact Hm | apply IH].
    + etransitivity; [exact Hm | apply IH].
Qed.

(** Operations that leave the pool configuration alone, rule by rule. *)
Ltac keeps :=
  repeat first
    [ rule preserves_ret
    | rule preserves_throw
    | rule preserves_getWorld
    | rule preserves_currentTime
    | rule preserves_request; [intros ?; reflexivity]
    | rule preserves_modify; [intros ?; reflexivity]
    | rule preserves_bind
    | rule preserves_tryCatch
    | lazymatch goal with |- forall _, _ => intro end
    | lazymatch goal with
      | |- Preserves _ (match ?x with _ => _ end) => destruct x
      | |- Preserves _ (if ?x then _ else _) => destruct x
      | |- Preserves _ (let '(_, _) := ?x in _) => destruct x
      end ].

Section Keeps.
Variable fault : nat -> Request -> bool.

Lemma getUserByTelegramId_keeps tid : Preserves KeepsConfig (getUserByTelegramId fault tid).
Proof. unfold getUserByTelegramId. keeps. Qed.

Lemma updateDoc_keeps name p : Preserves KeepsConfig (updateDoc fault name p).
Proof. unfold updateDoc. keeps. Qed.

Lemma updateUser_keeps tid p : Preserves KeepsConfig (updateUser fault tid p).
Proof.
  unfold updateUser. keeps; try apply getUserByTelegramId_keeps; apply updateDoc_keeps.
Qed.

Lemma createReferral_keeps r : Preserves KeepsConfig (createReferral fault r).
Proof. unfold createReferral. keeps. Qed.

Lemma createTransaction_keeps t : Preserves KeepsConfig (createTransaction fault t).
Proof. unfold createTransaction. keeps. Qed.

Lemma createAnalytics_keeps a : Preserves KeepsConfig (createAnalytics fault a).
Proof. unfold createAnalytics. keeps. Qed.

Lemma getReferralsByReferrer_keeps who :
  Preserves KeepsConfig (getReferralsByReferrer fault who).
Proof. unfold getReferralsByReferrer. keeps. Qed.

Lemma getTotalPoolSize_keeps : Preserves KeepsConfig (getTotalPoolSize fault).
Proof. unfold getTotalPoolSize. keeps. Qed.

Lemma getDocs_keeps : Preserves KeepsConfig (getDocs fault).
Proof. unfold getDocs. keeps. Qed.

Lemma send_keeps n : Preserves KeepsConfig (send n).
Proof. unfold send. keeps. Qed.

Lemma payReferrer_keeps user referrerId reward :
  Preserves KeepsConfig (payReferrer fault user referrerId reward).
Proof.
  unfold payReferrer.
  rule preserves_tryCatch; [|intros ?; rule preserves_ret].
  rule preserves_bind; [apply getUserByTelegramId_keeps | intros found].
  destruct found as [[name referrerUser]|]; [|rule preserves_ret].
  rule preserves_bind; [apply updateUser_keeps | intros _].
  rule preserves_bind; [apply createReferral_keeps | intros _].
  rule preserves_bind; [apply createTransaction_keeps | intros _].
  rule preserves_bind; [apply getReferralsByReferrer_keeps | intros earnings].
  apply send_keeps.
Qed.

Lemma rewardCallback_keeps gross totalPoolStaked u :
  Preserves KeepsConfig (rewardCallback fault gross totalPoolStaked u).
Proof.
  unfold rewardCallback. destruct u as [[name user] stakedAmount].
  rule preserves_bind; [apply updateDoc_keeps | intros _].
  rule preserves_bind; [rule preserves_currentTime | intros now].
  rule preserves_bind; [apply createAnalytics_keeps | intros _].
  rule preserves_bind; [apply createTransaction_keeps | intros _].
  rule preserves_bind; [apply send_keeps | intros _].
  destruct (referredBy user); [|rule preserves_ret].
  destruct (_ && _); [apply payReferrer_keeps | rule preserves_ret].
Qed.

(** The commission a run records is the one computed once from the gross
    figure, whatever the accounts and whatever the store rejects. *)
Lemma calculateAndDistributeRewards_records (fetched : Outcome string) (admin : string) :
  Preserves
    (RecordsCommission
       (match fetched with
        | Returned text => JS.toFixed (poolCommission (JS.parseFloat text)) 9
        | Thrown _ => EmptyString
        end))
    (calculateAndDistributeRewards fault fetched admin).
Proof.
  unfold calculateAndDistributeRewards.
  rule preserves_tryCatch.
  - destruct fetched as [text|e]; [|intros w; left; reflexivity].
    intros w. unfold bind at 1. revert w.
    change (Preserves (RecordsCommission (JS.toFixed (poolCommission (JS.parseFloat text)) 9))
      (if PrimFloat.leb (JS.parseFloat text) 0 then ret tt
       else
         usersSnapshot <- getDocs fault ;;
         (let stakingUsers := stakingUsersOf usersSnapshot in
          let totalPoolStaked := totalPoolStakedOf stakingUsers in
          if PrimFloat.eqb totalPoolStaked 0 then ret tt
          else
            promiseAll (List.map (rewardCallback fault (JS.parseFloat text) totalPoolStaked)
                          stakingUsers) ;;
            poolSize <- getTotalPoolSize fault ;;
            now <- currentTime ;;
            request fault (SetDoc Pool "config") ;;
            modify (withPoolConfig
              (mkPoolConfig (JS.toFixed totalPoolStaked 9)
                 (JS.toFixed (JS.parseFloat poolSize) 9) now admin
                 (JS.toFixed (JS.parseFloat text) 9)
                 (JS.toFixed (poolCommission (JS.parseFloat text)) 9)
                 ADMIN_COMMISSION_RATE REFERRAL_BONUS_RATE true true true true)) ;;
            createTransaction fault
              (mkInsertTx "admin" reward
                 (JS.toFixed (poolCommission (JS.parseFloat text)) 9)
                 "Admin commission (12%) from daily rewards" (Some completed))))).
    destruct (PrimFloat.leb _ 0); [rule preserves_ret|].
    rule preserves_bind; [apply keeps_records, getDocs_keeps | intros snapshot].
    cbv zeta. destruct (PrimFloat.eqb _ 0); [rule preserves_ret|].
    rule preserves_bind; [|intros _].
    { apply keeps_records. rule preserves_promiseAll.
      apply Forall_forall. intros m Hm. apply list_elem_of_In, List.in_map_iff in Hm as (u & <- & _).
      apply rewardCallback_keeps. }
    rule preserves_bind; [apply keeps_records, getTotalPoolSize_keeps | intros poolSize].
    rule preserves_bind; [rule preserves_currentTime | intros now].
    rule preserves_bind; [rule preserves_request; intros w; left; reflexivity | intros _].
    rule preserves_bind; [|intros _; apply keeps_records, createTransaction_keeps].
    rule preserves_modify. intros w. right. eexists. split; reflexivity.
  - intros e. rule preserves_tryCatch; [|intros ?; rule preserves_ret].
    apply keeps_records, createTransaction_keeps.
Qed.

End Keeps.
End PoolLemmas.

(** C3 (as the code has it): the scheduler computes the commission once,
    on the gross figure the validators report, and that is the commission
    a run records, whatever the accounts; [distributeRewards] computes a
    commission for each account and deducts it from that account's
    reward.  With exact arithmetic on fractions the commissions of the
    accounts add up to the commission of their total gross reward. *)
Theorem commission_once :
  (forall accounts : list (Qc * bool),
     total (List.map commission accounts)
     = adminCommission (total (List.map gross accounts)))
  /\ (forall (fault : nat -> Request -> bool) (text admin : string) (w : World Pool.Db),
        let w' := snd (Pool.calculateAndDistributeRewards fault (Returned text) admin w) in
        Pool.poolConfig (data w') = Pool.poolConfig (data w)
        \/ exists c, Pool.poolConfig (data w') = Some c
                     /\ Pool.lastAdminCommission c
                        = JS.toFixed (poolCommission (JS.parseFloat text)) 9)
  /\ (forall (user : Firestore.UserData) (now : Z),
        let reward := userReward (Firestore.userStake user)
                                 (Firestore.premiumActive user now) in
        Firestore.netRewardOf user now
        = PrimFloat.sub reward (adminCommission reward)).
Proof.
  split; [|split].
  - intros accounts.
    replace (List.map commission accounts)
      with (List.map adminCommission (List.map gross accounts)).
    + apply commission_of_total.
    + rewrite List.map_map. reflexivity.
  - intros fault text admin w.
    apply (PoolLemmas.calculateAndDistributeRewards_records fault (Returned text) admin w).
  - intros user now. reflexivity.
Qed.

(** ** The referral bonus (C5) and the referral registration (C8) *)

Module PoolRuns.
Import Pool PoolFacts.

(** A document a query finds is a stored document. *)
Lemma found_is_stored (m : gmap string User) (f : string * User -> bool)
  (name : string) (u : User) :
  List.find f (userDocs m) = Some (name, u) -> m !! name = Some u.
Proof.
  intros H. apply List.find_some in H as [Hin _].
  unfold userDocs in Hin. apply list_elem_of_In in Hin.
  rewrite merge_sort_Permutation in Hin.
  apply elem_of_map_to_list in Hin. exact Hin.
Qed.

Section Reliable.

Lemma getUserByTelegramId_reliable (tid : string) (w : World Db) :
  getUserByTelegramId reliable tid w
  = (Returned (List.find (fun d => String.eqb (telegramId (snd d)) tid)
                 (userDocs (users (data w)))), tick w).
Proof. reflexivity. Qed.

Lemma updateUser_reliable (tid name : string) (u : User) (p : UserPatch) (w : World Db) :
  List.find (fun d => String.eqb (telegramId (snd d)) tid) (userDocs (users (data w)))
  = Some (name, u) ->
  updateUser reliable tid p w
  = (Returned (Some (applyPatch u p)), putUser name (applyPatch u p) (tick (tick w))).
Proof.
  intros Hf. pose proof (found_is_stored _ _ _ _ Hf) as Hk.
  unfold updateUser, tryCatch, bind.
  rewrite getUserByTelegramId_reliable, Hf.
  unfold updateDoc, bind, request, getWorld, modify, reliable.
  cbn [data tick requests clock]. rewrite Hk. reflexivity.
Qed.

(** The referral part of the scheduler's callback on a store that accepts
    everything, for a referrer that exists. *)
Lemma payReferrer_reliable (user : User) (referrerId name : string) (b : User)
  (reward : float) (w : World Db) :
  List.find (fun d => String.eqb (telegramId (snd d)) referrerId)
            (userDocs (users (data w))) = Some (name, b) ->
  let bonusAmount := poolReferralBonus reward in
  let w' := snd (payReferrer reliable user referrerId reward w) in
  fst (payReferrer reliable user referrerId reward w) = Returned tt
  /\ users (data w')
     = <[name := applyPatch b
                   (balancePatch
                      (JS.toFixed (JS.parseFloat (strOr (appBalance b) "0") + bonusAmount)%float 9))]>
         (users (data w))
  /\ referrals (data w')
     = referrals (data w) ++
       [mkReferral (mkInsertReferral referrerId (telegramId user) (JS.toFixed reward 9)
                      (JS.toFixed bonusAmount 9)) (clock w)]
  /\ transactions (data w')
     = transactions (data w) ++
       [mkTx (mkInsertTx referrerId referral_bonus (JS.toFixed bonusAmount 9)
                ("Daily referral bonus from " ++ username user) (Some completed))
             completed (clock w)].
Proof.
  intros Hf. cbv zeta.
  assert (exists W, payReferrer reliable user referrerId reward w = (Returned tt, W)
            /\ W = snd (payReferrer reliable user referrerId reward w)) as (W & E & EW).
  { eexists. split; [|reflexivity]. apply total_unit.
    unfold payReferrer. apply tryCatch_total. intros e w0. exists tt. reflexivity. }
  rewrite <- EW. split; [rewrite E; reflexivity|].
  unfold payReferrer in EW. rewrite tryCatch_swallow_world in EW.
  rewrite (bind_returned _ _ _ _ _ (getUserByTelegramId_reliable referrerId w)) in EW.
  rewrite Hf in EW.
  rewrite (bind_returned _ _ _ _ _ (updateUser_reliable referrerId name b _ (tick w) Hf))
    in EW.
  cbv [bind createReferral createTransaction getReferralsByReferrer send tryCatch
       request reliable currentTime modify getWorld ret] in EW.
  cbn [snd fst data clock requests putUser tick withUsers withReferrals withTransactions
       withOutbox users referrals transactions] in EW.
  subst W. cbn [data users referrals transactions]. repeat split.
Qed.

End Reliable.
End PoolRuns.

Section ReferralClaims.
Import Firestore FirestoreFacts FirestoreLemmas FirestoreRuns.

(** [processReferralBonus] on a store that accepts everything, for a
    referrer that exists: one update of the referrer's document and one
    logged transaction. *)
Lemma processReferralBonus_reliable (gen : string -> Z -> string)
  (referrerId refereeId : string) (refereeReward : float) (b : UserData)
  (w : World Db) :
  users (data w) !! referrerId = Some b ->
  let bonusAmount := referralBonus refereeReward in
  let r := processReferralBonus reliable gen referrerId refereeReward refereeId w in
  fst r = Returned tt
  /\ users (data (snd r))
     = <[referrerId := applyPatch b (creditPatch b bonusAmount) (clock w)]> (users (data w))
  /\ transactions (data (snd r))
     = transactions (data w) ++
       [Logged (mkTx referrerId referral (JS.toFixed bonusAmount 9) (clock w) completed None
                  ("Referral bonus from user " ++ refereeId ++ " (10% of " ++
                   JS.toFixed refereeReward 9 ++ " TON)")%string)]
  /\ pool (data (snd r)) = pool (data w).
Proof.
  intros Hk. cbv zeta.
  assert (getUserData reliable gen referrerId w = (Returned b, tick w)) as EG.
  { rewrite getUserData_eq. cbn [reliable]. rewrite Hk. reflexivity. }
  assert (updateUserBalance reliable referrerId
            (creditPatch b (referralBonus refereeReward)) (tick w)
          = (Returned tt,
             putUser referrerId
               (applyPatch b (creditPatch b (referralBonus refereeReward)) (clock w))
               (tick (tick w)))) as EU.
  { rewrite updateUserBalance_eq. cbn [reliable tick data users clock].
    rewrite Hk. reflexivity. }
  unfold processReferralBonus.
  erewrite tryCatch_returned.
  2:{ rewrite (bind_returned _ _ _ _ _ EG), (bind_returned _ _ _ _ _ EU).
      rewrite bind_currentTime.
      erewrite bind_returned; [reflexivity|].
      rewrite logTransaction_eq. cbn [reliable]. reflexivity. }
  cbn [fst snd addDoc putUser tick data users transactions pool withUsers
       withTransactions clock requests userId type amount status txHash description].
  repeat split.
Qed.

(** C5 (as the code has it): a net reward of 10 TON brings the referrer a
    bonus of exactly 1 TON, credited in full, and touches no other user.
    In [distributeRewards] the referrer's [rewardsBalance] and
    [totalEarnings] are each rewritten with 1 TON more and one transaction
    of type [referral] is logged; that path keeps no Referral records.  In
    the scheduler the referrer's [appBalance] is rewritten with 1 TON more,
    [totalEarned] stays as it is, and one Referral record and one
    [referral_bonus] transaction are added. *)
Theorem referral_bonus_credit (gen : string -> Z -> string)
  (w : World Db) (referrerId refereeId : string) (b : UserData)
  (pw : World Pool.Db) (referee : Pool.User) (name : string) (pb : Pool.User) :
  users (data w) !! referrerId = Some b ->
  List.find (fun d => String.eqb (Pool.telegramId (snd d)) referrerId)
            (Pool.userDocs (Pool.users (data pw))) = Some (name, pb) ->
  let r := processReferralBonus reliable gen referrerId 10 refereeId w in
  let pr := Pool.payReferrer reliable referee referrerId 10 pw in
  (referralBonus 10%float = 1%float
   /\ fst r = Returned tt
   /\ users (data (snd r))
      = <[referrerId :=
            applyPatch b
              (mkPatch None None
                 (Some (JS.toFixed (JS.parseFloat (strOr (rewardsBalance b) "0") + 1) 9))
                 None
                 (Some (JS.toFixed (JS.parseFloat (strOr (totalEarnings b) "0") + 1) 9))
                 None None None)
              (clock w)]> (users (data w))
   /\ transactions (data (snd r))
      = transactions (data w) ++
        [Logged (mkTx referrerId referral "1.000000000" (clock w) completed None
                   ("Referral bonus from user " ++ refereeId ++
                    " (10% of 10.000000000 TON)")%string)])
  /\ (poolReferralBonus 10%float = 1%float
      /\ fst pr = Returned tt
      /\ Pool.users (data (snd pr))
         = <[name :=
               Pool.applyPatch pb
                 (Pool.mkPatch None
                    (Some (JS.toFixed (JS.parseFloat (strOr (Pool.appBalance pb) "0") + 1) 9))
                    None None None)]> (Pool.users (data pw))
      /\ Pool.totalEarned
           (Pool.applyPatch pb
              (Pool.mkPatch None
                 (Some (JS.toFixed (JS.parseFloat (strOr (Pool.appBalance pb) "0") + 1) 9))
                 None None None))
         = Pool.totalEarned pb
      /\ Pool.referrals (data (snd pr))
         = Pool.referrals (data pw) ++
           [Pool.mkReferral
              (Pool.mkInsertReferral referrerId (Pool.telegramId referee)
                 "10.000000000" "1.000000000") (clock pw)]
      /\ Pool.transactions (data (snd pr))
         = Pool.transactions (data pw) ++
           [Pool.mkTx
              (Pool.mkInsertTx referrerId Pool.referral_bonus "1.000000000"
                 ("Daily referral bonus from " ++ Pool.username referee)
                 (Some Pool.completed))
              Pool.completed (clock pw)]).
Proof.
  intros Hk Hf. cbv zeta.
  assert (referralBonus 10%float = 1%float) as E1 by (vm_compute; reflexivity).
  assert (poolReferralBonus 10%float = 1%float) as E2 by (vm_compute; reflexivity).
  assert (JS.toFixed 1 9 = "1.000000000"%string) as T1 by (vm_compute; reflexivity).
  assert (JS.toFixed 10 9 = "10.000000000"%string) as T10 by (vm_compute; reflexivity).
  split.
  - destruct (processReferralBonus_reliable gen referrerId refereeId 10 b w Hk)
      as (R1 & R2 & R3 & _).
    rewrite E1, ?T1, ?T10 in *.
    repeat split; assumption.
  - destruct (PoolRuns.payReferrer_reliable referee referrerId name pb 10 pw Hf)
      as (R1 & R2 & R3 & R4).
    rewrite E2, ?T1, ?T10 in *.
    repeat split; assumption.
Qed.

(** C5, as stated, fails on both paths.  In the scheduler alice, referred
    by bob, is rewarded exactly 10 TON: bob's [appBalance] grows by 1 TON
    and his [totalEarned] stays at 0.  In [distributeRewards] the bonus
    for a reward of 10 TON leaves a single new document, a transaction of
    type [referral]: there is no Referral record. *)
Lemma referral_bonus_counterexample :
  let pr := Pool.calculateAndDistributeRewards reliable (Returned PoolFacts.reported)
              "admin" PoolFacts.referredWorld in
  let r := processReferralBonus reliable Examples.gen "bob" 10 "alice"
             Examples.referralWorld in
  (List.map (fun t => (Pool.txTelegramId (Pool.inserted t), Pool.txType (Pool.inserted t),
                       Pool.txAmount (Pool.inserted t)))
            (Pool.transactions (data (snd pr)))
   = [("alice", Pool.reward, "10.000000000"); ("bob", Pool.referral_bonus, "1.000000000");
      ("admin", Pool.reward, "1.363636364")]%string
   /\ (Pool.appBalance <$> Pool.users (data (snd pr)) !! "uuid-b") = Some "1.000000000"%string
   /\ (Pool.totalEarned <$> Pool.users (data (snd pr)) !! "uuid-b") = Some "0"%string)
  /\ (List.map (fun d => match d with
                         | Logged t => Some (userId t, type t, amount t)
                         | PremiumPayment _ _ _ _ _ => None
                         end) (transactions (data (snd r)))
      = [Some ("bob", referral, "1.000000000")]%string
      /\ List.map fst (map_to_list (users (data (snd r))))
         = List.map fst (map_to_list (users (data Examples.referralWorld)))
      /\ pool (data (snd r)) = pool (data Examples.referralWorld)).
Proof.
  cbv zeta. split.
  - vm_compute. repeat split; reflexivity.
  - vm_compute. repeat split; reflexivity.
Qed.

Lemma referral_bonus_credit_witness :
  (rewardsBalance <$>
     users (data (snd (processReferralBonus reliable Examples.gen "bob" 10 "alice"
                         Examples.referralWorld))) !! "bob")
  = Some "6.000000000"%string
  /\ (Pool.appBalance <$>
        Pool.users (data (snd (Pool.payReferrer reliable
                                 (PoolFacts.member "alice" "1000" (Some "bob"%string))
                                 "bob" 10 PoolFacts.referredWorld))) !! "uuid-b")
     = Some "1.000000000"%string.
Proof.
  destruct (referral_bonus_credit Examples.gen Examples.referralWorld "bob"%string
              "alice"%string Examples.bob PoolFacts.referredWorld
              (PoolFacts.member "alice" "1000" (Some "bob"%string)) "uuid-b"%string
              (PoolFacts.member "bob" "0" None))
    as [(_ & _ & H1 & _) (_ & _ & H2 & _)].
  - reflexivity.
  - vm_compute. reflexivity.
  - rewrite H1, H2. split.
    + rewrite lookup_insert_eq. vm_compute. reflexivity.
    + rewrite lookup_insert_eq. vm_compute. reflexivity.
Defined.

(** [processReferral], one request at a time. *)
Lemma processReferral_eq (fault : nat -> Request -> bool) (user code : string)
  (w : World Db) :
  processReferral fault user code w =
  if fault (requests w) (Query Users) then (Returned false, tick w)
  else match findByReferralCode (users (data w)) code with
       | None => (Returned false, tick w)
       | Some referrerId =>
           if String.eqb referrerId user then (Returned false, tick w)
           else if fault (S (requests w)) (Update Users user)
                then (Returned false, tick (tick w))
                else match users (data w) !! user with
                     | None => (Returned false, tick (tick w))
                     | Some u =>
                         (Returned true,
                          putUser user
                            (applyPatch u
                               (mkPatch None None None (Some referrerId) None None None None)
                               (clock w))
                            (tick (tick w)))
                     end
       end.
Proof.
  unfold processReferral, tryCatch. unfold bind at 1, request.
  destruct (fault (requests w) (Query Users)); [reflexivity|].
  unfold bind at 1, getWorld. cbn [data].
  destruct (findByReferralCode (users (data w)) code) as [referrerId|]; [|reflexivity].
  destruct (String.eqb referrerId user); [reflexivity|].
  unfold bind. rewrite updateUserBalance_eq. cbn [requests data users clock].
  destruct (fault (S (requests w)) (Update Users user)); [reflexivity|].
  destruct (users (data w) !! user); reflexivity.
Qed.

(** The referral route, for a code that resolves to the caller. *)
Lemma registerReferral_self (fault : nat -> Request -> bool) (tid code name : string)
  (r : Pool.User) (pw : World Pool.Db) :
  List.find (fun d => String.eqb (Pool.referralCode (snd d)) code)
            (Pool.userDocs (Pool.users (data pw))) = Some (name, r) ->
  Pool.telegramId r = tid ->
  let p := Pool.registerReferral fault tid code pw in
  (fst p = Returned 400%nat \/ fst p = Returned 404%nat) /\ data (snd p) = data pw.
Proof.
  intros Hf Ht. cbv zeta.
  unfold Pool.registerReferral, Pool.getUserByTelegramId, Pool.getUserByReferralCode,
    tryCatch, bind, request, getWorld, ret.
  destruct (fault (requests pw) (Query Users)); cbn [data requests fst snd];
    destruct (fault (S (requests pw)) (Query Users)); cbn [data requests fst snd];
    try rewrite Hf;
    try destruct (List.find (fun d => String.eqb (Pool.telegramId (snd d)) tid) _)
      as [[uname u]|];
    cbn [data requests fst snd]; auto.
  destruct (truthy (Pool.referredBy u)); cbn [fst snd data]; auto.
  rewrite Ht, String.eqb_refl. cbn [fst snd data]. auto.
Qed.

(** C8: a referral code that resolves to the caller's own account is
    rejected: [processReferral] returns [false] and the referral route
    answers 400 (or 404 when a lookup fails), and neither writes anything;
    so [processReferral] never makes a user their own referrer. *)
Theorem self_referral_rejected (fault : nat -> Request -> bool) (w : World Db)
  (user code : string) (pw : World Pool.Db) (tid pcode name : string) (r : Pool.User) :
  findByReferralCode (users (data w)) code = Some user ->
  List.find (fun d => String.eqb (Pool.referralCode (snd d)) pcode)
            (Pool.userDocs (Pool.users (data pw))) = Some (name, r) ->
  Pool.telegramId r = tid ->
  processReferral fault user code w = (Returned false, tick w)
  /\ (forall anyUser anyCode,
        NoSelfReferral (users (data w)) ->
        NoSelfReferral (users (data (snd (processReferral fault anyUser anyCode w)))))
  /\ (let p := Pool.registerReferral fault tid pcode pw in
      (fst p = Returned 400%nat \/ fst p = Returned 404%nat) /\ data (snd p) = data pw).
Proof.
  intros Hc Hf Ht. split; [|split].
  - rewrite processReferral_eq, Hc, String.eqb_refl.
    destruct (fault (requests w) (Query Users)); reflexivity.
  - intros anyUser anyCode Hinv. rewrite processReferral_eq.
    destruct (fault (requests w) (Query Users)); [exact Hinv|].
    destruct (findByReferralCode _ anyCode) as [referrerId|]; [|exact Hinv].
    destruct (String.eqb referrerId anyUser) eqn:Hself; [exact Hinv|].
    destruct (fault (S (requests w)) (Update Users anyUser)); [exact Hinv|].
    destruct (users (data w) !! anyUser) as [u|] eqn:Hu; [|exact Hinv].
    intros k v. cbn [snd putUser data users withUsers tick].
    destruct (decide (anyUser = k)) as [->|Hne].
    + rewrite lookup_insert_eq. intros [= <-]. cbn [referredBy applyPatch setReferredBy].
      intros [= ->]. rewrite String.eqb_refl in Hself. discriminate.
    + rewrite lookup_insert_ne by exact Hne. apply Hinv.
  - apply registerReferral_self with (name := name) (r := r); assumption.
Qed.

Lemma self_referral_rejected_witness :
  processReferral reliable "bob" "CODEbob" Examples.referralWorld
  = (Returned false, tick Examples.referralWorld)
  /\ fst (Pool.registerReferral reliable "bob" "CODEbob" PoolFacts.referredWorld)
     = Returned 400%nat.
Proof.
  destruct (self_referral_rejected reliable Examples.referralWorld "bob"%string
              "CODEbob"%string PoolFacts.referredWorld "bob"%string "CODEbob"%string
              "uuid-b"%string (PoolFacts.member "bob" "0" None))
    as (H1 & _ & _).
  - vm_compute. reflexivity.
  - vm_compute. reflexivity.
  - reflexivity.
  - split; [exact H1 | vm_compute; reflexivity].
Defined.

(** A referrer who stakes as well and is rewarded after the referred
    account: the bonus is logged, and the referrer's own credit, computed
    from the snapshot taken before the run, then replaces the balance that
    held it. *)
Lemma referrer_credit_overwritten :
  let r := distributeRewards reliable Examples.gen Examples.stakingReferrerWorld in
  List.map (fun d => match d with
                     | Logged t => Some (userId t, type t, amount t)
                     | PremiumPayment _ _ _ _ _ => None
                     end) (transactions (data (snd r)))
  = [Some ("alice", reward, "0.209753425"); Some ("bob", referral, "0.020975342");
     Some ("bob", reward, "0.419506849")]%string
  /\ (rewardsBalance <$> users (data (snd r)) !! "bob") = Some "0.419506849"%string.
Proof. vm_compute. split; reflexivity. Qed.

End ReferralClaims.

(** * Further properties of the ledger code

    ** [getUserData], [processReferral] and the reward run
    (server/firestoreManager.ts) *)

Module LedgerLemmas.
Import Firestore FirestoreFacts FirestoreLemmas LedgerFacts.

Section KeepsRules.
Context {X : Type} (f : UserData -> X).

#[export] Instance Keeps_refl : Reflexive (Keeps f).
Proof.
  intros w. split; [|split]; [| |reflexivity].
  - intros k u Hk. exists u. auto.
  - exists []. rewrite app_nil_r. reflexivity.
Qed.

#[export] Instance Keeps_trans : Transitive (Keeps f).
Proof.
  intros w1 w2 w3 (d1 & (a1 & t1) & c1) (d2 & (a2 & t2) & c2).
  split; [|split]; [| |congruence].
  - intros k u Hk. destruct (d1 k u Hk) as (u1 & H1 & F1).
    destruct (d2 k u1 H1) as (u2 & H2 & F2). exists u2. split; congruence.
  - exists (a1 ++ a2). rewrite t2, t1, app_assoc. reflexivity.
Qed.

Lemma Keeps_tick (w : World Db) : Keeps f w (tick w).
Proof.
  split; [|split]; [| |reflexivity].
  - intros k u Hk. exists u. auto.
  - exists []. rewrite app_nil_r. reflexivity.
Qed.

Lemma Keeps_addDoc (d : TransactionDoc) (w : World Db) : Keeps f w (addDoc d w).
Proof.
  split; [|split]; [| |reflexivity].
  - intros k u Hk. exists u. auto.
  - exists [d]. reflexivity.
Qed.

Lemma Keeps_patch (k : string) (u : UserData) (p : UserPatch) (now : Z) (w : World Db) :
  users (data w) !! k = Some u -> f (applyPatch u p now) = f u ->
  Keeps f w (putUser k (applyPatch u p now) w).
Proof.
  intros Hk Hf. split; [|split]; [| |reflexivity].
  - intros j v Hj. cbn. destruct (decide (k = j)) as [->|Hne].
    + rewrite lookup_insert_eq. exists (applyPatch u p now).
      assert (v = u) by congruence. subst v. auto.
    + rewrite lookup_insert_ne by exact Hne. exists v. auto.
  - exists []. cbn. rewrite app_nil_r. reflexivity.
Qed.

Lemma Keeps_create (k : string) (u : UserData) (w : World Db) :
  users (data w) !! k = None -> Keeps f w (putUser k u w).
Proof.
  intros Hk. split; [|split]; [| |reflexivity].
  - intros j v Hj. cbn. destruct (decide (k = j)) as [->|Hne]; [congruence|].
    rewrite lookup_insert_ne by exact Hne. exists v. auto.
  - exists []. cbn. rewrite app_nil_r. reflexivity.
Qed.

Variable fault : nat -> Request -> bool.
Variable gen : string -> Z -> string.

Lemma updateUserBalance_Keeps (k : string) (p : UserPatch) :
  (forall u now, f (applyPatch u p now) = f u) ->
  Preserves (Keeps f) (updateUserBalance fault k p).
Proof.
  intros Hp w. rewrite updateUserBalance_eq.
  destruct (fault (requests w) (Update Users k)); [apply Keeps_tick|].
  destruct (users (data w) !! k) as [u|] eqn:Hk; [|apply Keeps_tick].
  etransitivity; [apply Keeps_tick|]. apply Keeps_patch; auto.
Qed.

Lemma logTransaction_Keeps (t : TransactionData) :
  Preserves (Keeps f) (logTransaction fault t).
Proof.
  intros w. rewrite logTransaction_eq.
  destruct (fault (requests w) (Add Transactions)); [apply Keeps_tick|].
  etransitivity; [apply Keeps_tick|]. apply Keeps_addDoc.
Qed.

Lemma getUserData_Keeps (k : string) : Preserves (Keeps f) (getUserData fault gen k).
Proof.
  intros w. rewrite getUserData_eq.
  destruct (fault (requests w) (Get Users k)); [apply Keeps_tick|].
  destruct (users (data w) !! k) as [u|] eqn:Hk; [apply Keeps_tick|].
  destruct (fault (S (requests w)) (SetDoc Users k)).
  - etransitivity; apply Keeps_tick.
  - etransitivity; [apply Keeps_tick|]. etransitivity; [apply Keeps_tick|].
    apply Keeps_create; auto.
Qed.

Lemma updateUserPremiumStatus_Keeps (k : string) (premium : bool)
  (expiresAt : option Z) (rate : string) :
  (forall u now, f (applyPatch u (premiumPatch premium expiresAt rate) now) = f u) ->
  Preserves (Keeps f) (updateUserPremiumStatus fault k premium expiresAt rate).
Proof.
  intros Hp w. rewrite updateUserPremiumStatus_eq.
  destruct (fault (requests w) (Update Users k)); [apply Keeps_tick|].
  destruct (users (data w) !! k) as [u|] eqn:Hk; [|apply Keeps_tick].
  assert (Keeps f w (putUser k (applyPatch u (premiumPatch premium expiresAt rate) (clock w))
                       (tick w))) as H1.
  { etransitivity; [apply Keeps_tick|]. apply Keeps_patch; auto. }
  cbv zeta. destruct (fault (S (requests w)) (Add Transactions)).
  - etransitivity; [exact H1|]. apply Keeps_tick.
  - etransitivity; [exact H1|]. etransitivity; [apply Keeps_tick|]. apply Keeps_addDoc.
Qed.

Lemma updatePool_Keeps (p : PoolPatch) : Preserves (Keeps f) (updatePool fault p).
Proof.
  intros w. rewrite updatePool_eq.
  destruct (fault (requests w) (Update Pool "main")); [apply Keeps_tick|].
  destruct (pool (data w)); [|apply Keeps_tick].
  split; [|split]; [| |reflexivity].
  - intros k u Hk. exists u. auto.
  - exists []. cbn. rewrite app_nil_r. reflexivity.
Qed.

Lemma getAllUsersWithStakes_Keeps : Preserves (Keeps f) (getAllUsersWithStakes fault).
Proof.
  intros w. rewrite getAllUsersWithStakes_eq.
  destruct (fault (requests w) (Query Users)); apply Keeps_tick.
Qed.

End KeepsRules.

Section ProfileKept.
Variable fault : nat -> Request -> bool.
Variable gen : string -> Z -> string.

Lemma processReferralBonus_profile (referrerId : string) (refereeReward : float)
  (refereeId : string) :
  Preserves (Keeps profile) (processReferralBonus fault gen referrerId refereeReward refereeId).
Proof.
  unfold processReferralBonus.
  rule preserves_tryCatch; [|intros ?; rule preserves_ret].
  rule preserves_bind; [apply getUserData_Keeps | intros d].
  rule preserves_bind; [apply updateUserBalance_Keeps; reflexivity | intros _].
  rule preserves_bind; [rule preserves_currentTime | intros now].
  rule preserves_bind; [apply logTransaction_Keeps | intros ?; rule preserves_ret].
Qed.

Lemma distributeUserRewardWithPremium_profile (user : UserData) (totalStaked : float) :
  Preserves (Keeps profile) (distributeUserRewardWithPremium fault gen user totalStaked).
Proof.
  unfold distributeUserRewardWithPremium.
  rule preserves_tryCatch; [|intros ?; rule preserves_ret].
  rule preserves_bind; [rule preserves_currentTime | intros now].
  rule preserves_bind; [|intros _].
  { destruct (premiumLapsed user now); [|rule preserves_ret].
    apply updateUserPremiumStatus_Keeps. reflexivity. }
  rule preserves_bind; [apply updateUserBalance_Keeps; reflexivity | intros _].
  rule preserves_bind; [apply logTransaction_Keeps | intros _].
  destruct (referredBy user); [|rule preserves_ret].
  destruct (truthy _); [|rule preserves_ret].
  apply processReferralBonus_profile.
Qed.

Lemma distributeRewards_profile : Preserves (Keeps profile) (distributeRewards fault gen).
Proof.
  unfold distributeRewards.
  rule preserves_tryCatch; [|intros ?; rule preserves_throw].
  rule preserves_bind; [apply getAllUsersWithStakes_Keeps | intros stakers].
  destruct (length stakers =? 0)%nat; [rule preserves_ret|].
  destruct (PrimFloat.eqb _ 0); [rule preserves_ret|].
  rule preserves_bind; [|intros _].
  { rule preserves_forEach. intros user. apply distributeUserRewardWithPremium_profile. }
  rule preserves_bind; [rule preserves_currentTime | intros now].
  apply updatePool_Keeps.
Qed.

End ProfileKept.

(** What the stake query selects: the stored documents whose
    [stakedAmount], as a string, is greater than ["0"]. *)
Lemma usersWithStakes_iff (m : gmap string UserData) (u : UserData) :
  u ∈ usersWithStakes m
  <-> exists k, m !! k = Some u /\ String.ltb "0" (stakedAmount u) = true.
Proof.
  unfold usersWithStakes. rewrite list_elem_of_fmap. split.
  - intros ([k v] & -> & Hkv). rewrite merge_sort_Permutation in Hkv.
    apply list_elem_of_In, List.filter_In in Hkv as [Hin Hs].
    apply list_elem_of_In, elem_of_map_to_list in Hin. exists k. auto.
  - intros (k & Hk & Hs). exists (k, u). split; [reflexivity|].
    rewrite merge_sort_Permutation. apply list_elem_of_In, List.filter_In.
    split; [|exact Hs]. apply list_elem_of_In, elem_of_map_to_list. exact Hk.
Qed.

End LedgerLemmas.

Section ManagerProperties.
Import Firestore FirestoreFacts FirestoreLemmas FirestoreRuns FirestoreRunFacts
  FirestoreFrames LedgerFacts LedgerLemmas.

(** X1: [getUserData] is get-or-create.  Whenever it returns, the
    document it returns is the one stored under [userId]; an existing
    document is returned as stored and nothing is written; an unknown user
    gets the default document (stake and balances ["0"], no referrer); a
    call that throws writes nothing; no other document, no transaction and
    not the pool is touched; and a second call, if the store accepts its
    read, returns the same document. *)
Theorem getUserData_get_or_create (fault : nat -> Request -> bool)
  (gen : string -> Z -> string) (userId : string) (w : World Db) :
  let r := getUserData fault gen userId w in
  (forall u, fst r = Returned u -> users (data (snd r)) !! userId = Some u)
  /\ (forall u, users (data w) !! userId = Some u ->
        fst r = Returned u \/ fst r = Thrown (Unavailable (Get Users userId)))
  /\ (forall u, users (data w) !! userId = Some u -> data (snd r) = data w)
  /\ (forall u, users (data w) !! userId = None -> fst r = Returned u ->
        u = newUser gen userId (clock w))
  /\ (forall e, fst r = Thrown e -> data (snd r) = data w)
  /\ (forall k, k <> userId -> users (data (snd r)) !! k = users (data w) !! k)
  /\ transactions (data (snd r)) = transactions (data w)
  /\ pool (data (snd r)) = pool (data w)
  /\ (forall u, fst r = Returned u ->
        fault (requests (snd r)) (Get Users userId) = false ->
        getUserData fault gen userId (snd r) = (Returned u, tick (snd r))).
Proof.
  cbv zeta. rewrite getUserData_eq.
  destruct (fault (requests w) (Get Users userId)) eqn:HG.
  { cbn [fst snd tick data].
    repeat split; try discriminate; auto. }
  destruct (users (data w) !! userId) as [d|] eqn:Hk.
  { cbn [fst snd tick data].
    repeat split; try discriminate; auto.
    - intros u [= <-]. exact Hk.
    - intros u [= <-]. auto.
    - intros u [= <-] HG2. rewrite getUserData_eq, HG2.
      cbn [tick data]. rewrite Hk. reflexivity. }
  destruct (fault (S (requests w)) (SetDoc Users userId)) eqn:HS.
  { cbn [fst snd tick data].
    repeat split; try discriminate; auto. }
  cbn [fst snd tick data putUser withUsers users transactions pool].
  repeat split; try discriminate; auto.
  - intros u [= <-]. apply lookup_insert_eq.
  - intros u _ [= <-]. reflexivity.
  - intros k Hne. apply lookup_insert_ne. congruence.
  - intros u [= <-] HG2. rewrite getUserData_eq, HG2.
    cbn [putUser data users withUsers]. rewrite lookup_insert_eq. reflexivity.
Qed.

(** The document a referral code resolves to is a stored one that holds
    the code. *)
Lemma findByReferralCode_stored (m : gmap string UserData) (code referrerId : string) :
  findByReferralCode m code = Some referrerId ->
  exists ref, m !! referrerId = Some ref /\ referralCode ref = code.
Proof.
  unfold findByReferralCode. intros H.
  destruct (List.find _ _) as [[k v]|] eqn:Hf; [|discriminate].
  injection H as <-.
  apply List.find_some in Hf as [Hin Hc].
  apply list_elem_of_In in Hin. rewrite merge_sort_Permutation in Hin.
  apply elem_of_map_to_list in Hin.
  exists v. split; [exact Hin|]. apply String.eqb_eq. exact Hc.
Qed.

(** X2: [processReferral] does not check whether the user already has a
    referrer: for a stored user and a code that resolves to another user,
    when the store accepts the query and the update the call returns
    [true] and the user's [referredBy] is the new referrer, whatever it
    was before; the other fields keep their values. *)
Theorem processReferral_replaces_referrer (fault : nat -> Request -> bool)
  (w : World Db) (user code referrerId : string) (u : UserData) :
  findByReferralCode (users (data w)) code = Some referrerId ->
  referrerId <> user ->
  users (data w) !! user = Some u ->
  fault (requests w) (Query Users) = false ->
  fault (S (requests w)) (Update Users user) = false ->
  let r := processReferral fault user code w in
  fst r = Returned true
  /\ exists u', users (data (snd r)) !! user = Some u'
       /\ referredBy u' = Some referrerId
       /\ stakedAmount u' = stakedAmount u /\ rewardsBalance u' = rewardsBalance u
       /\ totalEarnings u' = totalEarnings u /\ referralCode u' = referralCode u.
Proof.
  intros Hc Hne Hu HQ HU. cbv zeta.
  rewrite processReferral_eq, HQ, Hc, HU, Hu.
  destruct (String.eqb referrerId user) eqn:He.
  { apply String.eqb_eq in He. contradiction. }
  split; [reflexivity|].
  eexists. split; [apply lookup_insert_eq|]. repeat split.
Qed.

Lemma processReferral_replaces_referrer_witness :
  (referredBy <$> users (data referredAgainWorld) !! "alice") = Some (Some "bob"%string)
  /\ (referredBy <$>
        users (data (snd (processReferral reliable "alice" "CODEcarol" referredAgainWorld)))
          !! "alice") = Some (Some "carol"%string).
Proof.
  split; [vm_compute; reflexivity|].
  destruct (processReferral_replaces_referrer reliable referredAgainWorld
              "alice"%string "CODEcarol"%string "carol"%string
              (Examples.account "alice" "1000" (Some "bob"%string)))
    as (_ & u' & Hu' & Hr & _).
  - vm_compute. reflexivity.
  - discriminate.
  - vm_compute. reflexivity.
  - reflexivity.
  - reflexivity.
  - rewrite Hu'. cbn [fmap option_fmap option_map]. rewrite Hr. reflexivity.
Defined.

(** X3: [processReferral] never throws, and it returns [true] exactly
    when it has written the referrer: a [false] result (unknown code, own
    code, unknown user, or a request the store rejected) leaves every
    document as it was, and a [true] result means that the code resolved
    to a stored user other than the caller, who holds that code, and that
    the caller's document now names that user in [referredBy]. *)
Theorem processReferral_true_iff_written (fault : nat -> Request -> bool)
  (user code : string) (w : World Db) :
  let r := processReferral fault user code w in
  (exists b, fst r = Returned b)
  /\ (fst r = Returned false -> data (snd r) = data w)
  /\ (fst r = Returned true ->
      exists referrerId ref u,
        users (data w) !! referrerId = Some ref /\ referralCode ref = code
        /\ referrerId <> user
        /\ users (data w) !! user = Some u
        /\ users (data (snd r))
           = <[user := applyPatch u (mkPatch None None None (Some referrerId)
                                              None None None None) (clock w)]>
               (users (data w))
        /\ transactions (data (snd r)) = transactions (data w)
        /\ pool (data (snd r)) = pool (data w)).
Proof.
  cbv zeta. rewrite processReferral_eq.
  destruct (fault (requests w) (Query Users)).
  { cbn [fst snd tick data]. repeat split; eauto; discriminate. }
  destruct (findByReferralCode (users (data w)) code) as [referrerId|] eqn:Hc.
  2: { cbn [fst snd tick data]. repeat split; eauto; discriminate. }
  destruct (String.eqb referrerId user) eqn:He.
  { cbn [fst snd tick data]. repeat split; eauto; discriminate. }
  destruct (fault (S (requests w)) (Update Users user)).
  { cbn [fst snd tick data]. repeat split; eauto; discriminate. }
  destruct (users (data w) !! user) as [u|] eqn:Hu.
  2: { cbn [fst snd tick data]. repeat split; eauto; discriminate. }
  cbn [fst snd]. split; [eauto|]. split; [discriminate|]. intros _.
  destruct (findByReferralCode_stored _ _ _ Hc) as (ref & Href & Hcode).
  exists referrerId, ref, u. repeat split; auto.
  intros ->. rewrite String.eqb_refl in He. discriminate.
Qed.

(** X4: a run that finds no stake to reward writes nothing.  When the
    stake query returns no user, or users whose stakes add up to zero, the
    run ends after the query: no balance, no transaction and not the pool
    document is written, so [lastRewardDistribution] keeps its value. *)
Theorem distributeRewards_nothing_to_reward (fault : nat -> Request -> bool)
  (gen : string -> Z -> string) (w : World Db) :
  PrimFloat.eqb (totalStakedOf (usersWithStakes (users (data w)))) 0 = true ->
  let r := distributeRewards fault gen w in
  data (snd r) = data w
  /\ requests (snd r) = S (requests w)
  /\ (fst r = Returned tt \/ fst r = Thrown (Unavailable (Query Users))).
Proof.
  intros H0. cbv zeta. rewrite distributeRewards_eq.
  destruct (fault (requests w) (Query Users)); [auto|].
  cbv zeta. destruct (length _ =? 0)%nat; [auto|].
  rewrite H0. auto.
Qed.

Lemma distributeRewards_nothing_to_reward_witness :
  List.map stakedAmount (usersWithStakes (users (data zeroStakeWorld))) = ["0.0"%string]
  /\ data (snd (distributeRewards reliable Examples.gen zeroStakeWorld))
     = data zeroStakeWorld.
Proof.
  split; [vm_compute; reflexivity|].
  refine (proj1 (distributeRewards_nothing_to_reward reliable Examples.gen
                   zeroStakeWorld _)).
  vm_compute. reflexivity.
Defined.

(** X5: a run of [distributeRewards] pays into [rewardsBalance] and
    [totalEarnings] only.  Whatever the store rejects, every user document
    that was stored is still stored afterwards with the same [id],
    [walletAddress], [stakedAmount], [referralCode], [referredBy] and
    [joinedAt] (rewards are never compounded into the stake), and every
    transaction that was stored is still there, unchanged and in the same
    place: transactions are only added. *)
Theorem distributeRewards_keeps_profiles (fault : nat -> Request -> bool)
  (gen : string -> Z -> string) (w : World Db) :
  let w' := snd (distributeRewards fault gen w) in
  (forall k u, users (data w) !! k = Some u ->
     exists u', users (data w') !! k = Some u'
       /\ id u' = id u /\ walletAddress u' = walletAddress u
       /\ stakedAmount u' = stakedAmount u /\ referralCode u' = referralCode u
       /\ referredBy u' = referredBy u /\ joinedAt u' = joinedAt u)
  /\ (exists added, transactions (data w') = transactions (data w) ++ added).
Proof.
  cbv zeta. destruct (distributeRewards_profile fault gen w) as (Hd & Ht & _).
  split; [|exact Ht].
  intros k u Hk. destruct (Hd k u Hk) as (u' & Hu' & Hp).
  exists u'. split; [exact Hu'|].
  unfold profile in Hp. injection Hp as -> -> -> -> -> ->. repeat split.
Qed.

(** X6: the stake query compares strings.  It selects the stored
    documents whose [stakedAmount] string is greater than ["0"]: a new
    user's ["0"] is left out, but the ["0.000000000"] that a withdrawal of
    the whole stake writes is selected; such an account reads as a stake
    of zero and its reward is ["0.000000000"]. *)
Theorem stake_query_compares_strings (m : gmap string UserData) (u : UserData) :
  (u ∈ usersWithStakes m
   <-> exists k, m !! k = Some u /\ String.ltb "0" (stakedAmount u) = true)
  /\ (stakedAmount u = "0"%string -> u ∉ usersWithStakes m)
  /\ (stakedAmount u = JS.toFixed 0 9 -> (exists k, m !! k = Some u) ->
      u ∈ usersWithStakes m
      /\ userStake u = 0%float
      /\ forall now, JS.toFixed (netRewardOf u now) 9 = "0.000000000"%string).
Proof.
  split; [apply usersWithStakes_iff|]. split.
  - intros Hs Hin. apply usersWithStakes_iff in Hin as (k & _ & Hlt).
    rewrite Hs in Hlt. vm_compute in Hlt. discriminate.
  - intros Hs (k & Hk).
    assert (userStake u = 0%float) as H0.
    { unfold userStake. rewrite Hs. vm_compute. reflexivity. }
    split; [|split; [exact H0|]].
    + apply usersWithStakes_iff. exists k. split; [exact Hk|].
      rewrite Hs. vm_compute. reflexivity.
    + intros now. unfold netRewardOf. rewrite H0.
      destruct (premiumActive u now); vm_compute; reflexivity.
Qed.



End ManagerProperties.

(** ** [FirebaseStorage], the referral route and the scheduler
    (server/firebaseStorage.ts, server/routes.ts, the reward scheduler) *)

Module StorageLemmas.
Import Pool PoolFacts PoolRuns.

Section Operations.
Variable fault : nat -> Request -> bool.

Lemma getUserByTelegramId_eq (tid : string) (w : World Db) :
  getUserByTelegramId fault tid w =
  (Returned (if fault (requests w) (Query Users) then None
             else List.find (fun d => String.eqb (telegramId (snd d)) tid)
                    (userDocs (users (data w)))),
   tick w).
Proof.
  unfold getUserByTelegramId, tryCatch, bind, request, getWorld, ret.
  destruct (fault (requests w) (Query Users)); reflexivity.
Qed.

Lemma getUserByReferralCode_eq (code : string) (w : World Db) :
  getUserByReferralCode fault code w =
  (Returned (if fault (requests w) (Query Users) then None
             else List.find (fun d => String.eqb (referralCode (snd d)) code)
                    (userDocs (users (data w)))),
   tick w).
Proof.
  unfold getUserByReferralCode, tryCatch, bind, request, getWorld, ret.
  destruct (fault (requests w) (Query Users)); reflexivity.
Qed.

Lemma updateDoc_eq (name : string) (p : UserPatch) (w : World Db) :
  updateDoc fault name p w =
  if fault (requests w) (Update Users name)
  then (Thrown (Unavailable (Update Users name)), tick w)
  else match users (data w) !! name with
       | None => (Thrown (NotFound Users name), tick w)
       | Some u => (Returned tt, putUser name (applyPatch u p) (tick w))
       end.
Proof.
  unfold updateDoc, bind, request, getWorld, modify, throw.
  destruct (fault (requests w) (Update Users name)); [reflexivity|].
  cbn [data]. destruct (users (data w) !! name); reflexivity.
Qed.

(** [updateUser], one request at a time: the lookup, then the update of
    the document found. *)
Lemma updateUser_eq (tid : string) (p : UserPatch) (w : World Db) :
  updateUser fault tid p w =
  if fault (requests w) (Query Users) then (Returned None, tick w)
  else match List.find (fun d => String.eqb (telegramId (snd d)) tid)
               (userDocs (users (data w))) with
       | None => (Returned None, tick w)
       | Some (name, user) =>
           if fault (S (requests w)) (Update Users name)
           then (Returned None, tick (tick w))
           else (Returned (Some (applyPatch user p)),
                 putUser name (applyPatch user p) (tick (tick w)))
       end.
Proof.
  unfold updateUser, tryCatch, bind at 1. rewrite getUserByTelegramId_eq.
  destruct (fault (requests w) (Query Users)); [reflexivity|].
  destruct (List.find _ _) as [[name user]|] eqn:Hf; [|reflexivity].
  pose proof (found_is_stored _ _ _ _ Hf) as Hk.
  unfold bind. rewrite updateDoc_eq. cbn [tick requests data].
  destruct (fault (S (requests w)) (Update Users name)); [reflexivity|].
  rewrite Hk. reflexivity.
Qed.

End Operations.
End StorageLemmas.

Section StorageProperties.
Import Pool PoolFacts PoolRuns StorageFacts StorageLemmas.

(** X8: [updateUser] never throws, and what it returns tells what it
    wrote: [undefined] (no user with that [telegramId], or a request the
    store rejected) means nothing was written; a user means that the
    document found for that [telegramId] now holds exactly the returned
    fields, and no other document changed. *)
Theorem updateUser_returns_what_it_stored (fault : nat -> Request -> bool)
  (tid : string) (updates : UserPatch) (w : World Db) :
  let r := updateUser fault tid updates w in
  (exists o, fst r = Returned o)
  /\ (fst r = Returned None -> data (snd r) = data w)
  /\ (forall u, fst r = Returned (Some u) ->
        telegramId u = tid
        /\ exists name stored,
             users (data w) !! name = Some stored
             /\ telegramId stored = tid
             /\ u = applyPatch stored updates
             /\ users (data (snd r)) = <[name := u]> (users (data w))
             /\ referrals (data (snd r)) = referrals (data w)
             /\ transactions (data (snd r)) = transactions (data w)).
Proof.
  cbv zeta. rewrite updateUser_eq.
  destruct (fault (requests w) (Query Users)).
  { cbn [fst snd tick data]. repeat split; eauto; discriminate. }
  destruct (List.find _ _) as [[name user]|] eqn:Hf.
  2: { cbn [fst snd tick data]. repeat split; eauto; discriminate. }
  destruct (fault (S (requests w)) (Update Users name)).
  { cbn [fst snd tick data]. repeat split; eauto; discriminate. }
  cbn [fst snd]. split; [eauto|]. split; [discriminate|].
  intros u [= <-].
  pose proof (found_is_stored _ _ _ _ Hf) as Hk.
  apply List.find_some in Hf as [_ Ht]. cbn [snd] in Ht. apply String.eqb_eq in Ht.
  split; [exact Ht|]. exists name, user. repeat split; auto.
Qed.

(** [registerReferral], one request at a time. *)
Lemma registerReferral_eq (fault : nat -> Request -> bool) (tid code : string)
  (w : World Db) :
  registerReferral fault tid code w =
  let user := if fault (requests w) (Query Users) then None
              else List.find (fun d => String.eqb (telegramId (snd d)) tid)
                     (userDocs (users (data w))) in
  let referrerUser := if fault (S (requests w)) (Query Users) then None
                      else List.find (fun d => String.eqb (referralCode (snd d)) code)
                             (userDocs (users (data w))) in
  match user, referrerUser with
  | Some (_, u), Some (_, r) =>
      if truthy (referredBy u) then (Returned 400%nat, tick (tick w))
      else if String.eqb (telegramId r) tid then (Returned 400%nat, tick (tick w))
      else (Returned 200%nat,
            snd (updateUser fault tid (mkPatch None None None None (Some (telegramId r)))
                   (tick (tick w))))
  | _, _ => (Returned 404%nat, tick (tick w))
  end.
Proof.
  cbv zeta. unfold registerReferral, tryCatch. unfold bind at 1.
  rewrite getUserByTelegramId_eq. unfold bind at 1.
  rewrite getUserByReferralCode_eq. cbn [tick requests data].
  destruct (fault (requests w) (Query Users));
    destruct (fault (S (requests w)) (Query Users));
    repeat match goal with
           | |- context [List.find ?f ?l] => destruct (List.find f l) as [[? ?]|]
           end;
    try reflexivity.
  destruct (truthy (referredBy _)); [reflexivity|].
  destruct (String.eqb (telegramId _) tid); [reflexivity|].
  unfold bind. rewrite updateUser_eq. cbn [tick requests data].
  destruct (fault (S (S (requests w))) (Query Users)); [reflexivity|].
  destruct (List.find _ _) as [[name user]|]; [|reflexivity].
  destruct (fault _ (Update Users name)); reflexivity.
Qed.

(** X9: on the referral route the first referrer stays.  For a user
    who already has a referrer the route writes nothing, whatever code is
    sent: it answers 400 when both lookups are accepted and the code
    belongs to a member, and 404 otherwise, that is when a lookup is
    rejected or no member holds the code. *)
Theorem registerReferral_first_referrer_stays (fault : nat -> Request -> bool)
  (tid code name : string) (u : User) (w : World Db) :
  List.find (fun d => String.eqb (telegramId (snd d)) tid) (userDocs (users (data w)))
  = Some (name, u) ->
  truthy (referredBy u) = true ->
  let r := registerReferral fault tid code w in
  let accepted := negb (fault (requests w) (Query Users))
                  && negb (fault (S (requests w)) (Query Users)) in
  let held := match List.find (fun d => String.eqb (referralCode (snd d)) code)
                      (userDocs (users (data w))) with
              | Some _ => true
              | None => false
              end in
  fst r = Returned (if accepted && held then 400%nat else 404%nat)
  /\ data (snd r) = data w.
Proof.
  intros Hf Ht. cbv zeta. rewrite registerReferral_eq. cbv zeta.
  destruct (fault (requests w) (Query Users)); cbn [fst snd tick data negb andb].
  { split; reflexivity. }
  rewrite Hf.
  destruct (fault (S (requests w)) (Query Users)); cbn [fst snd tick data negb andb].
  { split; reflexivity. }
  destruct (List.find (fun d => String.eqb (referralCode (snd d)) code) _) as [[n2 r]|].
  - rewrite Ht. cbn [fst snd tick data]. split; reflexivity.
  - cbn [fst snd tick data]. split; reflexivity.
Qed.

Lemma registerReferral_first_referrer_stays_witness :
  fst (registerReferral reliable "alice" "CODEcarol" threeMembers) = Returned 400%nat
  /\ fst (registerReferral reliable "alice" "NOBODY" threeMembers) = Returned 404%nat
  /\ data (snd (registerReferral reliable "alice" "CODEcarol" threeMembers))
     = data threeMembers.
Proof.
  destruct (registerReferral_first_referrer_stays reliable "alice"%string
              "CODEcarol"%string "uuid-a"%string (member "alice" "1000" (Some "bob"%string))
              threeMembers) as (H400 & Hd); [vm_compute; reflexivity | reflexivity |].
  destruct (registerReferral_first_referrer_stays reliable "alice"%string
              "NOBODY"%string "uuid-a"%string (member "alice" "1000" (Some "bob"%string))
              threeMembers) as (H404 & _); [vm_compute; reflexivity | reflexivity |].
  split; [|split; [|exact Hd]].
  - rewrite H400. vm_compute. reflexivity.
  - rewrite H404. vm_compute. reflexivity.
Defined.

(** X10: the referral route does not look at the result of
    [updateUser].  For a user without a referrer and a code that resolves
    to another member, once the two lookups are accepted the route answers
    200 whether or not the store then accepts the update: when it does,
    the user's document names the referrer; when it rejects the lookup or
    the update inside [updateUser], the answer is still 200 and no
    document has changed. *)
Theorem registerReferral_answers_200_unconditionally (fault : nat -> Request -> bool)
  (tid code name referrerName : string) (u referrerDoc : User) (w : World Db) :
  List.find (fun d => String.eqb (telegramId (snd d)) tid) (userDocs (users (data w)))
  = Some (name, u) ->
  List.find (fun d => String.eqb (referralCode (snd d)) code) (userDocs (users (data w)))
  = Some (referrerName, referrerDoc) ->
  truthy (referredBy u) = false ->
  telegramId referrerDoc <> tid ->
  fault (requests w) (Query Users) = false ->
  fault (S (requests w)) (Query Users) = false ->
  let r := registerReferral fault tid code w in
  let accepted := negb (fault (S (S (requests w))) (Query Users))
                  && negb (fault (S (S (S (requests w)))) (Update Users name)) in
  fst r = Returned 200%nat
  /\ (accepted = true ->
      users (data (snd r))
      = <[name := applyPatch u (mkPatch None None None None (Some (telegramId referrerDoc)))]>
          (users (data w)))
  /\ (accepted = false -> data (snd r) = data w).
Proof.
  intros Hf Hc Ht Hne HQ1 HQ2. cbv zeta.
  rewrite registerReferral_eq. cbv zeta. rewrite HQ1, HQ2, Hf, Hc, Ht.
  destruct (String.eqb (telegramId referrerDoc) tid) eqn:He.
  { apply String.eqb_eq in He. contradiction. }
  cbn [fst snd]. split; [reflexivity|].
  rewrite updateUser_eq. cbn [tick requests data].
  destruct (fault (S (S (requests w))) (Query Users)); cbn [negb andb snd tick data].
  { split; [discriminate | reflexivity]. }
  rewrite Hf.
  destruct (fault (S (S (S (requests w)))) (Update Users name)); cbn [negb andb snd tick data].
  { split; [discriminate | reflexivity]. }
  split; [reflexivity | discriminate].
Qed.

Lemma registerReferral_answers_200_unconditionally_witness :
  fst (registerReferral rejectUpdates "carol" "CODEbob" threeMembers) = Returned 200%nat
  /\ data (snd (registerReferral rejectUpdates "carol" "CODEbob" threeMembers))
     = data threeMembers.
Proof.
  destruct (registerReferral_answers_200_unconditionally rejectUpdates "carol"%string
              "CODEbob"%string "uuid-c"%string "uuid-b"%string
              (member "carol" "5" None) (member "bob" "0" None) threeMembers)
    as (H200 & _ & Hsame).
  - vm_compute. reflexivity.
  - vm_compute. reflexivity.
  - reflexivity.
  - discriminate.
  - reflexivity.
  - reflexivity.
  - split; [exact H200|]. apply Hsame. reflexivity.
Defined.

(** X11: the runs of the scheduler that distribute nothing.
    [calculateAndDistributeRewards] never throws.  When the validators
    report a figure that is zero or negative it returns without a single
    request; when no user has a positive stake it returns after reading
    the users, and nothing is written: no pool configuration and no
    transaction record the day.  When the validators cannot be reached the
    one thing it does is to add a [failed] transaction for [system] that
    carries the message of the error. *)
Theorem scheduler_distributes_nothing (fault : nat -> Request -> bool)
  (fetched : Outcome string) (admin : string) (w : World Db) :
  let r := calculateAndDistributeRewards fault fetched admin w in
  (exists a, fst r = Returned a)
  /\ (forall text, fetched = Returned text ->
        PrimFloat.leb (JS.parseFloat text) 0 = true -> r = (Returned tt, w))
  /\ (forall text, fetched = Returned text ->
        PrimFloat.leb (JS.parseFloat text) 0 = false ->
        fault (requests w) (Query Users) = false ->
        PrimFloat.eqb (totalPoolStakedOf (stakingUsersOf (userDocs (users (data w))))) 0
        = true ->
        r = (Returned tt, tick w))
  /\ (forall e, fetched = Thrown e ->
        fault (requests w) (Add Transactions) = false ->
        r = (Returned tt,
             mkWorld (withTransactions
                        (fun l => l ++
                           [mkTx (mkInsertTx "system" reward "0"
                                    ("Reward distribution failed: " ++ messageOf e)
                                    (Some failed))
                                 failed (clock w)])
                        (data w))
                     (clock w) (S (requests w)))).
Proof.
  cbv zeta. split; [|split; [|split]].
  - unfold calculateAndDistributeRewards.
    apply tryCatch_total. intros e. apply tryCatch_total.
    intros e' w'. exists tt. reflexivity.
  - intros text -> Hle. unfold calculateAndDistributeRewards, tryCatch.
    unfold bind at 1. rewrite Hle. reflexivity.
  - intros text -> Hle HQ H0. unfold calculateAndDistributeRewards, tryCatch.
    unfold bind at 1. rewrite Hle. unfold bind at 1.
    unfold getDocs, bind, request, getWorld, ret. rewrite HQ. cbn [data].
    rewrite H0. reflexivity.
  - intros e -> HA. unfold calculateAndDistributeRewards, tryCatch at 1.
    unfold bind at 1.
    unfold createTransaction, tryCatch, bind, currentTime, request, modify, ret.
    rewrite HA. reflexivity.
Qed.

End StorageProperties.

(** ** The queries of [FirestoreManager] (server/firestoreManager.ts) *)

Module QueryLemmas.
Import Firestore FirestoreQueries QueryFacts.

#[export] Existing Instance FirestoreQueries.newestFirst_dec.
#[export] Existing Instance FirestoreQueries.byDocName_dec.

(** What [where('userId', '==', who)] matches. *)
Lemma loggedFor_iff (who : string) (l : list TransactionDoc) (name : string)
  (t : TransactionData) :
  (name, t) ∈ loggedFor who l
  <-> exists n, name = autoId n /\ l !! n = Some (Logged t) /\ userId t = who.
Proof.
  unfold loggedFor, named. rewrite list_elem_of_omap. split.
  - intros ([nm d] & Hin & Hm). apply elem_of_lookup_imap in Hin as (n & y & [= -> ->] & Hn).
    cbn [fst snd] in Hm. destruct y as [t'|]; [|discriminate].
    destruct (String.eqb (userId t') who) eqn:He; [|discriminate].
    injection Hm as <- <-. exists n. apply String.eqb_eq in He. auto.
  - intros (n & -> & Hn & Hw). exists (autoId n, Logged t). split.
    + apply (elem_of_lookup_imap_2 (fun n d => (autoId n, d))). exact Hn.
    + cbn [fst snd]. rewrite <- Hw, String.eqb_refl. reflexivity.
Qed.

#[export] Instance newestFirst_total : base.Total newestFirst.
Proof.
  intros a b. unfold newestFirst. rewrite (Z.compare_antisym (timestamp (snd a))).
  destruct (timestamp (snd a) ?= timestamp (snd b))%Z; cbn [CompOpp]; auto.
  destruct (String.leb_total (fst a) (fst b)); auto.
Qed.

Lemma newestFirst_notOlder a b : newestFirst a b -> notOlder a b.
Proof.
  unfold newestFirst, notOlder.
  destruct (timestamp (snd a) ?= timestamp (snd b))%Z eqn:Hc; [| |].
  - intros _. apply Z.compare_eq in Hc. lia.
  - contradiction.
  - intros _. apply Z.compare_gt_iff in Hc. lia.
Qed.

#[export] Instance notOlder_trans : Transitive notOlder.
Proof. intros a b c. unfold notOlder. lia. Qed.

Lemma newestFirst_sorted (l : list (string * TransactionData)) :
  StronglySorted notOlder (merge_sort newestFirst l).
Proof.
  apply Sorted_StronglySorted; [apply _|].
  pose proof (Sorted_merge_sort newestFirst l) as H.
  induction H as [|a l' Hs IH Hh]; constructor; [exact IH|].
  destruct Hh as [|b l'' Hab]; constructor. apply newestFirst_notOlder, Hab.
Qed.

End QueryLemmas.

Section QueryProperties.
Import Firestore FirestoreFacts FirestoreLemmas FirestoreQueries QueryFacts QueryLemmas.

(** X12: [getTransactionHistory] returns the newest transactions of
    the user.  When the store accepts the query, the result holds
    [min limit n] of the user's [n] logged transactions (all of them when
    there are no more than [limit]; the limit is 50 when none is given),
    each one a stored document of that user under its name, ordered from
    the newest to the oldest, and no transaction left out is newer than
    one returned.  Records of premium payments are never part of it. *)
Theorem getTransactionHistory_newest_first (fault : nat -> Request -> bool)
  (who : string) (limit : option positive) (w : World Db) :
  fault (requests w) (Query Transactions) = false ->
  let stored := loggedFor who (transactions (data w)) in
  let n := Pos.to_nat (default 50%positive limit) in
  exists history,
    getTransactionHistory fault who limit w = (Returned history, tick w)
    /\ length history = Nat.min n (length stored)
    /\ (forall name t, (name, t) ∈ history ->
          userId t = who
          /\ exists i, name = autoId i /\ transactions (data w) !! i = Some (Logged t))
    /\ StronglySorted notOlder history
    /\ (forall a b, a ∈ history -> b ∈ stored -> b ∉ history -> notOlder a b)
    /\ ((length stored <= n)%nat -> history ≡ₚ stored).
Proof.
  intros HQ. cbv zeta.
  set (stored := loggedFor who (transactions (data w))).
  set (n := Pos.to_nat (default 50%positive limit)).
  set (sorted := merge_sort newestFirst stored).
  assert (sorted ≡ₚ stored) as Hperm by apply merge_sort_Permutation.
  assert (StronglySorted notOlder sorted) as Hs by apply newestFirst_sorted.
  exists (take n sorted). split; [|split; [|split; [|split; [|split]]]].
  - unfold getTransactionHistory, tryCatch, bind, request, getWorld, ret.
    rewrite HQ. reflexivity.
  - rewrite length_take, (Permutation_length Hperm). reflexivity.
  - intros name t Hin. apply elem_of_take in Hin as (i & Hi & _).
    apply list_elem_of_lookup_2 in Hi. rewrite Hperm in Hi.
    apply loggedFor_iff in Hi as (k & -> & Hk & Hw). split; [exact Hw|]. eauto.
  - rewrite <- (take_drop n sorted) in Hs.
    apply StronglySorted_app_1_l in Hs. exact Hs.
  - intros a b Ha Hb Hnb. rewrite <- Hperm, <- (take_drop n sorted) in Hb.
    apply elem_of_app in Hb as [Hb|Hb]; [contradiction|].
    rewrite <- (take_drop n sorted) in Hs.
    apply (StronglySorted_app_1_elem_of _ _ _ _ _ Hs Ha Hb).
  - intros Hle. rewrite take_ge; [exact Hperm|].
    rewrite (Permutation_length Hperm). exact Hle.
Qed.

Lemma getTransactionHistory_newest_first_witness :
  List.map (fun d => (fst d, type (snd d), timestamp (snd d)))
    match fst (getTransactionHistory reliable "ann" (Some 2%positive) annLedger) with
    | Returned history => history
    | Thrown _ => []
    end
  = [("doc4"%string, referral, 300%Z); ("doc3"%string, reward, 200%Z)].
Proof.
  destruct (getTransactionHistory_newest_first reliable "ann"%string (Some 2%positive)
              annLedger eq_refl) as (history & E & _).
  rewrite E. cbn [fst]. injection E as <-. vm_compute. reflexivity.
Defined.

Lemma loggedFor_app (who : string) (l : list TransactionDoc) (d : TransactionDoc) :
  loggedFor who (l ++ [d])
  = loggedFor who l ++
    match d with
    | Logged t => if String.eqb (userId t) who then [(autoId (length l), t)] else []
    | PremiumPayment _ _ _ _ _ => []
    end.
Proof.
  unfold loggedFor, named. rewrite imap_app, omap_app. f_equal.
  cbn [imap]. rewrite Nat.add_0_r.
  destruct d as [t|]; cbn; [|reflexivity].
  destruct (String.eqb (userId t) who); reflexivity.
Qed.

Lemma filter_none {A} (f : A -> bool) (l : list A) :
  (forall x, x ∈ l -> f x = false) -> List.filter f l = [].
Proof.
  induction l as [|x l IH]; intros H; [reflexivity|].
  cbn [List.filter]. rewrite (H x) by apply list_elem_of_here.
  apply IH. intros y Hy. apply H. apply list_elem_of_further, Hy.
Qed.

(** X13: the referral earnings shown to a user are read back from the
    logged referral transactions.  [calculateReferralEarnings] never
    throws and answers [0] when the store rejects its query.  For a
    referrer without referral transactions the answer is [0], and after
    one [processReferralBonus] on a store that accepts every request it is
    the bonus as it was logged, with nine fraction digits. *)
Theorem referral_earnings_round_trip (gen : string -> Z -> string)
  (referrerId refereeId : string) (refereeReward : float) (b : UserData) (w : World Db) :
  users (data w) !! referrerId = Some b ->
  (forall name t, (name, t) ∈ loggedFor referrerId (transactions (data w)) ->
                  type t <> referral) ->
  let w' := snd (processReferralBonus reliable gen referrerId refereeReward refereeId w) in
  fst (calculateReferralEarnings reliable referrerId w) = Returned 0%float
  /\ fst (calculateReferralEarnings reliable referrerId w')
     = Returned (0 + JS.parseFloat (JS.toFixed (referralBonus refereeReward) 9))%float
  /\ (forall fault who w0,
        (exists x, fst (calculateReferralEarnings fault who w0) = Returned x)
        /\ snd (calculateReferralEarnings fault who w0) = tick w0
        /\ (fault (requests w0) (Query Transactions) = true ->
            fst (calculateReferralEarnings fault who w0) = Returned 0%float)).
Proof.
  intros Hk Hnone. cbv zeta.
  assert (List.filter isReferral (loggedFor referrerId (transactions (data w))) = []) as H0.
  { apply filter_none. intros [name t] Hin. specialize (Hnone name t Hin).
    unfold isReferral. cbn [snd]. destruct (type t); congruence. }
  split; [|split].
  - unfold calculateReferralEarnings, tryCatch, bind, request, getWorld, ret.
    cbn [reliable data fst]. rewrite H0. reflexivity.
  - destruct (processReferralBonus_reliable gen referrerId refereeId refereeReward b w Hk)
      as (_ & _ & HT & _).
    unfold calculateReferralEarnings, tryCatch, bind, request, getWorld, ret.
    cbn [reliable data fst]. rewrite HT, loggedFor_app.
    cbn [userId]. rewrite String.eqb_refl, List.filter_app, H0.
    reflexivity.
  - intros fault who w0.
    unfold calculateReferralEarnings, tryCatch, bind, request, getWorld, ret.
    destruct (fault (requests w0) (Query Transactions)); cbn [fst snd].
    + repeat split; eauto.
    + repeat split; eauto. discriminate.
Qed.

Lemma referral_earnings_round_trip_witness :
  let w' := snd (processReferralBonus reliable Examples.gen "bob" 10 "alice"
                   Examples.referralWorld) in
  JS.numberToString
    match fst (calculateReferralEarnings reliable "bob" w') with
    | Returned x => x
    | Thrown _ => PrimFloat.nan
    end = "1"%string.
Proof.
  cbv zeta.
  destruct (referral_earnings_round_trip Examples.gen "bob"%string "alice"%string
              10%float Examples.bob Examples.referralWorld) as (_ & E & _).
  - vm_compute. reflexivity.
  - intros name t Hin. vm_compute in Hin. apply elem_of_nil in Hin. contradiction.
  - rewrite E. vm_compute. reflexivity.
Defined.

(** X14: [initializeCollections] creates the pool document once.  It
    never throws and touches neither users nor transactions; a pool
    document that exists is left as it is; when there is none and the
    store accepts the read and the write, the pool document is the initial
    one (no stake, no rewards, the daily rate of 8.7% a year); and once a
    pool document exists, running it again changes nothing. *)
Theorem initializeCollections_creates_once (fault : nat -> Request -> bool)
  (adminWalletAddress : string) (w : World Db) :
  let r := initializeCollections fault adminWalletAddress w in
  fst r = Returned tt
  /\ users (data (snd r)) = users (data w)
  /\ transactions (data (snd r)) = transactions (data w)
  /\ (forall p, pool (data w) = Some p -> data (snd r) = data w)
  /\ (pool (data w) = None ->
      fault (requests w) (Get Pool "main") = false ->
      fault (S (requests w)) (SetDoc Pool "main") = false ->
      pool (data (snd r)) = Some (initialPool adminWalletAddress)
      /\ forall fault', fault' (requests (snd r)) (Get Pool "main") = false ->
           fst (getPoolData fault' (snd r)) = Returned (initialPool adminWalletAddress))
  /\ (is_Some (pool (data (snd r))) ->
      forall fault' address',
        data (snd (initializeCollections fault' address' (snd r))) = data (snd r)).
Proof.
  assert (forall f a w0 p, pool (data w0) = Some p ->
            data (snd (initializeCollections f a w0)) = data w0) as Hkeep.
  { intros f a w0 p Hp.
    unfold initializeCollections, tryCatch, bind, request, getWorld, ret.
    destruct (f (requests w0) (Get Pool "main")); [reflexivity|].
    cbn [data]. rewrite Hp. reflexivity. }
  cbv zeta. split; [|split; [|split; [|split; [|split]]]].
  - unfold initializeCollections, tryCatch.
    destruct (bind _ _ w) as [[[]|e] w1]; reflexivity.
  - unfold initializeCollections, tryCatch, bind, request, getWorld, modify, ret.
    destruct (fault (requests w) (Get Pool "main")); [reflexivity|].
    cbn [data]. destruct (pool (data w)); [reflexivity|].
    destruct (fault _ (SetDoc Pool "main")); reflexivity.
  - unfold initializeCollections, tryCatch, bind, request, getWorld, modify, ret.
    destruct (fault (requests w) (Get Pool "main")); [reflexivity|].
    cbn [data]. destruct (pool (data w)); [reflexivity|].
    destruct (fault _ (SetDoc Pool "main")); reflexivity.
  - intros p Hp. apply (Hkeep _ _ _ p Hp).
  - intros Hp HG HS.
    unfold initializeCollections, tryCatch, bind, request, getWorld, modify, ret.
    rewrite HG. cbn [data]. rewrite Hp. cbn [requests]. rewrite HS.
    cbn [snd data pool withPool requests]. split; [reflexivity|].
    intros fault' HG'.
    unfold getPoolData, tryCatch, bind, request, getWorld, ret.
    cbn [requests] in *. rewrite HG'. reflexivity.
  - intros [p Hp] fault' address'. apply (Hkeep _ _ _ p Hp).
Qed.

End QueryProperties.

(** ** [SmartContractManager] (server/smartContractManager.ts) *)

Module ContractLemmas.
Import Firestore FirestoreFacts FirestoreLemmas SmartContract ContractFacts.

Section Operations.
Variable gen : string -> Z -> string.
Variable config : ContractConfig.

Lemma getUserData_reliable (userId : string) (w : World Db) :
  exists w1,
    getUserData reliable gen userId w = (Returned (current gen userId w), w1)
    /\ users (data w1) = <[userId := current gen userId w]> (users (data w))
    /\ transactions (data w1) = transactions (data w)
    /\ pool (data w1) = pool (data w)
    /\ clock w1 = clock w.
Proof.
  rewrite getUserData_eq. cbn [reliable]. unfold current.
  destruct (users (data w) !! userId) as [u|] eqn:Hk; cbn [default].
  - exists (tick w). repeat split. cbn [tick data]. rewrite insert_id; auto.
  - eexists. split; [reflexivity|]. repeat split.
Qed.

Lemma updateUserBalance_reliable (userId : string) (p : UserPatch) (u : UserData)
  (w : World Db) :
  users (data w) !! userId = Some u ->
  updateUserBalance reliable userId p w
  = (Returned tt, putUser userId (applyPatch u p (clock w)) (tick w)).
Proof. intros Hk. rewrite updateUserBalance_eq. cbn [reliable]. rewrite Hk. reflexivity. Qed.

Lemma logTransaction_reliable (t : TransactionData) (w : World Db) :
  logTransaction reliable t w
  = (Returned (autoId (length (transactions (data w)))),
     addDoc (Logged (mkTx (userId t) (type t) (amount t) (clock w) (status t)
                          (txHash t) (description t))) (tick w)).
Proof. rewrite logTransaction_eq. reflexivity. Qed.

(** The end of both ledger updates: the balance the contract reports is
    written to the pool document. *)
Lemma pool_update_eq (balance : Outcome string) (patch : string -> Z -> PoolPatch)
  (w : World Db) :
  (contractData <- getContractData config balance ;;
   now' <- currentTime ;;
   updatePool reliable (patch (totalBalance contractData) now')) w
  = match balance with
    | Thrown e => (Thrown e, w)
    | Returned b =>
        match pool (data w) with
        | None => (Thrown (NotFound Pool "main"), tick w)
        | Some p =>
            (Returned tt,
             mkWorld (withPool (applyPoolPatch p (patch b (clock w)) (clock w)) (data w))
                     (clock w) (S (requests w)))
        end
    end.
Proof.
  unfold bind at 1, getContractData, tryCatch, bind at 1, external.
  destruct balance as [b|e]; [|reflexivity].
  unfold bind, currentTime, ret. cbn [totalBalance].
  rewrite updatePool_eq. cbn [reliable]. destruct (pool (data w)); reflexivity.
Qed.

End Operations.

(** [Math.max(0, x)] is not below zero. *)
Lemma positive_not_negative (x : float) :
  PrimFloat.ltb 0 x = true -> PrimFloat.ltb x 0 = false.
Proof.
  rewrite !ltb_spec. change (Prim2SF 0) with (S754_zero false).
  destruct (Prim2SF x) as [s|s| |s m e]; try destruct s; cbn; congruence.
Qed.

Lemma mathMax_not_negative (x : float) : PrimFloat.ltb (mathMax 0 x) 0 = false.
Proof.
  unfold mathMax. change (PrimFloat.is_nan 0) with false. cbn [orb].
  destruct (PrimFloat.is_nan x); [reflexivity|].
  destruct (PrimFloat.ltb 0 x) eqn:Hp; [apply positive_not_negative, Hp|].
  destruct (PrimFloat.ltb x 0); reflexivity.
Qed.

End ContractLemmas.

Section ContractProperties.
Import Firestore FirestoreFacts FirestoreLemmas SmartContract ContractFacts ContractLemmas.

(** X15: [SmartContractManager.processWithdrawal] takes a withdrawal
    from the stake first and from the rewards only for what the stake does
    not cover, never writing a balance below zero; this is the reverse of
    the order of [AdminWallet.processDirectWithdrawal].  On a store that
    accepts every request, once the chain call has returned its hash the
    user's document holds the two new balances and the withdrawal is
    logged with that hash; if the contract balance then cannot be read,
    or there is no pool document to update, the call throws although the
    transfer and the debit have been made. *)
Theorem contract_withdrawal_stake_first (gen : string -> Z -> string)
  (config : ContractConfig) (hash : string) (balance : Outcome string)
  (w : World Db) (userId amount wallet : string) (u : UserData) :
  users (data w) !! userId = Some u ->
  let staked := JS.parseFloat (strOr (stakedAmount u) "0") in
  let rewards := JS.parseFloat (strOr (rewardsBalance u) "0") in
  let requested := JS.parseFloat amount in
  PrimFloat.ltb (staked + rewards) requested = false ->
  let r := processWithdrawal reliable gen config (Returned hash) balance
             userId amount wallet w in
  let newStaked := if PrimFloat.leb requested staked then (staked - requested)%float
                   else 0%float in
  let newRewards := if PrimFloat.leb requested staked then rewards
                    else (rewards - (requested - staked))%float in
  users (data (snd r))
  = <[userId := applyPatch u (balancesPatch (JS.toFixed (mathMax 0 newStaked) 9)
                                            (JS.toFixed (mathMax 0 newRewards) 9))
                  (clock w)]> (users (data w))
  /\ PrimFloat.ltb (mathMax 0 newStaked) 0 = false
  /\ PrimFloat.ltb (mathMax 0 newRewards) 0 = false
  /\ transactions (data (snd r))
     = transactions (data w) ++
       [Logged (mkTx userId withdraw amount (clock w) completed (Some hash)
                  ("Withdrew " ++ amount ++ " TON from smart contract to " ++ wallet))]
  /\ (forall e, balance = Thrown e -> fst r = Thrown e)
  /\ (pool (data w) = None -> (exists b, balance = Returned b) ->
      fst r = Thrown (NotFound Pool "main"))
  /\ (forall b p, balance = Returned b -> pool (data w) = Some p ->
      fst r = Returned hash
      /\ pool (data (snd r))
         = Some (applyPoolPatch p
                   (mkPoolPatch (Some b) None None None None None
                                (Some (JSDate.toISOString (clock w))) None)
                   (clock w))).
Proof.
  intros Hk staked rewards requested Hlt r newStaked newRewards.
  assert (current gen userId w = u) as Hcur by (unfold current; rewrite Hk; reflexivity).
  assert (getUserData reliable gen userId w = (Returned u, tick w)) as EG1.
  { rewrite getUserData_eq. cbn [reliable]. rewrite Hk. reflexivity. }
  assert (getUserData reliable gen userId (tick w) = (Returned u, tick (tick w))) as EG2.
  { rewrite getUserData_eq. cbn [reliable tick data]. rewrite Hk. reflexivity. }
  set (patch := balancesPatch (JS.toFixed (mathMax 0 newStaked) 9)
                              (JS.toFixed (mathMax 0 newRewards) 9)).
  set (w3 := putUser userId (applyPatch u patch (clock w)) (tick (tick (tick w)))).
  set (doc := Logged (mkTx userId withdraw amount (clock w) completed (Some hash)
                        ("Withdrew " ++ amount ++ " TON from smart contract to " ++ wallet))).
  set (w4 := addDoc doc (tick w3)).
  assert (r = match balance with
              | Thrown e => (Thrown e, w4)
              | Returned b =>
                  match pool (data w) with
                  | None => (Thrown (NotFound Pool "main"), tick w4)
                  | Some p =>
                      (Returned hash,
                       mkWorld (withPool
                                  (applyPoolPatch p
                                     (mkPoolPatch (Some b) None None None None None
                                        (Some (JSDate.toISOString (clock w))) None)
                                     (clock w)) (data w4))
                               (clock w) (S (requests w4)))
                  end
              end) as Er.
  { unfold r, processWithdrawal. rewrite tryCatch_rethrow.
    rewrite (bind_returned _ _ _ _ _ EG1). fold staked rewards requested. rewrite Hlt.
    unfold bind at 1, external.
    unfold updateFirestoreForWithdrawal. unfold bind at 1. rewrite tryCatch_rethrow.
    rewrite (bind_returned _ _ _ _ _ EG2). fold staked rewards requested.
    assert (updateUserBalance reliable userId patch (tick (tick w)) = (Returned tt, w3)) as EU.
    { rewrite (updateUserBalance_reliable userId patch u (tick (tick w)) Hk). reflexivity. }
    replace (let '(newStakedAmount, newRewardsBalance) :=
               if PrimFloat.leb requested staked
               then ((staked - requested)%float, rewards)
               else (0%float, (rewards - (requested - staked))%float) in
             updateUserBalance reliable userId
               (mkPatch None (Some (JS.toFixed (mathMax 0 newStakedAmount) 9))
                        (Some (JS.toFixed (mathMax 0 newRewardsBalance) 9))
                        None None None None None) ;;
             now <- currentTime ;;
             logTransaction reliable
               (mkTx userId withdraw amount now completed (Some hash)
                  ("Withdrew " ++ amount ++ " TON from smart contract to " ++ wallet)) ;;
             contractData <- getContractData config balance ;;
             now' <- currentTime ;;
             updatePool reliable
               (mkPoolPatch (Some (totalBalance contractData)) None None None None None
                            (Some (JSDate.toISOString now')) None))
      with (updateUserBalance reliable userId patch ;;
            now <- currentTime ;;
            logTransaction reliable
              (mkTx userId withdraw amount now completed (Some hash)
                 ("Withdrew " ++ amount ++ " TON from smart contract to " ++ wallet)) ;;
            contractData <- getContractData config balance ;;
            now' <- currentTime ;;
            updatePool reliable
              (mkPoolPatch (Some (totalBalance contractData)) None None None None None
                           (Some (JSDate.toISOString now')) None)).
    2:{ unfold patch, newStaked, newRewards, balancesPatch.
        destruct (PrimFloat.leb requested staked); reflexivity. }
    rewrite (bind_returned _ _ _ _ _ EU). rewrite bind_currentTime.
    rewrite (bind_returned _ _ _ _ _ (logTransaction_reliable _ w3)).
    cbn [Firestore.userId Firestore.type Firestore.amount Firestore.status
         Firestore.txHash Firestore.description].
    change (clock w3) with (clock w). fold doc. fold w4.
    rewrite (pool_update_eq config balance
               (fun b now' => mkPoolPatch (Some b) None None None None None
                                (Some (JSDate.toISOString now')) None) w4).
    destruct balance as [b|e]; [|reflexivity].
    change (pool (data w4)) with (pool (data w)).
    destruct (pool (data w)); reflexivity. }
  rewrite Er. clear Er.
  assert (users (data w4) = <[userId := applyPatch u patch (clock w)]> (users (data w))) as HU
    by reflexivity.
  assert (transactions (data w4) = transactions (data w) ++ [doc]) as HT by reflexivity.
  split; [|split; [|split; [|split; [|split; [|split]]]]].
  - destruct balance as [b|e]; [destruct (pool (data w))|]; exact HU.
  - apply mathMax_not_negative.
  - apply mathMax_not_negative.
  - destruct balance as [b|e]; [destruct (pool (data w))|]; exact HT.
  - intros e ->. reflexivity.
  - intros Hp (b & ->). rewrite Hp. reflexivity.
  - intros b p -> Hp. rewrite Hp. split; reflexivity.
Qed.

Lemma contract_withdrawal_stake_first_witness :
  let r := processWithdrawal reliable Examples.gen (CONTRACT_CONFIG "contract")
             (Returned "hash"%string) (Returned "1000"%string)
             "ivy" "1" "wallet" Examples.ivyWorld in
  (stakedAmount <$> users (data (snd r)) !! "ivy") = Some "40.000000000"%string
  /\ (rewardsBalance <$> users (data (snd r)) !! "ivy") = Some "1.500000000"%string.
Proof.
  cbv zeta.
  destruct (contract_withdrawal_stake_first Examples.gen (CONTRACT_CONFIG "contract")
              "hash"%string (Returned "1000"%string) Examples.ivyWorld
              "ivy"%string "1"%string "wallet"%string Examples.ivy) as (HU & _).
  - vm_compute. reflexivity.
  - vm_compute. reflexivity.
  - rewrite HU. vm_compute. split; reflexivity.
Defined.

(** X16: a withdrawal through [SmartContractManager] that is refused
    leaves the ledger alone.  For a stored user, a request for more than
    stake plus rewards throws the insufficient-balance error (or the error
    of the rejected read) whatever the chain would have answered, and a
    chain call that fails makes the call throw; in both cases no document
    is written. *)
Theorem contract_withdrawal_refused (fault : nat -> Request -> bool)
  (gen : string -> Z -> string) (config : ContractConfig)
  (chain balance : Outcome string) (w : World Db) (userId amount wallet : string)
  (u : UserData) :
  users (data w) !! userId = Some u ->
  let available := (JS.parseFloat (strOr (stakedAmount u) "0")
                    + JS.parseFloat (strOr (rewardsBalance u) "0"))%float in
  PrimFloat.ltb available (JS.parseFloat amount) = true
  \/ (exists e, chain = Thrown e) ->
  let r := processWithdrawal fault gen config chain balance userId amount wallet w in
  data (snd r) = data w
  /\ (exists e, fst r = Thrown e)
  /\ (PrimFloat.ltb available (JS.parseFloat amount) = true ->
      fault (requests w) (Get Users userId) = false ->
      fst r = Thrown (ErrorMsg ("Insufficient balance. Available: " ++
                                JS.numberToString available ++ ", Requested: " ++ amount)))
  /\ (forall e, PrimFloat.ltb available (JS.parseFloat amount) = false ->
      chain = Thrown e ->
      fault (requests w) (Get Users userId) = false ->
      fst r = Thrown e).
Proof.
  intros Hk available Href r. unfold r, processWithdrawal. rewrite tryCatch_rethrow.
  destruct (fault (requests w) (Get Users userId)) eqn:HG.
  { assert (getUserData fault gen userId w
            = (Thrown (Unavailable (Get Users userId)), tick w)) as EG.
    { rewrite getUserData_eq, HG. reflexivity. }
    rewrite (bind_thrown _ _ _ _ _ EG). cbn [fst snd tick data].
    split; [reflexivity|]. split; [eauto|].
    split; [intros _ HH; discriminate | intros e0 _ _ HH; discriminate]. }
  assert (getUserData fault gen userId w = (Returned u, tick w)) as EG.
  { rewrite getUserData_eq, HG, Hk. reflexivity. }
  rewrite (bind_returned _ _ _ _ _ EG). fold available.
  destruct (PrimFloat.ltb available (JS.parseFloat amount)) eqn:Hlt.
  { unfold throw. cbn [fst snd tick data]. split; [reflexivity|]. split; [eauto|].
    split; [reflexivity | intros e0 HH; discriminate]. }
  destruct Href as [Hc|(e & ->)]; [discriminate|].
  unfold bind, external. cbn [fst snd tick data].
  split; [reflexivity|]. split; [eauto|]. split; [discriminate|].
  intros e' _ [= <-] _. reflexivity.
Qed.

Lemma contract_withdrawal_refused_witness :
  let r := processWithdrawal reliable Examples.gen (CONTRACT_CONFIG "contract")
             (Returned "hash"%string) (Returned "1000"%string)
             "ivy" "43" "wallet" Examples.ivyWorld in
  fst r = Thrown (ErrorMsg "Insufficient balance. Available: 42.5, Requested: 43")
  /\ data (snd r) = data Examples.ivyWorld.
Proof.
  cbv zeta.
  destruct (contract_withdrawal_refused reliable Examples.gen (CONTRACT_CONFIG "contract")
              (Returned "hash"%string) (Returned "1000"%string) Examples.ivyWorld
              "ivy"%string "43"%string "wallet"%string Examples.ivy)
    as (Hd & _ & Hm & _).
  - vm_compute. reflexivity.
  - left. vm_compute. reflexivity.
  - split; [|exact Hd]. rewrite Hm; [vm_compute; reflexivity| vm_compute; reflexivity
                                     | reflexivity].
Defined.

(** X17: a deposit through [SmartContractManager] is added to the
    stake.  On a store that accepts every request, once the chain call has
    returned its hash the user's [stakedAmount] is the sum of the previous
    stake and the deposit, written with nine fraction digits (a user
    without a document is created first and starts from ["0"]), the wallet
    address is the depositor's, and the deposit is logged with the hash.
    A chain call that fails leaves the ledger as it was. *)
Theorem contract_deposit_adds (gen : string -> Z -> string) (config : ContractConfig)
  (hash : string) (balance : Outcome string) (w : World Db)
  (userId amount wallet : string) :
  let u := current gen userId w in
  let r := processDeposit reliable gen config (Returned hash) balance
             userId amount wallet w in
  users (data (snd r))
  = <[userId := applyPatch u
                  (mkPatch (Some wallet)
                     (Some (JS.toFixed (JS.parseFloat (strOr (stakedAmount u) "0")
                                        + JS.parseFloat amount)%float 9))
                     None None None None None None)
                  (clock w)]> (users (data w))
  /\ transactions (data (snd r))
     = transactions (data w) ++
       [Logged (mkTx userId deposit amount (clock w) completed (Some hash)
                  ("Staked " ++ amount ++ " TON to smart contract"))]
  /\ (forall fault e,
        processDeposit fault gen config (Thrown e) balance userId amount wallet w
        = (Thrown e, w)).
Proof.
  intros u r.
  destruct (getUserData_reliable gen userId w) as (w1 & EG & HU1 & HT1 & HP1 & HC1).
  fold u in EG, HU1.
  set (patch := mkPatch (Some wallet)
                  (Some (JS.toFixed (JS.parseFloat (strOr (stakedAmount u) "0")
                                     + JS.parseFloat amount)%float 9))
                  None None None None None None).
  set (w2 := putUser userId (applyPatch u patch (clock w)) (tick w1)).
  set (doc := Logged (mkTx userId deposit amount (clock w) completed (Some hash)
                        ("Staked " ++ amount ++ " TON to smart contract"))).
  set (w3 := addDoc doc (tick w2)).
  assert (users (data w3)
          = <[userId := applyPatch u patch (clock w)]> (users (data w))) as HU.
  { cbn [w3 w2 addDoc putUser tick data users withUsers withTransactions].
    rewrite HU1, insert_insert_eq. reflexivity. }
  assert (transactions (data w3) = transactions (data w) ++ [doc]) as HT.
  { cbn [w3 w2 addDoc putUser tick data transactions withUsers withTransactions].
    rewrite HT1. reflexivity. }
  assert (exists o w4, r = (o, w4) /\ users (data w4) = users (data w3)
                       /\ transactions (data w4) = transactions (data w3))
    as (o & w4 & Er & HU4 & HT4).
  { unfold r, processDeposit. rewrite tryCatch_rethrow.
    unfold bind at 1, external. unfold bind at 1.
    unfold updateFirestoreForDeposit. rewrite tryCatch_rethrow.
    rewrite (bind_returned _ _ _ _ _ EG). fold patch.
    assert (updateUserBalance reliable userId patch w1 = (Returned tt, w2)) as EU.
    { rewrite (updateUserBalance_reliable userId patch u w1).
      - unfold w2. rewrite HC1. reflexivity.
      - rewrite HU1. apply lookup_insert_eq. }
    rewrite (bind_returned _ _ _ _ _ EU). rewrite bind_currentTime.
    rewrite (bind_returned _ _ _ _ _ (logTransaction_reliable _ w2)).
    cbn [Firestore.userId Firestore.type Firestore.amount Firestore.status
         Firestore.txHash Firestore.description].
    change (clock w2) with (clock w1). rewrite HC1. fold doc. fold w3.
    rewrite (pool_update_eq config balance
               (fun b now' => mkPoolPatch (Some b) None None None None
                                (Some (JSDate.toISOString now')) None None) w3).
    destruct balance as [b|e]; [|eauto].
    destruct (pool (data w3)); eauto. }
  rewrite Er. cbn [snd]. rewrite HU4, HT4. split; [exact HU|]. split; [exact HT|].
  intros fault e. reflexivity.
Qed.

Lemma contract_deposit_adds_witness :
  let r := processDeposit reliable Examples.gen (CONTRACT_CONFIG "contract")
             (Returned "hash"%string) (Returned "1000"%string)
             "ivy" "3" "wallet" Examples.ivyWorld in
  (stakedAmount <$> users (data Examples.ivyWorld) !! "ivy") = Some "41"%string
  /\ (stakedAmount <$> users (data (snd r)) !! "ivy") = Some "44.000000000"%string.
Proof.
  cbv zeta. split; [vm_compute; reflexivity|].
  rewrite (proj1 (contract_deposit_adds Examples.gen (CONTRACT_CONFIG "contract")
                    "hash"%string (Returned "1000"%string) Examples.ivyWorld
                    "ivy"%string "3"%string "wallet"%string)).
  vm_compute. reflexivity.
Defined.

End ContractProperties.

Section ContractFormulasProperties.

(** X18: the two distributions pay the same standard reward, up to
    rounding.  [SmartContractManager] gives each account its share
    [stake / total] of the pool's net daily reward at 8.7% a year less 12%;
    with exact arithmetic on fractions that is the net reward
    [distributeUserRewardWithPremium] computes for a standard account from
    its own stake, whatever the other stakes are.  In binary64 the two
    numbers can differ in the last place (41 TON of 1043 staked) while
    their text with nine fraction digits agrees.  The contract manager has
    no premium rate. *)
Theorem contract_reward_is_standard_reward :
  (forall totalStaked stake : Qc,
     totalStaked <> 0%Qc ->
     proportionalReward (netDailyReward (lit 87 1) (lit 12 2) totalStaked) stake totalStaked
     = netUserReward (userReward stake false))
  /\ (let viaPool := proportionalReward (netDailyReward 8.7%float 0.12%float 1043%float)
                       41%float 1043%float in
      let direct := netUserReward (userReward 41%float false) in
      SmartContract.apy (SmartContract.CONTRACT_CONFIG "contract") = lit 87 1
      /\ SmartContract.adminCommission (SmartContract.CONTRACT_CONFIG "contract") = lit 12 2
      /\ JS.numberToString viaPool = "0.008599890410958903"%string
      /\ JS.numberToString direct = "0.008599890410958905"%string
      /\ JS.toFixed viaPool 9 = JS.toFixed direct 9).
Proof.
  split.
  - intros T s HT.
    assert (lit (num := Qc) 87 1 / lit 100 0 = lit 87 3)%num as Hrate.
    { apply Qc_is_canon. reflexivity. }
    assert (lit (num := Qc) 365 0 <> 0%Qc) as Hd.
    { intros H. apply (f_equal Qcanon.this) in H. discriminate. }
    unfold proportionalReward, netDailyReward, grossDailyReward, contractDailyRate,
      netUserReward, adminCommission, userReward, dailyRate, apyRate.
    rewrite Hrate.
    change (@nadd Qc rational) with Qcplus. change (@nsub Qc rational) with Qcminus.
    change (@nmul Qc rational) with Qcmult. change (@ndiv Qc rational) with Qcdiv.
    field. split; assumption.
  - vm_compute. repeat split; reflexivity.
Qed.

End ContractFormulasProperties.

(** ** The retry of a chain transaction (server/routes.ts) *)

Module RetryLemmas.
Import Routes.

Local Open Scope Z_scope.

Lemma timerDelay_pos (ms : Z) : 0 < timerDelay ms.
Proof.
  unfold timerDelay. destruct (ms <? 1) eqn:H1; cbn [orb]; [lia|].
  destruct (2147483647 <? ms); lia.
Qed.

Lemma backoff_S (k : nat) :
  backoff (S k) = backoff k + timerDelay (2 ^ Z.of_nat (S k) * 1000).
Proof. reflexivity. Qed.

Lemma backoff_mono (a b : nat) : (a <= b)%nat -> backoff a <= backoff b.
Proof.
  induction 1 as [|b _ IH]; [lia|].
  rewrite backoff_S. pose proof (timerDelay_pos (2 ^ Z.of_nat (S b) * 1000)). lia.
Qed.

Section Loop.
Context {D : Type} (operation : Async D string) (maxRetries : Z).
Hypothesis keeps_clock : forall w, clock (snd (operation w)) = clock w.
Hypothesis one_request : forall w, requests (snd (operation w)) = S (requests w).

(** The loop from [attempt] on, with enough fuel for the attempts left. *)
Lemma retryLoop_spec (fuel : nat) (attempt : Z) (w : World D) :
  1 <= attempt <= maxRetries ->
  (Z.to_nat (maxRetries - attempt) < fuel)%nat ->
  let r := retryLoop operation maxRetries fuel attempt w in
  (forall s, fst r = Returned s -> exists w0, operation w0 = (Returned s, snd r))
  /\ (forall e, fst r = Thrown e ->
        (exists w0, operation w0 = (Thrown e, snd r))
        /\ Z.of_nat (requests (snd r)) = Z.of_nat (requests w) + (maxRetries - attempt + 1)
        /\ clock (snd r)
           = clock w + backoff (Z.to_nat (maxRetries - 1)) - backoff (Z.to_nat (attempt - 1)))
  /\ (requests w < requests (snd r))%nat
  /\ Z.of_nat (requests (snd r)) <= Z.of_nat (requests w) + (maxRetries - attempt + 1)
  /\ clock w <= clock (snd r)
     <= clock w + backoff (Z.to_nat (maxRetries - 1)) - backoff (Z.to_nat (attempt - 1))
  /\ (forall s w', operation w = (Returned s, w') -> r = (Returned s, w')).
Proof.
  revert attempt w. induction fuel as [|fuel IH]; intros attempt w Ha Hf; [lia|].
  cbv zeta. cbn [retryLoop].
  destruct (attempt <=? maxRetries) eqn:Hle; [|apply Z.leb_gt in Hle; lia].
  unfold tryCatch.
  pose proof (keeps_clock w) as Hc. pose proof (one_request w) as Hr.
  assert (backoff (Z.to_nat (attempt - 1)) <= backoff (Z.to_nat (maxRetries - 1))) as Hb.
  { apply backoff_mono. lia. }
  destruct (operation w) as [[s|e] w1] eqn:Eop; cbn [fst snd] in *.
  { split; [|split; [|split; [|split; [|split]]]].
    - intros s' [= <-]. exists w. exact Eop.
    - intros e He. discriminate.
    - lia.
    - lia.
    - lia.
    - intros s' w' [= <- <-]. reflexivity. }
  destruct (attempt =? maxRetries) eqn:Heq.
  { apply Z.eqb_eq in Heq. subst attempt. unfold throw. cbn [fst snd].
    split; [|split; [|split; [|split; [|split]]]].
    - intros s' Hs. discriminate.
    - intros e' [= <-]. split; [exists w; exact Eop|]. split; lia.
    - lia.
    - lia.
    - lia.
    - intros s' w' Hs. discriminate. }
  apply Z.eqb_neq in Heq.
  unfold bind, sleep. cbv beta iota.
  destruct (IH (attempt + 1)
              (mkWorld (data w1) (clock w1 + timerDelay (2 ^ attempt * 1000)) (requests w1)))
    as (H1 & H2 & H3 & H4 & H5 & _); [lia | lia |].
  cbn [clock requests] in H2, H3, H4, H5.
  assert (backoff (Z.to_nat (attempt + 1 - 1))
          = backoff (Z.to_nat (attempt - 1)) + timerDelay (2 ^ attempt * 1000)) as Hstep.
  { replace (Z.to_nat (attempt + 1 - 1)) with (S (Z.to_nat (attempt - 1))) by lia.
    rewrite backoff_S.
    replace (Z.of_nat (S (Z.to_nat (attempt - 1)))) with attempt by lia. reflexivity. }
  pose proof (timerDelay_pos (2 ^ attempt * 1000)) as Hpos.
  split; [|split; [|split; [|split; [|split]]]].
  - exact H1.
  - intros e' He'. destruct (H2 e' He') as (Hop & Hq & Hck).
    split; [exact Hop|]. split; lia.
  - lia.
  - lia.
  - lia.
  - intros s' w' Hs. discriminate.
Qed.

End Loop.
End RetryLemmas.

Section RetryProperties.
Import Routes RetryLemmas.

Local Open Scope Z_scope.

(** X19: [retryTransaction] makes at least one and at most
    [maxRetries] attempts (three when no number is given).  For an
    operation that makes one request per attempt and takes no time of its
    own: with no retries allowed it throws "All transaction attempts
    failed" without calling the operation; otherwise its result is the
    result of one of the attempts (so that error is never thrown), an
    attempt that succeeds at once is returned as it is, and a failure
    means that every attempt was made and failed, after waits of 2, 4, 8
    ... seconds between them: 6 seconds in all for three attempts. *)
Theorem retryTransaction_bounded {D : Type} (operation : Async D string)
  (maxRetries : option Z) (w : World D) :
  (forall w0, clock (snd (operation w0)) = clock w0) ->
  (forall w0, requests (snd (operation w0)) = S (requests w0)) ->
  let n := default 3 maxRetries in
  let r := retryTransaction operation maxRetries w in
  (n <= 0 -> r = (Thrown (ErrorMsg "All transaction attempts failed"), w))
  /\ (1 <= n ->
      (forall s, fst r = Returned s -> exists w0, operation w0 = (Returned s, snd r))
      /\ (forall e, fst r = Thrown e ->
            (exists w0, operation w0 = (Thrown e, snd r))
            /\ Z.of_nat (requests (snd r)) = Z.of_nat (requests w) + n
            /\ clock (snd r) = clock w + backoff (Z.to_nat (n - 1)))
      /\ (requests w < requests (snd r))%nat
      /\ Z.of_nat (requests (snd r)) <= Z.of_nat (requests w) + n
      /\ clock w <= clock (snd r) <= clock w + backoff (Z.to_nat (n - 1))
      /\ (forall s w', operation w = (Returned s, w') -> r = (Returned s, w')))
  /\ backoff 2 = 6000.
Proof.
  intros Hc Hr n r. split; [|split; [|reflexivity]].
  - intros Hn. unfold r, retryTransaction. fold n. cbn [retryLoop].
    destruct (1 <=? n) eqn:H1; [apply Z.leb_le in H1; lia|]. reflexivity.
  - intros Hn.
    destruct (retryLoop_spec operation n Hc Hr (S (Z.to_nat n)) 1 w)
      as (H1 & H2 & H3 & H4 & H5 & H6); [lia | lia |].
    change (retryLoop operation n (S (Z.to_nat n)) 1 w) with r in *.
    change (backoff (Z.to_nat (1 - 1))) with 0 in *.
    split; [exact H1|]. split.
    { intros e He. destruct (H2 e He) as (Hop & Hq & Hck).
      split; [exact Hop|]. split; lia. }
    split; [exact H3|]. split; [lia|]. split; [lia|]. exact H6.
Qed.

Lemma retryTransaction_bounded_witness :
  let r := retryTransaction (stakeOnce failTwice) None (mkWorld tt 0 0%nat) in
  fst r = Returned "stake_tx"%string
  /\ (requests (snd r) <= 3)%nat
  /\ clock (snd r) <= 6000.
Proof.
  cbv zeta.
  assert (forall w0 : World unit, clock (snd (stakeOnce failTwice w0)) = clock w0) as Hc.
  { intros w0. unfold stakeOnce, bind, request, ret. destruct (failTwice _ _); reflexivity. }
  assert (forall w0 : World unit,
            requests (snd (stakeOnce failTwice w0)) = S (requests w0)) as Hr.
  { intros w0. unfold stakeOnce, bind, request, ret. destruct (failTwice _ _); reflexivity. }
  destruct (retryTransaction_bounded (stakeOnce failTwice) None (mkWorld tt 0 0%nat) Hc Hr)
    as (_ & H & _).
  destruct (H ltac:(cbn; lia)) as (_ & _ & _ & H4 & H5 & _).
  change (backoff (Z.to_nat (default 3 None - 1))) with 6000 in H5.
  cbn [default clock requests] in H4, H5.
  split; [vm_compute; reflexivity|]. split; lia.
Defined.

End RetryProperties.

(** ** The staking API (the router of server/firestoreManager.ts) *)

Section ApiProperties.
Import Firestore FirestoreFacts FirestoreLemmas FirestoreQueries StakingApi
  ContractFacts ContractLemmas.

(** X20: connecting a wallet needs an account.
    [POST /wallet/connect] updates the user's document and nothing else;
    it does not create one.  For a user without a document it answers 500
    and writes nothing; for a stored user, when the store accepts the
    update, it answers with success and the document holds the new wallet
    address, with stake, rewards, referral data and premium tier as they
    were. *)
Theorem wallet_connect_requires_account (fault : nat -> Request -> bool)
  (telegramId walletAddress : string) (w : World Db) :
  notEmpty telegramId = true ->
  notEmpty walletAddress = true ->
  let r := walletConnect fault telegramId walletAddress w in
  (users (data w) !! telegramId = None ->
   data (snd r) = data w /\ exists message, fst r = Returned (Refused 500 message))
  /\ (forall u, users (data w) !! telegramId = Some u ->
      fault (requests w) (Update Users telegramId) = false ->
      fst r = Returned (Json "Wallet connected successfully"%string)
      /\ exists u', users (data (snd r)) = <[telegramId := u']> (users (data w))
           /\ Firestore.walletAddress u' = Some walletAddress
           /\ stakedAmount u' = stakedAmount u /\ rewardsBalance u' = rewardsBalance u
           /\ totalEarnings u' = totalEarnings u /\ referredBy u' = referredBy u
           /\ referralCode u' = referralCode u /\ isPremium u' = isPremium u).
Proof.
  intros Ht Ha. cbv zeta. unfold walletConnect. rewrite Ht, Ha. cbn [andb].
  unfold tryCatch, bind. rewrite updateUserBalance_eq.
  destruct (fault (requests w) (Update Users telegramId)).
  { split.
    - intros _. cbn [fst snd ret tick data]. unfold ret. cbn [fst snd tick data]. eauto.
    - intros u _ HU. discriminate. }
  destruct (users (data w) !! telegramId) as [u|] eqn:Hk.
  - split; [discriminate|]. intros u0 [= <-] _. unfold ret. cbn [fst snd].
    split; [reflexivity|]. eexists. split; [reflexivity|]. repeat split.
  - split.
    + intros _. unfold ret. cbn [fst snd tick data]. eauto.
    + intros u HU. discriminate.
Qed.

Lemma wallet_connect_requires_account_witness :
  fst (walletConnect reliable "nobody" "EQwallet" Examples.ivyWorld)
  = Returned (Refused 500 "not-found")
  /\ fst (walletConnect reliable "ivy" "EQwallet" Examples.ivyWorld)
     = Returned (Json "Wallet connected successfully"%string).
Proof.
  split.
  - destruct (wallet_connect_requires_account reliable "nobody"%string "EQwallet"%string
                Examples.ivyWorld eq_refl eq_refl) as (H & _).
    destruct (H eq_refl) as (_ & message & E). rewrite E. vm_compute in E.
    injection E as <-. reflexivity.
  - destruct (wallet_connect_requires_account reliable "ivy"%string "EQwallet"%string
                Examples.ivyWorld eq_refl eq_refl) as (_ & H).
    destruct (H Examples.ivy eq_refl eq_refl) as (E & _). exact E.
Defined.

(** X21: [POST /deposit] checks before it writes, and does not undo.
    A request whose amount is not a decimal numeral, or is below 0.1 TON,
    is answered with status 400 without a store access.  An accepted
    request on a reliable store leaves the amount as the user's stake (the
    account is created when missing) whatever [addTransaction] does: when
    that call throws, the client is told 500 with the error message and the
    stake stays written; when it returns, the client gets the hash and the
    updated document. *)
Theorem deposit_route_no_rollback (gen : string -> Z -> string) (adminAddress : string)
  (addTransaction : WalletTransaction -> Async Db unit)
  (telegramId amount : string) (wallet : option string) (w : World Db) :
  (forall t0 w0, users (data (snd (addTransaction t0 w0))) = users (data w0)) ->
  let r := deposit reliable gen adminAddress addTransaction telegramId amount wallet w in
  let belowMinimum := PrimFloat.leb (JS.parseFloat amount) 0
                      || PrimFloat.ltb (JS.parseFloat amount) 0.1 in
  let from := match wallet with
              | Some a => strOr a "user_wallet"
              | None => "user_wallet"%string
              end in
  let hash := ("deposit_" ++ timeText (clock w) ++ "_" ++ telegramId)%string in
  let stored := applyPatch (current gen telegramId w) (stakePatch amount) (clock w) in
  (matchesAmount amount = false -> r = (Returned Invalid, w))
  /\ (matchesAmount amount = true -> belowMinimum = true ->
      r = (Returned (Refused 400 "Minimum stake amount is 0.1 TON"), w))
  /\ (matchesAmount amount = true -> belowMinimum = false ->
      users (data (snd r)) !! telegramId = Some stored
      /\ stakedAmount stored = amount
      /\ exists w2,
           users (data w2) !! telegramId = Some stored
           /\ match fst (addTransaction
                           (mkWalletTx telegramId "deposit" amount "completed" hash from
                              adminAddress (clock w)) w2) with
              | Thrown e => fst r = Returned (Refused 500 (messageOf e))
              | Returned _ =>
                  fst r = Returned (Json (mkMoneyBody
                                            ("Successfully staked " ++ amount ++ " TON")
                                            hash stored))
              end).
Proof.
  intros Hframe. cbv zeta. unfold deposit.
  split; [|split].
  - intros ->. reflexivity.
  - intros -> ->. reflexivity.
  - intros -> ->.
    destruct (getUserData_reliable gen telegramId w) as (w1 & E1 & HU1 & _ & _ & HC1).
    set (from := match wallet with Some a => strOr a "user_wallet"
                              | None => "user_wallet"%string end).
    set (u := current gen telegramId w) in *.
    assert (users (data w1) !! telegramId = Some u) as Hk1.
    { rewrite HU1. apply lookup_insert_eq. }
    pose proof (updateUserBalance_reliable telegramId (stakePatch amount) u w1 Hk1) as EU.
    rewrite HC1 in EU.
    set (stored := applyPatch u (stakePatch amount) (clock w)) in *.
    set (w2 := putUser telegramId stored (tick w1)) in *.
    assert (users (data w2) !! telegramId = Some stored) as Hk2.
    { unfold w2. cbn [putUser data users withUsers]. apply lookup_insert_eq. }
    assert (clock w2 = clock w) as HC2 by (unfold w2; cbn; exact HC1).
    set (t := mkWalletTx telegramId "deposit" amount "completed"
                ("deposit_" ++ timeText (clock w) ++ "_" ++ telegramId) from
                adminAddress (clock w)).
    assert (processDirectDeposit reliable adminAddress addTransaction telegramId amount
              from w1
            = (match fst (addTransaction t w2) with
               | Returned _ => Returned ("deposit_" ++ timeText (clock w) ++ "_"
                                         ++ telegramId)%string
               | Thrown e => Thrown e
               end, snd (addTransaction t w2))) as ED.
    { unfold processDirectDeposit. rewrite tryCatch_rethrow.
      unfold stakePatch in EU. rewrite (bind_returned _ _ _ _ _ EU).
      rewrite bind_currentTime. rewrite HC2. fold t. unfold bind.
      destruct (addTransaction t w2) as [[a|e] w3]; reflexivity. }
    pose proof (Hframe t w2) as HF.
    destruct (addTransaction t w2) as [[a|e] w3] eqn:EA; cbn [fst snd] in ED, HF.
    + destruct (getUserData_reliable gen telegramId w3) as (w4 & E4 & HU4 & _).
      assert (current gen telegramId w3 = stored) as Hcur.
      { unfold current. rewrite HF, Hk2. reflexivity. }
      rewrite Hcur in E4, HU4.
      unfold tryCatch. rewrite (bind_returned _ _ _ _ _ E1).
      rewrite (bind_returned _ _ _ _ _ ED). rewrite (bind_returned _ _ _ _ _ E4).
      unfold ret. cbn [fst snd].
      split; [rewrite HU4; apply lookup_insert_eq|].
      split; [reflexivity|].
      exists w2. split; [exact Hk2|]. fold t. rewrite EA. reflexivity.
    + unfold tryCatch. rewrite (bind_returned _ _ _ _ _ E1).
      rewrite (bind_thrown _ _ _ _ _ ED). unfold ret. cbn [fst snd].
      split; [rewrite HF; exact Hk2|].
      split; [reflexivity|].
      exists w2. split; [exact Hk2|]. fold t. rewrite EA. reflexivity.
Qed.

Lemma deposit_route_no_rollback_witness :
  let r := deposit reliable Examples.gen "admin" missingAddTransaction "ivy" "3" None
             Examples.ivyWorld in
  fst r = Returned (Refused 500 "addTransaction is not a function")
  /\ (stakedAmount <$> users (data (snd r)) !! "ivy") = Some "3"%string
  /\ (stakedAmount <$> users (data Examples.ivyWorld) !! "ivy") = Some "41"%string.
Proof.
  cbv zeta.
  destruct (deposit_route_no_rollback Examples.gen "admin"%string missingAddTransaction
              "ivy"%string "3"%string None Examples.ivyWorld (fun t0 w0 => eq_refl))
    as (_ & _ & H).
  destruct H as (Hs & Ha & w2 & _ & Hr); [vm_compute; reflexivity..|].
  cbn [missingAddTransaction throw fst] in Hr.
  split; [exact Hr|]. split; [rewrite Hs; reflexivity|reflexivity].
Defined.

(** X22: [GET /premium/status/:telegramId] never clears a premium flag.
    The route would downgrade an account whose [new Date(premiumExpiresAt)]
    is before the current time, and for a stored expiry that date is
    invalid.  Whatever the store does, the call leaves the premium fields
    of every stored account as they are and adds no transaction; on a
    reliable store it stores nothing but the account it may have created,
    and reports the flag and the expiry date as stored, also when that
    date has passed. *)
Theorem premium_status_never_downgrades (gen : string -> Z -> string)
  (telegramId : string) (w : World Db) :
  notEmpty telegramId = true ->
  let u := current gen telegramId w in
  let r := premiumStatus reliable gen telegramId w in
  (forall fault,
     KeepsPremium w (snd (premiumStatus fault gen telegramId w))
     /\ transactions (data (snd (premiumStatus fault gen telegramId w)))
        = transactions (data w))
  /\ users (data (snd r)) = <[telegramId := u]> (users (data w))
  /\ fst r = Returned (Json (mkPremiumBody (isPremium u) (premiumExpiresAt u)
                               (match premiumRate u with
                                | Some rate => strOr rate (if isPremium u then "10.5"
                                                           else "8.7")
                                | None => if isPremium u then "10.5"%string
                                          else "8.7"%string
                                end)
                               "8.7" "1.8% higher APY (10.5% vs 8.7%)" "2 TON")).
Proof.
  intros Hn. cbv zeta.
  assert (forall (userData : UserData) (now : Z),
            isPremium userData &&
            match premiumExpiresAt userData with
            | Some stamp => dateBefore (dateOfStored stamp) now
            | None => false
            end = false) as Hnever.
  { intros userData now. destruct (isPremium userData); [|reflexivity].
    destruct (premiumExpiresAt userData); reflexivity. }
  split; [|split].
  - intros fault. unfold premiumStatus. rewrite Hn. unfold tryCatch.
    pose proof (FirestoreFrames.getUserData_keeps fault gen telegramId w) as HK.
    assert (transactions (data (snd (getUserData fault gen telegramId w)))
            = transactions (data w)) as HT.
    { rewrite getUserData_eq.
      destruct (fault (requests w) (Get Users telegramId)); [reflexivity|].
      destruct (users (data w) !! telegramId); [reflexivity|].
      destruct (fault (S (requests w)) (SetDoc Users telegramId)); reflexivity. }
    destruct (getUserData fault gen telegramId w) as [[userData|e] w1] eqn:EG.
    + rewrite (bind_returned _ _ _ _ _ EG). rewrite bind_currentTime.
      rewrite Hnever. unfold bind, ret. cbn [fst snd] in *.
      split; [exact HK|exact HT].
    + rewrite (bind_thrown _ _ _ _ _ EG). unfold ret. cbn [fst snd] in *.
      split; [exact HK|exact HT].
  - unfold premiumStatus. rewrite Hn.
    destruct (getUserData_reliable gen telegramId w) as (w1 & E1 & HU1 & _).
    unfold tryCatch. rewrite (bind_returned _ _ _ _ _ E1). rewrite bind_currentTime.
    rewrite Hnever. unfold bind, ret. cbn [fst snd]. exact HU1.
  - unfold premiumStatus. rewrite Hn.
    destruct (getUserData_reliable gen telegramId w) as (w1 & E1 & _).
    unfold tryCatch. rewrite (bind_returned _ _ _ _ _ E1). rewrite bind_currentTime.
    rewrite Hnever. unfold bind, ret. cbn [fst snd]. reflexivity.
Qed.

Lemma premium_status_never_downgrades_witness :
  let r := premiumStatus reliable Examples.gen "carol" Examples.carolWorld in
  (premiumExpiresAt Examples.carol = Some 50%Z /\ clock Examples.carolWorld = 1000%Z)
  /\ (isPremium <$> users (data (snd r)) !! "carol") = Some true
  /\ fst r = Returned (Json (mkPremiumBody true (Some 50%Z) "10.5" "8.7"
                               "1.8% higher APY (10.5% vs 8.7%)" "2 TON")).
Proof.
  cbv zeta. split; [split; reflexivity|].
  destruct (premium_status_never_downgrades Examples.gen "carol"%string
              Examples.carolWorld eq_refl) as (_ & Hs & Hr).
  split; [rewrite Hs; reflexivity|exact Hr].
Defined.

(** X23: [GET /user/:userId] stores an account for an identifier it has
    not seen, also when the request then fails.  On a reliable store the
    users afterwards are the users before with the read or created account;
    without a pool document the answer is 500 with the message of
    [getPoolData]; with one, the body shows the account's balances, their
    sum with nine fraction digits, and a referral count that is always
    zero. *)
Theorem user_route_creates_account (gen : string -> Z -> string) (userId : string)
  (w : World Db) :
  notEmpty userId = true ->
  let u := current gen userId w in
  let r := user reliable gen userId w in
  users (data (snd r)) = <[userId := u]> (users (data w))
  /\ (pool (data w) = None -> fst r = Returned (Refused 500 "Pool data not found"))
  /\ (forall p, pool (data w) = Some p ->
      exists body,
        fst r = Returned (Json body)
        /\ viewStakedAmount body = stakedAmount u
        /\ viewRewardsBalance body = rewardsBalance u
        /\ totalBalance body
           = JS.toFixed (JS.parseFloat (stakedAmount u)
                         + JS.parseFloat (rewardsBalance u))%float 9
        /\ referralCount body = 0
        /\ viewTotalStaked body = totalStaked p).
Proof.
  intros Hn. cbv zeta. unfold user. rewrite Hn.
  destruct (getUserData_reliable gen userId w) as (w1 & E1 & HU1 & _ & HP1 & _).
  set (u := current gen userId w) in *.
  unfold tryCatch. rewrite (bind_returned _ _ _ _ _ E1).
  unfold calculateReferralEarnings, getPoolData, tryCatch, bind, request, getWorld, ret,
    throw.
  cbn [reliable fst snd tick data]. rewrite HP1.
  destruct (pool (data w)) as [p|]; cbn [fst snd tick data].
  - split; [exact HU1|]. split; [discriminate|]. intros p0 [= <-].
    eexists. split; [reflexivity|]. repeat split.
  - split; [exact HU1|]. split; [reflexivity|]. intros p0 H. discriminate.
Qed.

Lemma user_route_creates_account_witness :
  let w := mkWorld (mkDb (users (data Examples.ivyWorld)) [] None) 1000 0 in
  let r := user reliable Examples.gen "newcomer" w in
  users (data w) !! "newcomer" = None
  /\ fst r = Returned (Refused 500 "Pool data not found")
  /\ (stakedAmount <$> users (data (snd r)) !! "newcomer") = Some "0"%string.
Proof.
  cbv zeta. split; [reflexivity|].
  destruct (user_route_creates_account Examples.gen "newcomer"%string
              (mkWorld (mkDb (users (data Examples.ivyWorld)) [] None) 1000 0) eq_refl)
    as (HU & HN & _).
  split; [exact (HN eq_refl)|]. rewrite HU. rewrite lookup_insert_eq. reflexivity.
Defined.

(** X24: [POST /withdraw] for an identifier without an account creates
    the account and then refuses.  On a reliable store, a positive amount
    requested for an unknown user is answered with status 500 and the
    insufficient-balance message for an available balance of 0 TON; the new
    account, with zero balances, stays stored and [addTransaction] is not
    reached. *)
Theorem withdraw_route_unknown_user (gen : string -> Z -> string) (adminAddress : string)
  (addTransaction : WalletTransaction -> Async Db unit)
  (telegramId amount : string) (wallet : option string) (w : World Db) :
  matchesAmount amount = true ->
  PrimFloat.ltb 0 (JS.parseFloat amount) = true ->
  users (data w) !! telegramId = None ->
  let r := withdraw reliable gen adminAddress addTransaction telegramId amount wallet w in
  fst r = Returned (Refused 500 ("Insufficient balance. Available: 0 TON, Requested: " ++
                                 JS.numberToString (JS.parseFloat amount) ++ " TON"))
  /\ users (data (snd r)) = <[telegramId := newUser gen telegramId (clock w)]> (users (data w))
  /\ transactions (data (snd r)) = transactions (data w).
Proof.
  intros Hm Hpos Hk. cbv zeta. unfold withdraw. rewrite Hm.
  assert (PrimFloat.leb (JS.parseFloat amount) 0 = false) as Hle.
  { revert Hpos. rewrite ltb_spec, leb_spec. change (Prim2SF 0) with (S754_zero false).
    destruct (Prim2SF (JS.parseFloat amount)) as [s|s| |s m e]; try destruct s; cbn;
      congruence. }
  rewrite Hle.
  assert (getUserData reliable gen telegramId w
          = (Returned (newUser gen telegramId (clock w)),
             putUser telegramId (newUser gen telegramId (clock w)) (tick (tick w)))) as EG.
  { rewrite getUserData_eq. cbn [reliable]. rewrite Hk. reflexivity. }
  assert (processDirectWithdrawal reliable gen adminAddress addTransaction telegramId amount
            (match wallet with Some a => strOr a "user_wallet"
                          | None => "user_wallet"%string end) w
          = (Thrown (ErrorMsg ("Insufficient balance. Available: 0 TON, Requested: " ++
                               JS.numberToString (JS.parseFloat amount) ++ " TON")),
             putUser telegramId (newUser gen telegramId (clock w)) (tick (tick w)))) as EW.
  { unfold processDirectWithdrawal. rewrite tryCatch_rethrow.
    rewrite (bind_returned _ _ _ _ _ EG). cbn [newUser stakedAmount rewardsBalance].
    change (numOr0 (JS.parseFloat "0") + numOr0 (JS.parseFloat "0"))%float with 0%float.
    rewrite Hpos. reflexivity. }
  unfold tryCatch. rewrite (bind_thrown _ _ _ _ _ EW). unfold ret. cbn [fst snd].
  split; [reflexivity|]. split; reflexivity.
Qed.

Lemma withdraw_route_unknown_user_witness :
  let r := withdraw reliable Examples.gen "admin" missingAddTransaction "newcomer" "2.5" None
             Examples.ivyWorld in
  fst r = Returned (Refused 500 "Insufficient balance. Available: 0 TON, Requested: 2.5 TON")
  /\ (stakedAmount <$> users (data (snd r)) !! "newcomer") = Some "0"%string.
Proof.
  cbv zeta.
  destruct (withdraw_route_unknown_user Examples.gen "admin"%string missingAddTransaction
              "newcomer"%string "2.5"%string None Examples.ivyWorld)
    as (Hr & HU & _); [vm_compute; reflexivity..|].
  split.
  - rewrite Hr. vm_compute. reflexivity.
  - rewrite HU, lookup_insert_eq. reflexivity.
Defined.

(** X25: [POST /referral] either refuses and writes nothing, or writes
    the referrer and answers with the stored document.  On a reliable
    store the request is either refused with status 400, and then every
    document is as it was, or answered with the caller's document as
    stored, which names as [referredBy] another stored user who holds the
    code.  Whether the caller already had a referrer is not looked at. *)
Theorem referral_route_refuses_or_writes (gen : string -> Z -> string)
  (userId code : string) (w : World Db) :
  notEmpty userId = true ->
  notEmpty code = true ->
  let r := referral reliable gen userId code w in
  (fst r = Returned (Refused 400 "Invalid referral code or already used")
   /\ data (snd r) = data w)
  \/ (exists referrerId ref u,
        users (data w) !! referrerId = Some ref /\ referralCode ref = code
        /\ referrerId <> userId
        /\ users (data w) !! userId = Some u
        /\ let u' := applyPatch u (mkPatch None None None (Some referrerId)
                                           None None None None) (clock w) in
           fst r = Returned (Json u')
           /\ users (data (snd r)) = <[userId := u']> (users (data w))).
Proof.
  intros Hu Hc. cbv zeta. unfold referral. rewrite Hu, Hc. cbn [andb].
  pose proof (processReferral_eq reliable userId code w) as EP. cbn [reliable] in EP.
  unfold tryCatch.
  destruct (findByReferralCode (users (data w)) code) as [referrerId|] eqn:Hf.
  2: { left. rewrite (bind_returned _ _ _ _ _ EP). split; reflexivity. }
  destruct (String.eqb referrerId userId) eqn:He.
  { left. rewrite (bind_returned _ _ _ _ _ EP). split; reflexivity. }
  destruct (users (data w) !! userId) as [u|] eqn:Hk.
  2: { left. rewrite (bind_returned _ _ _ _ _ EP). split; reflexivity. }
  right. destruct (findByReferralCode_stored _ _ _ Hf) as (ref & Href & Hcode).
  exists referrerId, ref, u.
  split; [exact Href|]. split; [exact Hcode|].
  split; [apply String.eqb_neq, He|]. split; [reflexivity|].
  cbv zeta. rewrite (bind_returned _ _ _ _ _ EP).
  set (u' := applyPatch u _ (clock w)).
  assert (getUserData reliable gen userId (putUser userId u' (tick (tick w)))
          = (Returned u', tick (putUser userId u' (tick (tick w))))) as EG.
  { rewrite getUserData_eq. cbn [reliable putUser data users withUsers].
    rewrite lookup_insert_eq. reflexivity. }
  rewrite (bind_returned _ _ _ _ _ EG). unfold ret. cbn [fst snd].
  split; reflexivity.
Qed.

Lemma referral_route_refuses_or_writes_witness :
  let r := referral reliable Examples.gen "alice" "CODEalice" Examples.referralWorld in
  fst r = Returned (Refused 400 "Invalid referral code or already used")
  /\ data (snd r) = data Examples.referralWorld.
Proof.
  cbv zeta.
  destruct (referral_route_refuses_or_writes Examples.gen "alice"%string "CODEalice"%string
              Examples.referralWorld eq_refl eq_refl)
    as [H|(referrerId & ref & u & _ & _ & _ & _ & H & _)].
  - exact H.
  - vm_compute in H. discriminate.
Defined.

End ApiProperties.
